(** * Review system: entitlement checks, review intake, AI enhancement, QR scans

    A shallow embedding of the request handlers and services of the review
    system backend (Express + Prisma), and the properties of its
    specification that they satisfy or fail to satisfy.

    Conventions of the embedding.
    - The datastore is an explicit state [Db]; every [prisma.*] call is one
      step of the [Io] monad and may be refused by the fault tape of the
      [World] (a datastore error, thrown as a JavaScript exception).
    - [try { .. } catch { .. }] is [tryCatch]; a rejected promise is [Throw].
    - JavaScript strings are modelled by [string] (code units 0..255);
      [toUpperCase]/[toLowerCase] act on the ASCII letters.
    - A [Date] is an [Instant]: the calendar month it falls in and the
      milliseconds elapsed since that month began. *)

From Stdlib Require Import ZArith Floats String Ascii List Bool Lia.
From stdpp Require Import gmap strings list fin_maps pretty sorting.

Set Warnings "-inexact-float".
Local Open Scope string_scope.
Local Open Scope Z_scope.

(** ** JavaScript strings *)

Module Js.

Definition upperChar (c : ascii) : ascii :=
  let n := nat_of_ascii c in
  if ((97 <=? n) && (n <=? 122))%nat then ascii_of_nat (n - 32) else c.

Definition lowerChar (c : ascii) : ascii :=
  let n := nat_of_ascii c in
  if ((65 <=? n) && (n <=? 90))%nat then ascii_of_nat (n + 32) else c.

Fixpoint mapChars (f : ascii → ascii) (s : string) : string :=
  match s with
  | EmptyString => EmptyString
  | String c t => String (f c) (mapChars f t)
  end.

Definition toUpperCase : string → string := mapChars upperChar.
Definition toLowerCase : string → string := mapChars lowerChar.

(** [s.startsWith(sub)] *)
Fixpoint startsWith (s sub : string) {struct sub} : bool :=
  match sub with
  | EmptyString => true
  | String a sub' =>
      match s with
      | EmptyString => false
      | String b s' => Ascii.eqb a b && startsWith s' sub'
      end
  end.

(** [s.includes(sub)] *)
Fixpoint includes (s sub : string) : bool :=
  startsWith s sub ||
  match s with
  | EmptyString => false
  | String _ t => includes t sub
  end.

(** [s.split(sep)] for a one-character separator. *)
Fixpoint split (sep : ascii) (s : string) : list string :=
  match s with
  | EmptyString => [EmptyString]
  | String c t =>
      if Ascii.eqb c sep then EmptyString :: split sep t
      else match split sep t with
           | h :: r => String c h :: r
           | [] => [String c EmptyString]
           end
  end.

(** White space removed by [trim()], within code units 0..255. *)
Definition isSpace (c : ascii) : bool :=
  let n := nat_of_ascii c in
  (((9 <=? n) && (n <=? 13)) || (n =? 32) || (n =? 160))%nat.

Fixpoint isBlank (s : string) : bool :=
  match s with
  | EmptyString => true
  | String c t => isSpace c && isBlank t
  end.

(** Truthiness of a string value: only [''] is falsy. *)
Definition truthy (s : string) : bool := negb (String.eqb s "").

(** [o || dflt] for a property that may be absent. *)
Definition orElse (o : option string) (dflt : string) : string :=
  match o with
  | Some s => if truthy s then s else dflt
  | None => dflt
  end.

(** [l.join(sep)] *)
Fixpoint join (sep : string) (l : list string) : string :=
  match l with
  | [] => EmptyString
  | [x] => x
  | x :: r => x +:+ sep +:+ join sep r
  end.

(** A JavaScript number that is an integer or [NaN]. *)
Inductive number := Num (z : Z) | NaN.

End Js.

(** ** Dates *)

Record Instant := { ym : Z; inMonth : N }.

Global Instance Instant_eq_dec : EqDecision Instant.
Proof. solve_decision. Defined.

Global Instance Instant_countable : Countable Instant :=
  inj_countable' (λ i, (ym i, inMonth i)) (λ p, {| ym := p.1; inMonth := p.2 |})
                 (λ i, match i with Build_Instant _ _ => eq_refl end).

(** [a >= b] on dates. *)
Definition Instant_geb (a b : Instant) : bool :=
  (ym b <? ym a) || ((ym b =? ym a) && (inMonth b <=? inMonth a)%N).

(** [new Date(now.toISOString().slice(0, 7) + '-01')], and likewise
    [d.setDate(1); d.setHours(0, 0, 0, 0)]: the first instant of the month. *)
Definition monthStart (t : Instant) : Instant := {| ym := ym t; inMonth := 0%N |}.

(** ** Data model (the Prisma models the handlers touch) *)

Inductive SubscriptionStatus := SUB_PENDING | SUB_ACTIVE | SUB_CANCELLED | SUB_EXPIRED.
Inductive ReviewStatus := PENDING | AI_GENERATED | APPROVED | PUBLISHED | REJECTED.
Inductive GenerationStatus := GEN_PENDING | GEN_APPROVED | GEN_REJECTED | GEN_REGENERATED.

Global Instance ReviewStatus_eq_dec : EqDecision ReviewStatus.
Proof. solve_decision. Defined.

Global Instance GenerationStatus_eq_dec : EqDecision GenerationStatus.
Proof. solve_decision. Defined.

Record Subscription := {
  sub_planId : string;
  sub_status : SubscriptionStatus;
  sub_startDate : Instant;
  sub_endDate : Instant;
  sub_cancelledAt : option Instant
}.

Record Business := {
  biz_name : string;
  biz_type : option string;
  biz_userEmail : string
}.

Record Customer := { cust_businessId : string }.

Record Review := {
  rev_id : string;
  rev_businessId : string;
  rev_customerId : string;
  rev_rating : Z;
  rev_feedback : string;
  rev_formData : string;
  rev_generatedReview : option string;
  rev_status : ReviewStatus;
  rev_createdAt : Instant
}.

Record AIReviewGeneration := {
  gen_reviewId : string;
  gen_originalText : string;
  gen_enhancedText : string;
  gen_confidence : float;
  gen_sentiment : string;
  gen_keywords : list string;
  gen_improvements : list string;
  gen_status : GenerationStatus;
  gen_rejectionNote : option string;
  gen_createdAt : Instant
}.

Record AIPromptTemplate := {
  tpl_businessId : option string;
  tpl_category : string;
  tpl_isDefault : bool;
  tpl_isActive : bool;
  tpl_promptText : string
}.

(** A row of [aIUsageAnalytics]; token and latency figures are left out. *)
Record AIUsageAnalytics := {
  aua_businessId : option string;
  aua_operation : string;
  aua_success : bool;
  aua_errorMessage : option string
}.

(** The Usage Ledger: [subscriptionUsage], unique on
    [businessId_month_featureType]. *)
Record SubscriptionUsage := {
  usage_count : Z;
  usage_lastUsedAt : Instant;
  usage_metadata : string
}.

Record QRCode := { qr_businessId : string; qr_scansCount : Z }.

Record QRScan := {
  scan_qrCodeId : string;
  scan_ipAddress : option string;
  scan_userAgent : option string;
  scan_location : option string;
  scan_scannedAt : Instant
}.

Record Db := {
  businesses : gmap string Business;
  subscriptions : gmap string Subscription;
  customers : gmap string Customer;
  reviews : list Review;
  aiGenerations : list AIReviewGeneration;
  aiPromptTemplates : list AIPromptTemplate;
  aiUsageAnalytics : list AIUsageAnalytics;
  subscriptionUsage : gmap (string * Instant * string) SubscriptionUsage;
  qrCodes : gmap string QRCode;
  qrScans : list QRScan;
  nextId : N
}.

Definition setReviews (f : list Review → list Review) (d : Db) : Db :=
  {| businesses := businesses d; subscriptions := subscriptions d;
     customers := customers d; reviews := f (reviews d);
     aiGenerations := aiGenerations d; aiPromptTemplates := aiPromptTemplates d;
     aiUsageAnalytics := aiUsageAnalytics d;
     subscriptionUsage := subscriptionUsage d; qrCodes := qrCodes d;
     qrScans := qrScans d; nextId := nextId d |}.

Definition setAiGenerations (f : list AIReviewGeneration → list AIReviewGeneration)
    (d : Db) : Db :=
  {| businesses := businesses d; subscriptions := subscriptions d;
     customers := customers d; reviews := reviews d;
     aiGenerations := f (aiGenerations d); aiPromptTemplates := aiPromptTemplates d;
     aiUsageAnalytics := aiUsageAnalytics d;
     subscriptionUsage := subscriptionUsage d; qrCodes := qrCodes d;
     qrScans := qrScans d; nextId := nextId d |}.

Definition setAiUsageAnalytics (f : list AIUsageAnalytics → list AIUsageAnalytics)
    (d : Db) : Db :=
  {| businesses := businesses d; subscriptions := subscriptions d;
     customers := customers d; reviews := reviews d;
     aiGenerations := aiGenerations d; aiPromptTemplates := aiPromptTemplates d;
     aiUsageAnalytics := f (aiUsageAnalytics d);
     subscriptionUsage := subscriptionUsage d; qrCodes := qrCodes d;
     qrScans := qrScans d; nextId := nextId d |}.

Definition setSubscriptionUsage
    (f : gmap (string * Instant * string) SubscriptionUsage →
         gmap (string * Instant * string) SubscriptionUsage) (d : Db) : Db :=
  {| businesses := businesses d; subscriptions := subscriptions d;
     customers := customers d; reviews := reviews d;
     aiGenerations := aiGenerations d; aiPromptTemplates := aiPromptTemplates d;
     aiUsageAnalytics := aiUsageAnalytics d;
     subscriptionUsage := f (subscriptionUsage d); qrCodes := qrCodes d;
     qrScans := qrScans d; nextId := nextId d |}.

Definition setQrCodes (f : gmap string QRCode → gmap string QRCode) (d : Db) : Db :=
  {| businesses := businesses d; subscriptions := subscriptions d;
     customers := customers d; reviews := reviews d;
     aiGenerations := aiGenerations d; aiPromptTemplates := aiPromptTemplates d;
     aiUsageAnalytics := aiUsageAnalytics d;
     subscriptionUsage := subscriptionUsage d; qrCodes := f (qrCodes d);
     qrScans := qrScans d; nextId := nextId d |}.

Definition setQrScans (f : list QRScan → list QRScan) (d : Db) : Db :=
  {| businesses := businesses d; subscriptions := subscriptions d;
     customers := customers d; reviews := reviews d;
     aiGenerations := aiGenerations d; aiPromptTemplates := aiPromptTemplates d;
     aiUsageAnalytics := aiUsageAnalytics d;
     subscriptionUsage := subscriptionUsage d; qrCodes := qrCodes d;
     qrScans := f (qrScans d); nextId := nextId d |}.


(** ** The world outside a handler, and the monad of handlers *)

(** What one call of [model.generateContent] does. *)
Inductive AiOutcome :=
| AiThrows (msg : string)
| AiNoResponse
| AiText (text : string).

Record World := {
  db : Db;
  faults : list bool;       (* one flag per datastore call: [true] = it throws *)
  gemini : list AiOutcome;  (* one outcome per call of the generative model *)
  now : Instant
}.

Inductive Outcome (A : Type) :=
| Ok (a : A)
| Throw (e : string).
Arguments Ok {A} a.
Arguments Throw {A} e.

Definition Io (A : Type) : Type := World → Outcome A * World.

Global Instance Io_ret : MRet Io := λ A a w, (Ok a, w).

Global Instance Io_bind : MBind Io := λ A B f m w,
  match m w with
  | (Ok a, w') => f a w'
  | (Throw e, w') => (Throw e, w')
  end.

Definition throw {A} (e : string) : Io A := λ w, (Throw e, w).

Definition tryCatch {A} (body : Io A) (handler : string → Io A) : Io A := λ w,
  match body w with
  | (Ok a, w') => (Ok a, w')
  | (Throw e, w') => handler e w'
  end.

Definition getNow : Io Instant := λ w, (Ok (now w), w).

Definition datastoreError : string := "datastore error".

(** One [await prisma.model.op(..)]: consumes one fault flag. *)
Definition prisma {A} (op : Db → Outcome A * Db) : Io A := λ w,
  match faults w with
  | true :: rest =>
      (Throw datastoreError,
       {| db := db w; faults := rest; gemini := gemini w; now := now w |})
  | false :: rest =>
      let (r, d) := op (db w) in
      (r, {| db := d; faults := rest; gemini := gemini w; now := now w |})
  | [] =>
      let (r, d) := op (db w) in
      (r, {| db := d; faults := []; gemini := gemini w; now := now w |})
  end.

Definition prismaRead {A} (q : Db → A) : Io A := prisma (λ d, (Ok (q d), d)).

(** One [await model.generateContent(prompt)]. *)
Definition generateContent : Io AiOutcome := λ w,
  match gemini w with
  | o :: rest =>
      (Ok o, {| db := db w; faults := faults w; gemini := rest; now := now w |})
  | [] => (Ok (AiThrows "service unavailable"), w)
  end.

(** ** Plan catalog and entitlement check (services/subscriptionService.js) *)

(** A value of a plan's feature map: a number ([-1] = unlimited) or a flag. *)
Inductive Limit :=
| LNum (n : Z)
| LBool (b : bool).

Global Instance Limit_eq_dec : EqDecision Limit.
Proof. solve_decision. Defined.

Record Plan := {
  plan_id : string;
  plan_name : string;
  plan_features : gmap string Limit
}.

Definition FREE_features : gmap string Limit :=
  list_to_map
    [ ("aiEnhancementsPerMonth", LNum 5);
      ("reviewsPerMonth", LNum 10);
      ("customFormFields", LNum 3);
      ("basicAnalytics", LBool true);
      ("emailSupport", LBool false);
      ("customBranding", LBool false);
      ("advancedAnalytics", LBool false);
      ("prioritySupport", LBool false);
      ("apiAccess", LBool false);
      ("whiteLabel", LBool false);
      ("multipleLocations", LNum 1) ].

Definition PREMIUM_features : gmap string Limit :=
  list_to_map
    [ ("aiEnhancementsPerMonth", LNum (-1));
      ("reviewsPerMonth", LNum (-1));
      ("customFormFields", LNum (-1));
      ("basicAnalytics", LBool true);
      ("emailSupport", LBool true);
      ("customBranding", LBool true);
      ("advancedAnalytics", LBool true);
      ("prioritySupport", LBool true);
      ("apiAccess", LBool true);
      ("whiteLabel", LBool true);
      ("multipleLocations", LNum (-1)) ].

Definition FREE : Plan :=
  {| plan_id := "free"; plan_name := "Free"; plan_features := FREE_features |}.

Definition PREMIUM : Plan :=
  {| plan_id := "premium"; plan_name := "Premium"; plan_features := PREMIUM_features |}.

Definition plans : gmap string Plan :=
  list_to_map [ ("FREE", FREE); ("PREMIUM", PREMIUM) ].

(** [this.plans[planId.toUpperCase()] || this.plans.FREE] *)
Definition getPlan (planId : string) : Plan :=
  default FREE (plans !! Js.toUpperCase planId).

(** The [limit] property of a result: ['unlimited'], the plan's value, or
    [undefined] when the plan has no such feature. *)
Inductive LimitView :=
| ViewUnlimited
| ViewNum (n : Z)
| ViewBool (b : bool)
| ViewUndefined.

(** The object [checkUsageLimit] resolves to; [None] = property absent. *)
Record UsageCheck := {
  allowed : bool;
  limit : option LimitView;
  used : option Z;
  remaining : option Js.number;
  message : option string
}.

(** [used < limit] *)
Definition jsLess (used : Z) (lim : option Limit) : bool :=
  match lim with
  | Some (LNum n) => used <? n
  | Some (LBool b) => used <? (if b then 1 else 0)
  | None => false
  end.

(** [Math.max(0, limit - used)] *)
Definition jsRemaining (used : Z) (lim : option Limit) : Js.number :=
  match lim with
  | Some (LNum n) => Js.Num (Z.max 0 (n - used))
  | Some (LBool b) => Js.Num (Z.max 0 ((if b then 1 else 0) - used))
  | None => Js.NaN
  end.

Definition viewLimit (lim : option Limit) : LimitView :=
  match lim with
  | Some (LNum n) => ViewNum n
  | Some (LBool b) => ViewBool b
  | None => ViewUndefined
  end.

Definition reviewOf (d : Db) (reviewId : string) : option Review :=
  List.find (λ r, String.eqb (rev_id r) reviewId) (reviews d).

(** [prisma.aIReviewGeneration.count({ where: { review: { businessId },
    createdAt: { gte: since } } })] *)
Definition countGenerations (businessId : string) (since : Instant) (d : Db) : Z :=
  Z.of_nat (length (filter (λ g,
     match reviewOf d (gen_reviewId g) with
     | Some r => String.eqb (rev_businessId r) businessId
     | None => false
     end && Instant_geb (gen_createdAt g) since) (aiGenerations d))).

(** [prisma.review.count({ where: { businessId, createdAt: { gte: since } } })] *)
Definition countReviews (businessId : string) (since : Instant) (d : Db) : Z :=
  Z.of_nat (length (filter (λ r,
     String.eqb (rev_businessId r) businessId &&
     Instant_geb (rev_createdAt r) since) (reviews d))).

Definition checkFeatureLimit (planId feature businessId : string) : Io UsageCheck :=
  let plan := getPlan planId in
  let lim := plan_features plan !! feature in
  if decide (lim = Some (LNum (-1))) then
    mret {| allowed := true; limit := Some ViewUnlimited; used := Some 0;
            remaining := None; message := None |}
  else
    match lim with
    | Some (LBool b) =>
        mret {| allowed := b; limit := Some (ViewBool b); used := Some 0;
                remaining := None; message := None |}
    | _ =>
        currentMonth ← getNow;
        n ← tryCatch
          (if String.eqb feature "aiEnhancementsPerMonth" then
             prismaRead (countGenerations businessId (monthStart currentMonth))
           else if String.eqb feature "reviewsPerMonth" then
             prismaRead (countReviews businessId (monthStart currentMonth))
           else mret 0)
          (λ _, mret 0);
        mret {| allowed := jsLess n lim; limit := Some (viewLimit lim);
                used := Some n; remaining := Some (jsRemaining n lim);
                message := None |}
    end.

(** [prisma.business.findUnique({ where: { id }, include: { subscription:
    true } })] *)
Definition findBusiness (businessId : string) (d : Db)
    : option (Business * option Subscription) :=
  b ← businesses d !! businessId; Some (b, subscriptions d !! businessId).

(** The [try] block only covers the lookup: [return this.checkFeatureLimit(..)]
    hands the promise back without awaiting it. *)
Definition checkUsageLimit (businessId feature : string) : Io UsageCheck :=
  looked ← tryCatch
    (business ← prismaRead (findBusiness businessId);
     match business with
     | Some (_, Some sub) => mret (inl (sub_planId sub))
     | _ => mret (inl "FREE")
     end)
    (λ _, mret (inr {| allowed := false; limit := None; used := None;
                       remaining := None;
                       message := Some "Unable to verify subscription" |}));
  match looked with
  | inl planId => checkFeatureLimit planId feature businessId
  | inr failed => mret failed
  end.

(** [Promise.all([a, b])]: both calls are issued; the first rejection wins. *)
Definition promiseAll2 {A B} (a : Io A) (b : Io B) : Io (A * B) := λ w,
  let (ra, w1) := a w in
  let (rb, w2) := b w1 in
  match ra, rb with
  | Ok x, Ok y => (Ok (x, y), w2)
  | Throw e, _ => (Throw e, w2)
  | _, Throw e => (Throw e, w2)
  end.

(** What [getSubscriptionAnalytics] resolves to (the percentages are left out). *)
Record SubscriptionAnalytics := {
  an_subscription : option Subscription;
  an_currentPlan : Plan;
  an_aiEnhancementsUsed : Z;
  an_reviewsUsed : Z
}.

Definition getSubscriptionAnalytics (businessId : string) : Io SubscriptionAnalytics :=
  business ← prismaRead (findBusiness businessId);
  match business with
  | None => throw "Business not found"
  | Some (_, sub) =>
      let currentPlan :=
        match sub with
        | Some s => getPlan (sub_planId s)
        | None => FREE
        end in
      currentMonth ← getNow;
      counts ← promiseAll2
        (prismaRead (countGenerations businessId (monthStart currentMonth)))
        (prismaRead (countReviews businessId (monthStart currentMonth)));
      mret {| an_subscription := sub; an_currentPlan := currentPlan;
              an_aiEnhancementsUsed := counts.1; an_reviewsUsed := counts.2 |}
  end.

(** ** Subscription middleware (middleware/subscriptionAuth.js) *)

(** The parts of an authenticated request the handlers read. *)
Record BusinessContext := {
  ctx_businessId : option string;
  ctx_businessName : option string;
  ctx_businessType : option string
}.

Record Request := {
  req_userEmail : string;
  req_bodyBusinessId : option string;
  req_paramsBusinessId : option string;
  req_reviewId : option string;
  req_businessContext : option BusinessContext;
  req_rejectionNote : option string
}.

Definition truthyField (o : option string) : option string :=
  match o with
  | Some s => if Js.truthy s then Some s else None
  | None => None
  end.

(** [a || b] on two request fields. *)
Definition firstTruthy (a b : option string) : option string :=
  match truthyField a with
  | Some s => Some s
  | None => truthyField b
  end.

(** [prisma.business.findFirst({ where: { user: { email } } })] *)
Definition findBusinessByEmail (email : string) (d : Db) : option (string * Business) :=
  List.find (λ kb, String.eqb (biz_userEmail kb.2) email) (map_to_list (businesses d)).

Record DeniedDetails := {
  den_used : option Z;
  den_limit : option LimitView;
  den_currentPlan : string;
  den_upgradeMessage : string
}.

(** Outcome of a middleware: [next()] with what it stored on [req], or a
    response that ends the request. *)
Inductive Gate :=
| GateNext (businessId : string) (subscriptionUsage : UsageCheck)
| GateRespond (status : Z) (message : string) (details : option DeniedDetails).

(** [req.body.businessId || req.params.businessId], else the id of the
    business of [req.user.email]. *)
Definition resolveBusinessId (req : Request) : Io (option string) :=
  match firstTruthy (req_bodyBusinessId req) (req_paramsBusinessId req),
        truthyField (Some (req_userEmail req)) with
  | Some b, _ => mret (Some b)
  | None, Some email =>
      business ← prismaRead (findBusinessByEmail email);
      mret (truthyField (fst <$> business))
  | None, None => mret None
  end.

Definition checkSubscriptionLimit (feature : string) (req : Request) : Io Gate :=
  tryCatch
    (businessId ← resolveBusinessId req;
     match businessId with
     | None => mret (GateRespond 400 "Business not found" None)
     | Some businessId =>
         usageCheck ← checkUsageLimit businessId feature;
         if negb (allowed usageCheck) then
           plan ← getSubscriptionAnalytics businessId;
           let currentPlan := an_currentPlan plan in
           let upgradeMessage :=
             if String.eqb (plan_id currentPlan) "free" then
               "Upgrade to Pro or Ultimate plan to continue using this feature."
             else if String.eqb (plan_id currentPlan) "pro" then
               "Upgrade to Ultimate plan for unlimited access."
             else "" in
           mret (GateRespond 403 ("Usage limit reached for " +:+ feature)
                   (Some {| den_used := used usageCheck;
                            den_limit := limit usageCheck;
                            den_currentPlan := plan_name currentPlan;
                            den_upgradeMessage := upgradeMessage |}))
         else mret (GateNext businessId usageCheck)
     end)
    (λ _, mret (GateRespond 500 "Failed to verify subscription limits" None)).

(** [recordUsage]: the upsert of the Usage Ledger row of this month; a
    datastore error is logged and swallowed. *)
Definition upsertUsage (businessId featureType metadata : string) (t : Instant)
    (d : Db) : Db :=
  let key := (businessId, monthStart t, featureType) in
  setSubscriptionUsage (λ m,
    match m !! key with
    | Some u => <[key := {| usage_count := usage_count u + 1;
                            usage_lastUsedAt := t;
                            usage_metadata := metadata |}]> m
    | None => <[key := {| usage_count := 1; usage_lastUsedAt := t;
                          usage_metadata := metadata |}]> m
    end) d.

Definition recordUsage (businessId featureType metadata : string) : Io unit :=
  tryCatch
    (thisMonth ← getNow;
     prisma (λ d, (Ok (), upsertUsage businessId featureType metadata thisMonth d)))
    (λ _, mret ()).

(** ** AI service (services/aiService.js) *)

Record TextValidation := { isValid : bool; errors : list string }.

Record Analysis := {
  sentiment : string;
  keywords : list string;
  improvements : list string
}.

(** Helpers whose modules ([utils/textValidation], [utils/textFormatting])
    are not part of the sources at hand, and [JSON.parse] of the model's
    analysis answer ([None] = it throws). *)
Class Externals := {
  validateReviewText : string → TextValidation;
  improveTextFormatting : string → string;
  enhanceWithFormatting : string → string → Outcome string;
  parseAnalysis : string → option Analysis
}.

(** [calculateConfidence(original, enhanced)], in binary64 arithmetic. *)
Definition firstIsUpper (s : string) : bool :=
  match s with
  | String c _ => Ascii.eqb c (Js.upperChar c)
  | EmptyString => false
  end.

Definition calculateConfidence (original enhanced : string) : float :=
  let originalWords := length (Js.split " " original) in
  let enhancedWords := length (Js.split " " enhanced) in
  let confidence := 0.7%float in
  let confidence :=
    if ((originalWords <? enhancedWords) && (enhancedWords <=? originalWords * 2))%nat
    then (confidence + 0.1)%float else confidence in
  let confidence :=
    if Js.includes enhanced "." && firstIsUpper enhanced
    then (confidence + 0.1)%float else confidence in
  if PrimFloat.ltb 1%float confidence then 1%float else confidence.

(** [prisma.aIPromptTemplate.findFirst({ where: .. })] *)
Definition findTemplate (p : AIPromptTemplate → bool) (d : Db) : option AIPromptTemplate :=
  List.find p (aiPromptTemplates d).

Definition getPromptTemplate (category : string) (businessId : option string)
    : Io (option AIPromptTemplate) :=
  tryCatch
    (businessTemplate ←
       match truthyField businessId with
       | Some b =>
           prismaRead (findTemplate (λ t,
             bool_decide (tpl_businessId t = Some b) &&
             String.eqb (tpl_category t) category && tpl_isActive t))
       | None => mret None
       end;
     match businessTemplate with
     | Some t => mret (Some t)
     | None =>
         prismaRead (findTemplate (λ t,
           bool_decide (tpl_businessId t = None) &&
           String.eqb (tpl_category t) category &&
           tpl_isDefault t && tpl_isActive t))
     end)
    (λ _, mret None).

(** [result.response.text()] after [await this.model.generateContent(..)] *)
Definition responseText (o : AiOutcome) : Io string :=
  match o with
  | AiText t => mret t
  | AiThrows msg => throw msg
  | AiNoResponse => throw "Cannot read properties of undefined (reading 'text')"
  end.

Definition neutralAnalysis : Analysis :=
  {| sentiment := "neutral"; keywords := []; improvements := [] |}.

Definition analyzeReview `{Externals} (reviewText : string) : Io Analysis :=
  tryCatch
    (result ← generateContent;
     response ← responseText result;
     match parseAnalysis response with
     | Some a => mret a
     | None => throw "Unexpected token in JSON"
     end)
    (λ _, mret neutralAnalysis).

(** [this.recordUsage(data)]: a row of the AI usage analytics, best effort. *)
Definition aiRecordUsage (data : AIUsageAnalytics) : Io unit :=
  tryCatch
    (prisma (λ d, (Ok (), setAiUsageAnalytics (λ l, (l ++ [data])%list) d)))
    (λ _, mret ()).

(** [prisma.aIReviewGeneration.create({ data })]. A constraint of the schema
    that refuses the row is one of the datastore errors of the fault tape. *)
Definition createGeneration (g : AIReviewGeneration) (d : Db)
    : Outcome AIReviewGeneration * Db :=
  (Ok g, setAiGenerations (λ l, (l ++ [g])%list) d).

(** [update({ where, data })] on the first row that matches; [None] when no
    row does (Prisma then throws). *)
Fixpoint updateFirst {A} (p : A → bool) (f : A → A) (l : list A) : option (A * list A) :=
  match l with
  | [] => None
  | x :: r =>
      if p x then Some (f x, f x :: r)
      else '(y, r') ← updateFirst p f r; Some (y, x :: r')
  end.

Definition recordNotFound : string := "Record to update not found.".

Definition updateReview (reviewId : string) (f : Review → Review) (d : Db)
    : Outcome Review * Db :=
  match updateFirst (λ r, String.eqb (rev_id r) reviewId) f (reviews d) with
  | Some (r, l) => (Ok r, setReviews (λ _, l) d)
  | None => (Throw recordNotFound, d)
  end.

Definition updateGeneration (reviewId : string)
    (f : AIReviewGeneration → AIReviewGeneration) (d : Db)
    : Outcome AIReviewGeneration * Db :=
  match updateFirst (λ g, String.eqb (gen_reviewId g) reviewId) f (aiGenerations d) with
  | Some (g, l) => (Ok g, setAiGenerations (λ _, l) d)
  | None => (Throw recordNotFound, d)
  end.

Definition withEnhancement (enhancedText : string) (r : Review) : Review :=
  {| rev_id := rev_id r; rev_businessId := rev_businessId r;
     rev_customerId := rev_customerId r; rev_rating := rev_rating r;
     rev_feedback := rev_feedback r; rev_formData := rev_formData r;
     rev_generatedReview := Some enhancedText; rev_status := AI_GENERATED;
     rev_createdAt := rev_createdAt r |}.

Definition withStatus (st : ReviewStatus) (r : Review) : Review :=
  {| rev_id := rev_id r; rev_businessId := rev_businessId r;
     rev_customerId := rev_customerId r; rev_rating := rev_rating r;
     rev_feedback := rev_feedback r; rev_formData := rev_formData r;
     rev_generatedReview := rev_generatedReview r; rev_status := st;
     rev_createdAt := rev_createdAt r |}.

Definition withRejection (note : option string) (g : AIReviewGeneration)
    : AIReviewGeneration :=
  {| gen_reviewId := gen_reviewId g; gen_originalText := gen_originalText g;
     gen_enhancedText := gen_enhancedText g; gen_confidence := gen_confidence g;
     gen_sentiment := gen_sentiment g; gen_keywords := gen_keywords g;
     gen_improvements := gen_improvements g; gen_status := GEN_REJECTED;
     gen_rejectionNote := note; gen_createdAt := gen_createdAt g |}.

Definition enhanceReview `{Externals} (reviewId originalText : string)
    (businessContext : BusinessContext) : Io AIReviewGeneration :=
  tryCatch
    (let textValidation := validateReviewText originalText in
     if negb (isValid textValidation) then
       throw ("Invalid review content: " +:+ Js.join ", " (errors textValidation))
     else
       _ ← getPromptTemplate "REVIEW_ENHANCEMENT" (ctx_businessId businessContext);
       result ← generateContent;
       enhancedText ← responseText result;
       analysis ← analyzeReview enhancedText;
       let confidence := calculateConfidence originalText enhancedText in
       createdAt ← getNow;
       aiGeneration ← prisma (createGeneration
         {| gen_reviewId := reviewId; gen_originalText := originalText;
            gen_enhancedText := enhancedText; gen_confidence := confidence;
            gen_sentiment := sentiment analysis; gen_keywords := keywords analysis;
            gen_improvements := improvements analysis; gen_status := GEN_PENDING;
            gen_rejectionNote := None; gen_createdAt := createdAt |});
       _ ← prisma (updateReview reviewId (withEnhancement enhancedText));
       _ ← aiRecordUsage
             {| aua_businessId := ctx_businessId businessContext;
                aua_operation := "REVIEW_ENHANCEMENT"; aua_success := true;
                aua_errorMessage := None |};
       mret aiGeneration)
    (λ errorMessage,
       _ ← aiRecordUsage
             {| aua_businessId := ctx_businessId businessContext;
                aua_operation := "REVIEW_ENHANCEMENT"; aua_success := false;
                aua_errorMessage := Some errorMessage |};
       throw ("Failed to enhance review: " +:+ errorMessage)).

Definition rejectReview (reviewId : string) (rejectionNote : option string)
    : Io AIReviewGeneration :=
  tryCatch
    (aiGeneration ← prisma (updateGeneration reviewId (withRejection rejectionNote));
     _ ← prisma (updateReview reviewId (withStatus PENDING));
     mret aiGeneration)
    (λ _, throw "Failed to reject review").

(** ** QR scans (services/qrCodeService.js) *)

Record ScanData := {
  sd_ipAddress : option string;
  sd_userAgent : option string;
  sd_location : option string
}.

(** [prisma.qRScan.create({ data })] *)
Definition createScan (row : QRScan) (d : Db) : Outcome unit * Db :=
  (Ok (), setQrScans (λ l, (l ++ [row])%list) d).

(** [prisma.qRCode.update({ where: { id }, data: { scansCount: { increment:
    1 } } })] *)
Definition incrementScans (qrCodeId : string) (d : Db) : Outcome unit * Db :=
  match qrCodes d !! qrCodeId with
  | Some c =>
      (Ok (), setQrCodes (λ m, <[qrCodeId :=
         {| qr_businessId := qr_businessId c;
            qr_scansCount := qr_scansCount c + 1 |}]> m) d)
  | None => (Throw recordNotFound, d)
  end.

Definition trackScan (qrCodeId : string) (scanData : ScanData) : Io unit :=
  tryCatch
    (scannedAt ← getNow;
     _ ← prisma (createScan
           {| scan_qrCodeId := qrCodeId; scan_ipAddress := sd_ipAddress scanData;
              scan_userAgent := sd_userAgent scanData;
              scan_location := sd_location scanData;
              scan_scannedAt := scannedAt |});
     _ ← prisma (incrementScans qrCodeId);
     mret ())
    (λ _, throw "Failed to track scan").

(** ** Route handlers *)

(** An HTTP response: status, message and, on success, the payload. *)
Record Response (A : Type) := {
  res_status : Z;
  res_message : string;
  res_data : option A
}.
Arguments res_status {A} _.
Arguments res_message {A} _.
Arguments res_data {A} _.

Definition respond {A} (status : Z) (msg : string) (data : option A) : Response A :=
  {| res_status := status; res_message := msg; res_data := data |}.

(** *** POST /reviews/public *)







(** *** POST /ai/enhance-review and POST /ai/reject-review/:reviewId *)

(** [prisma.review.findFirst({ where: { id, business: { user: { email } } },
    include: { business: true, aiGeneration: true } })] *)
Definition findOwnedReview (reviewId email : string) (d : Db)
    : option (Review * Business * option AIReviewGeneration) :=
  r ← List.find (λ r, String.eqb (rev_id r) reviewId &&
                      match businesses d !! rev_businessId r with
                      | Some b => String.eqb (biz_userEmail b) email
                      | None => false
                      end) (reviews d);
  b ← businesses d !! rev_businessId r;
  Some (r, b, List.find (λ g, String.eqb (gen_reviewId g) reviewId) (aiGenerations d)).

(** [{ businessId, businessName, businessType, ...businessContext }] *)
Definition fullBusinessContext (r : Review) (b : Business)
    (given : option BusinessContext) : BusinessContext :=
  let over (fromBody : BusinessContext → option string) (dflt : option string) :=
    match given with
    | Some c => match fromBody c with Some v => Some v | None => dflt end
    | None => dflt
    end in
  {| ctx_businessId := over ctx_businessId (Some (rev_businessId r));
     ctx_businessName := over ctx_businessName (Some (biz_name b));
     ctx_businessType := over ctx_businessType (biz_type b) |}.

(** The handler behind the middleware; [reqBusinessId] is [req.businessId]. *)
Definition enhanceReviewHandler `{Externals} (req : Request)
    (reqBusinessId : option string) : Io (Response AIReviewGeneration) :=
  tryCatch
    (match truthyField (req_reviewId req) with
     | None => mret (respond 400 "Validation failed" None)
     | Some reviewId =>
         review ← prismaRead (findOwnedReview reviewId (req_userEmail req));
         match review with
         | None => mret (respond 404 "Review not found or access denied" None)
         | Some (r, b, g) =>
             if match g with
                | Some g => negb (bool_decide (gen_status g = GEN_REJECTED))
                | None => false
                end
             then mret (respond 400 "Review already has AI enhancement" g)
             else
               aiGeneration ← enhanceReview reviewId (rev_feedback r)
                                (fullBusinessContext r b (req_businessContext req));
               _ ← match truthyField reqBusinessId with
                   | Some businessId => recordUsage businessId "ai_enhancement" reviewId
                   | None => mret ()
                   end;
               mret (respond 201 "Review enhanced successfully" (Some aiGeneration))
         end
     end)
    (λ _, mret (respond 500 "Failed to enhance review" None)).

(** What a route answers: the middleware's refusal or the handler's response. *)
Inductive RouteResult (A : Type) :=
| Refused (status : Z) (message : string) (details : option DeniedDetails)
| Handled (r : Response A).
Arguments Refused {A} status message details.
Arguments Handled {A} r.

(** [router.post('/enhance-review', verifyFirebaseToken,
    checkSubscriptionLimit('ai_enhancement'), .., handler)] *)
Definition enhanceReviewRoute `{Externals} (req : Request)
    : Io (RouteResult AIReviewGeneration) :=
  gate ← checkSubscriptionLimit "ai_enhancement" req;
  match gate with
  | GateRespond status msg details => mret (Refused status msg details)
  | GateNext businessId _ =>
      r ← enhanceReviewHandler req (Some businessId); mret (Handled r)
  end.

Definition rejectReviewHandler (req : Request) : Io (Response AIReviewGeneration) :=
  tryCatch
    (match truthyField (req_reviewId req) with
     | None => mret (respond 400 "Validation failed" None)
     | Some reviewId =>
         review ← prismaRead (findOwnedReview reviewId (req_userEmail req));
         match review with
         | None => mret (respond 404 "Review not found or access denied" None)
         | Some (_, _, None) =>
             mret (respond 400 "No AI generation found for this review" None)
         | Some (_, _, Some _) =>
             aiGeneration ← rejectReview reviewId (req_rejectionNote req);
             mret (respond 200 "Review rejected successfully" (Some aiGeneration))
         end
     end)
    (λ _, mret (respond 500 "Failed to reject review" None)).

(** *** POST /ai/enhance-text and its local fallback *)

Definition positiveWords : list string :=
  [ "good"; "great"; "excellent"; "amazing"; "wonderful"; "fantastic"; "love";
    "perfect"; "awesome"; "outstanding"; "nice"; "pleasant"; "satisfied";
    "happy"; "impressed"; "recommend" ].

Definition negativeWords : list string :=
  [ "bad"; "terrible"; "awful"; "horrible"; "disappointing"; "poor"; "worst";
    "hate"; "disgusting"; "rude"; "slow"; "dirty"; "expensive"; "unsatisfied";
    "frustrated" ].

(** [templates[i]]; the callers reduce [i] modulo the length. *)
Definition at_ (l : list string) (i : N) : string :=
  default "undefined" (l !! N.to_nat i).

(** [templates.length] *)
Definition len (l : list string) : N := N.of_nat (length l).

Definition generateSmartFallbackEnhancement (improvedText : string)
    (businessContext : BusinessContext) (variationId random dateNow : N) : string :=
  let businessName := Js.orElse (ctx_businessName businessContext) "this business" in
  let businessType := Js.orElse (ctx_businessType businessContext) "establishment" in
  let openings :=
    [ "I recently had the pleasure of visiting " +:+ businessName;
      "Just finished an incredible experience at " +:+ businessName;
      "I'm absolutely thrilled to share my visit to " +:+ businessName;
      "Had the most wonderful time at " +:+ businessName;
      "I was completely blown away by my experience at " +:+ businessName;
      "Exceptional service at " +:+ businessName;
      "I couldn't be more satisfied with " +:+ businessName;
      "Outstanding experience from start to finish at " +:+ businessName;
      "I'm delighted to write about my fantastic visit to " +:+ businessName;
      "Genuinely impressed with " +:+ businessName;
      "I had such a positive experience at " +:+ businessName;
      "Really want to highlight the amazing service at " +:+ businessName;
      "My visit to " +:+ businessName +:+ " exceeded all expectations";
      "I'm so grateful for the excellent experience at " +:+ businessName ] in
  let middles :=
    [ improvedText +:+ " What really stood out was their genuine commitment to excellence";
      improvedText +:+ " I was particularly impressed by their attention to detail";
      improvedText +:+ " The level of professionalism here is truly remarkable";
      improvedText +:+ " What I loved most was how they made everything feel personal";
      improvedText +:+ " The quality of service really sets them apart from others";
      improvedText +:+ " I was amazed by how they went above and beyond";
      improvedText +:+ " The entire experience felt seamless and well-organized";
      improvedText +:+ " What struck me was their genuine care for customer satisfaction" ] in
  let endings :=
    [ "I'll definitely be returning and highly recommend to everyone!";
      "Five stars without hesitation - they've earned a loyal customer!";
      "Already planning my next visit - absolutely worth it!";
      "This is exactly what quality service looks like!";
      "They've set the bar incredibly high for other businesses!";
      "If you're looking for excellence, this is your place!" ] in
  let neutral :=
    [ "I visited " +:+ businessName +:+ " recently and wanted to share my thoughts. " +:+ improvedText +:+ " The " +:+ Js.toLowerCase businessType +:+ " provides reliable service that meets expectations. Staff was professional and handled everything adequately. It's a solid, dependable choice for the area.";
      "Had a decent experience at " +:+ businessName +:+ ". " +:+ improvedText +:+ " The service was consistent and the team was courteous. For a " +:+ Js.toLowerCase businessType +:+ ", it delivers what you'd expect. Good value and reliable option." ] in
  let negative :=
    [ "I feel compelled to share my recent experience at " +:+ businessName +:+ ". " +:+ improvedText +:+ " Unfortunately, there are several areas that need attention. I hope the management considers this feedback constructively, as there's definitely potential for improvement.";
      "My visit to " +:+ businessName +:+ " left room for improvement. " +:+ improvedText +:+ " While I don't enjoy writing critical reviews, I think honest feedback is important. With some adjustments, this " +:+ Js.toLowerCase businessType +:+ " could significantly enhance their service." ] in
  let variationSeed := if (variationId =? 0)%N then random else variationId in
  let timeBasedSeed := (dateNow mod 1000)%N in
  let lowerText := Js.toLowerCase improvedText in
  let positiveCount := length (filter (λ word, Is_true (Js.includes lowerText word)) positiveWords) in
  let negativeCount := length (filter (λ word, Is_true (Js.includes lowerText word)) negativeWords) in
  if ((negativeCount <? positiveCount) && (0 <? positiveCount))%nat then
    at_ openings ((variationSeed + timeBasedSeed) mod len openings)%N
    +:+ ". " +:+ at_ middles ((variationSeed * 2 + timeBasedSeed) mod len middles)%N
    +:+ ". " +:+ at_ endings ((variationSeed * 3 + timeBasedSeed) mod len endings)%N
  else if ((positiveCount <? negativeCount) && (0 <? negativeCount))%nat then
    at_ negative ((variationSeed + timeBasedSeed) mod len negative)%N
  else
    at_ neutral ((variationSeed + timeBasedSeed) mod len neutral)%N.

Record EnhanceTextRequest := {
  et_originalText : option string;
  et_businessContext : option BusinessContext;
  et_style : option string;
  et_rewriteIteration : option N
}.

(** What the process gives a request besides the datastore. *)
Record Env := {
  env_geminiApiKey : bool;
  env_random1 : N;   (* [Math.floor(Math.random() * 10000)], in the handler *)
  env_random2 : N;   (* the same draw, in the fallback *)
  env_dateNow : N    (* [Date.now()] *)
}.

Definition styles : list string :=
  [ "default"; "rewrite"; "detailed"; "concise"; "creative"; "creative_rewrite";
    "professional_rewrite" ].

Record EnhancedText := { et_original : string; et_enhanced : string }.

Definition noContext : BusinessContext :=
  {| ctx_businessId := None; ctx_businessName := None; ctx_businessType := None |}.

Definition enhanceTextHandler `{Externals} (env : Env) (req : EnhanceTextRequest)
    : Io (Response EnhancedText) :=
  tryCatch
    (match et_originalText req with
     | None => mret (respond 400 "Validation failed" None)
     | Some originalText =>
         if negb (Js.truthy originalText) || (String.length originalText <? 5)%nat
            || match et_style req with
               | Some st => negb (bool_decide (st ∈ styles))
               | None => false
               end
         then mret (respond 400 "Validation failed" None)
         else if (10 <=? String.length originalText)%nat
                 && negb (isValid (validateReviewText originalText))
         then mret (respond 400 "Invalid review content" None)
         else
           let businessContext := default noContext (et_businessContext req) in
           let improvedOriginalText := improveTextFormatting originalText in
           let variationId :=
             match et_rewriteIteration req with
             | Some (Npos k) => Npos k
             | _ => env_random1 env
             end in
           enhancedText ← tryCatch
             (if negb (env_geminiApiKey env) then throw "Gemini API key not configured"
              else
                result ← generateContent;
                match result with
                | AiThrows msg => throw msg
                | AiNoResponse => throw "No response from Gemini API"
                | AiText text =>
                    if Js.isBlank text then throw "Empty response from Gemini API"
                    else match enhanceWithFormatting improvedOriginalText text with
                         | Ok t => mret t
                         | Throw e => throw e
                         end
                end)
             (λ _, mret (generateSmartFallbackEnhancement improvedOriginalText
                           businessContext variationId (env_random2 env)
                           (env_dateNow env)));
           mret (respond 200 "Text enhanced successfully"
                   (Some {| et_original := improvedOriginalText;
                            et_enhanced := enhancedText |}))
     end)
    (λ _, mret (respond 500 "Failed to enhance text" None)).

(** ** Vocabulary of the properties *)

(** *** Runs of a handler *)

Definition mkWorld (d : Db) (fs : list bool) (g : list AiOutcome) (t : Instant) : World :=
  {| db := d; faults := fs; gemini := g; now := t |}.

(** What a run answers, and the world it leaves behind. *)
Definition result {A} (m : Io A) (w : World) : Outcome A := fst (m w).
Definition after {A} (m : Io A) (w : World) : World := snd (m w).

(** The world a datastore call leaves behind: one fault flag consumed. *)
Definition popFault (w : World) : World :=
  mkWorld (db w) (tail (faults w)) (gemini w) (now w).

(** *** Entitlement checks *)

(** What [checkUsageLimit] answers when the lookup throws. *)
Definition failClosed : UsageCheck :=
  {| allowed := false; limit := None; used := None; remaining := None;
     message := Some "Unable to verify subscription" |}.

(** The features whose monthly usage [checkFeatureLimit] reads from the
    datastore. *)
Definition tracked (feature : string) : Prop :=
  feature = "aiEnhancementsPerMonth" ∨ feature = "reviewsPerMonth".

(** The usage of a calendar month, as the specification speaks of it: the
    rows created within the month of [t]. *)
Definition sameMonth (t created : Instant) : bool := ym created =? ym t.

Definition generationsInMonth (businessId : string) (t : Instant) (d : Db) : Z :=
  Z.of_nat (length (filter (λ g,
     match reviewOf d (gen_reviewId g) with
     | Some r => String.eqb (rev_businessId r) businessId
     | None => false
     end && sameMonth t (gen_createdAt g)) (aiGenerations d))).

Definition reviewsInMonth (businessId : string) (t : Instant) (d : Db) : Z :=
  Z.of_nat (length (filter (λ r,
     String.eqb (rev_businessId r) businessId && sameMonth t (rev_createdAt r))
     (reviews d))).

Definition usageInMonth (feature businessId : string) (t : Instant) (d : Db) : Z :=
  if String.eqb feature "aiEnhancementsPerMonth" then generationsInMonth businessId t d
  else if String.eqb feature "reviewsPerMonth" then reviewsInMonth businessId t d
  else 0.

(** No row of the datastore was created after [t]. *)
Definition noneAfter (t : Instant) (d : Db) : Prop :=
  Forall (λ g, Instant_geb t (gen_createdAt g) = true) (aiGenerations d) ∧
  Forall (λ r, Instant_geb t (rev_createdAt r) = true) (reviews d).

(** Two datastores that differ at most in the status and the dates of
    subscriptions. *)
Definition samePlan (s1 s2 : Subscription) : Prop := sub_planId s1 = sub_planId s2.

Definition differOnlyInSubscriptionState (d1 d2 : Db) : Prop :=
  businesses d1 = businesses d2 ∧ customers d1 = customers d2 ∧
  reviews d1 = reviews d2 ∧ aiGenerations d1 = aiGenerations d2 ∧
  aiPromptTemplates d1 = aiPromptTemplates d2 ∧
  aiUsageAnalytics d1 = aiUsageAnalytics d2 ∧
  subscriptionUsage d1 = subscriptionUsage d2 ∧ qrCodes d1 = qrCodes d2 ∧
  qrScans d1 = qrScans d2 ∧ nextId d1 = nextId d2 ∧
  ∀ b, option_Forall2 samePlan (subscriptions d1 !! b) (subscriptions d2 !! b).

(** The three shapes of a successful entitlement check. *)
Definition unlimitedResult : UsageCheck :=
  {| allowed := true; limit := Some ViewUnlimited; used := Some 0;
     remaining := None; message := None |}.

Definition flagResult (b : bool) : UsageCheck :=
  {| allowed := b; limit := Some (ViewBool b); used := Some 0;
     remaining := None; message := None |}.

Definition cappedResult (n u : Z) : UsageCheck :=
  {| allowed := u <? n; limit := Some (ViewNum n); used := Some u;
     remaining := Some (Js.Num (Z.max 0 (n - u))); message := None |}.

(** What the check answers for a key that no plan knows. *)
Definition unknownFeatureResult : UsageCheck :=
  {| allowed := false; limit := Some ViewUndefined; used := Some 0;
     remaining := Some Js.NaN; message := None |}.

(** *** The confidence score in the words of the specification *)






(** *** Scan counting *)

(** The number of [QRScan] rows of a code, and the invariant that ties it to
    the code's counter. *)
Definition scansOf (qrCodeId : string) (d : Db) : nat :=
  length (filter (λ s, scan_qrCodeId s = qrCodeId) (qrScans d)).

Definition scansCountOf (qrCodeId : string) (d : Db) : option Z :=
  qr_scansCount <$> qrCodes d !! qrCodeId.



(** *** Public review submission *)



(** *** The Usage Ledger *)


Definition sameLedger (d d' : Db) : Prop := subscriptionUsage d' = subscriptionUsage d.

(** A handler is stable for a relation on datastores when every run of it,
    whatever its outcome, leaves the datastore related to the initial one. *)
Definition stable {A} (R : Db → Db → Prop) (m : Io A) : Prop :=
  ∀ w, R (db w) (db (m w).2).

(** *** Failures of the generative model *)

(** What the next call of the model will do. *)
Definition nextAiOutcome (w : World) : AiOutcome :=
  match gemini w with
  | o :: _ => o
  | [] => AiThrows "service unavailable"
  end.


(** *** What a rejection must not touch *)

(** The id, the feedback and the rating of every review are as before. *)
Definition original (r : Review) : string * string * Z :=
  (rev_id r, rev_feedback r, rev_rating r).

Definition sameOriginals (d d' : Db) : Prop :=
  original <$> reviews d' = original <$> reviews d.

Definition generationOf (d : Db) (reviewId : string) : option AIReviewGeneration :=
  List.find (λ g, String.eqb (gen_reviewId g) reviewId) (aiGenerations d).

(** ** Sample worlds *)

Module Sample.

Definition emptyDb : Db :=
  {| businesses := ∅; subscriptions := ∅; customers := ∅; reviews := [];
     aiGenerations := []; aiPromptTemplates := []; aiUsageAnalytics := [];
     subscriptionUsage := ∅; qrCodes := ∅; qrScans := []; nextId := 0%N |}.

(** Some instant of month 670 (November 2025 counted from January 1970). *)
Definition today : Instant := {| ym := 670; inMonth := 86400000%N |}.
Definition nextMonth : Instant := {| ym := 671; inMonth := 3600000%N |}.

Definition cafe : Business :=
  {| biz_name := "Corner Cafe"; biz_type := Some "Restaurant";
     biz_userEmail := "owner@cafe.example" |}.

Definition review (n : N) (st : ReviewStatus) : Review :=
  {| rev_id := "review-" +:+ pretty n; rev_businessId := "b1";
     rev_customerId := "c1"; rev_rating := 4;
     rev_feedback := "the food was good and the staff was friendly";
     rev_formData := "{}"; rev_generatedReview := None; rev_status := st;
     rev_createdAt := today |}.

Definition generation (n : N) (st : GenerationStatus) : AIReviewGeneration :=
  {| gen_reviewId := "review-" +:+ pretty n;
     gen_originalText := "the food was good and the staff was friendly";
     gen_enhancedText := "The food was good and the staff was friendly.";
     gen_confidence := 0.7999999999999999%float; gen_sentiment := "positive";
     gen_keywords := ["food"; "staff"]; gen_improvements := [];
     gen_status := st; gen_rejectionNote := None; gen_createdAt := today |}.

(** A business on the implicit Free plan, one customer, one QR code. *)
Definition freshDb : Db :=
  {| businesses := {[ "b1" := cafe ]}; subscriptions := ∅;
     customers := {[ "c1" := {| cust_businessId := "b1" |} ]};
     reviews := [review 0 PENDING]; aiGenerations := [];
     aiPromptTemplates := []; aiUsageAnalytics := []; subscriptionUsage := ∅;
     qrCodes := {[ "q1" := {| qr_businessId := "b1"; qr_scansCount := 0 |} ]};
     qrScans := []; nextId := 1%N |}.

(** The same business after five enhanced reviews this month. *)
Definition busyDb : Db :=
  {| businesses := {[ "b1" := cafe ]}; subscriptions := ∅;
     customers := {[ "c1" := {| cust_businessId := "b1" |} ]};
     reviews := (λ n, review n AI_GENERATED) <$> [0; 1; 2; 3; 4]%N;
     aiGenerations := (λ n, generation n GEN_PENDING) <$> [0; 1; 2; 3; 4]%N;
     aiPromptTemplates := []; aiUsageAnalytics := []; subscriptionUsage := ∅;
     qrCodes := ∅; qrScans := []; nextId := 5%N |}.

Definition subscription (planId : string) (st : SubscriptionStatus) : Subscription :=
  {| sub_planId := planId; sub_status := st; sub_startDate := today;
     sub_endDate := nextMonth; sub_cancelledAt := None |}.

Definition withSubscription (s : Subscription) (d : Db) : Db :=
  {| businesses := businesses d; subscriptions := <["b1" := s]> (subscriptions d);
     customers := customers d; reviews := reviews d;
     aiGenerations := aiGenerations d; aiPromptTemplates := aiPromptTemplates d;
     aiUsageAnalytics := aiUsageAnalytics d;
     subscriptionUsage := subscriptionUsage d; qrCodes := qrCodes d;
     qrScans := qrScans d; nextId := nextId d |}.

(** The owner asks to enhance, or to reject, review 0. *)
Definition ownerRequest : Request :=
  {| req_userEmail := "owner@cafe.example"; req_bodyBusinessId := None;
     req_paramsBusinessId := None; req_reviewId := Some "review-0";
     req_businessContext := None; req_rejectionNote := Some "too formal" |}.


(** Stand-ins for the text helpers: reviews under ten characters are
    refused, formatting is the identity, the analysis is not parsed. *)
Definition externals : Externals :=
  {| validateReviewText := λ s,
       if (String.length s <? 10)%nat
       then {| isValid := false; errors := ["Review is too short"] |}
       else {| isValid := true; errors := [] |};
     improveTextFormatting := λ s, s;
     enhanceWithFormatting := λ _ enhanced, Ok enhanced;
     parseAnalysis := λ _, None |}.

Definition shortPraise : EnhanceTextRequest :=
  {| et_originalText := Some "the food was good"; et_businessContext := None;
     et_style := Some "detailed"; et_rewriteIteration := None |}.

Definition env : Env :=
  {| env_geminiApiKey := true; env_random1 := 4821; env_random2 := 77;
     env_dateNow := 1762041600123 |}.

(** A Premium subscriber whose review 0 has been enhanced. *)
Definition enhancedDb : Db :=
  {| businesses := {[ "b1" := cafe ]};
     subscriptions := {[ "b1" := subscription "PREMIUM" SUB_ACTIVE ]};
     customers := {[ "c1" := {| cust_businessId := "b1" |} ]};
     reviews := [review 0 AI_GENERATED];
     aiGenerations := [generation 0 GEN_PENDING];
     aiPromptTemplates := []; aiUsageAnalytics := []; subscriptionUsage := ∅;
     qrCodes := ∅; qrScans := []; nextId := 1%N |}.

End Sample.

(** ** More of the subscription service (services/subscriptionService.js) *)

(** The price fields of an entry of [this.plans]; [None] = the entry has no
    such property. *)
Record PlanPrice := {
  pp_price : float;
  pp_priceINR : Z;
  pp_monthlyPriceINR : option Z;
  pp_yearlyPriceINR : option Z
}.

Definition FREE_price : PlanPrice :=
  {| pp_price := 0%float; pp_priceINR := 0; pp_monthlyPriceINR := None;
     pp_yearlyPriceINR := None |}.

Definition PREMIUM_price : PlanPrice :=
  {| pp_price := 49.99%float; pp_priceINR := 4149; pp_monthlyPriceINR := Some 4149;
     pp_yearlyPriceINR := Some 41490 |}.

Definition planPrices : gmap string PlanPrice :=
  list_to_map [ ("FREE", FREE_price); ("PREMIUM", PREMIUM_price) ].

(** The price fields of [getPlan(planId)]. *)
Definition getPlanPrice (planId : string) : PlanPrice :=
  default FREE_price (planPrices !! Js.toUpperCase planId).

Record Pricing := {
  pricing_price : float;
  pricing_priceINR : option Z;
  pricing_billingCycle : string
}.

(** [getPlanPricing(planId, billingCycle = 'monthly')] *)
Definition getPlanPricing (planId billingCycle : string) : Pricing :=
  let plan := getPlanPrice planId in
  if String.eqb (Js.toUpperCase planId) "FREE" then
    {| pricing_price := 0%float; pricing_priceINR := Some 0;
       pricing_billingCycle := "free" |}
  else if String.eqb billingCycle "yearly" then
    {| pricing_price := (pp_price plan * 10)%float;
       pricing_priceINR := pp_yearlyPriceINR plan;
       pricing_billingCycle := "yearly" |}
  else
    {| pricing_price := pp_price plan; pricing_priceINR := pp_monthlyPriceINR plan;
       pricing_billingCycle := "monthly" |}.

(** [getAllPlans()] *)
Definition getAllPlans : list Plan := [FREE; PREMIUM].

(** *** Calendar arithmetic, for [new Date(Date.now() + ms)] *)

Definition isLeapYear (y : Z) : bool :=
  ((y mod 4 =? 0) && negb (y mod 100 =? 0)) || (y mod 400 =? 0).

(** The days of month [m] (months counted from January 1970). *)
Definition daysInMonth (m : Z) : N :=
  let y := 1970 + m / 12 in
  let k := m mod 12 in
  if k =? 1 then (if isLeapYear y then 29 else 28)%N
  else if (k =? 3) || (k =? 5) || (k =? 8) || (k =? 10) then 30%N
  else 31%N.

Definition millisInMonth (m : Z) : N := (daysInMonth m * 86400000)%N.

(** [t + ms], carried over at most [months] ends of month. *)
Fixpoint addMillis (months : nat) (ms : N) (t : Instant) : Instant :=
  if (inMonth t + ms <? millisInMonth (ym t))%N then
    {| ym := ym t; inMonth := (inMonth t + ms)%N |}
  else
    match months with
    | O => {| ym := ym t; inMonth := (inMonth t + ms)%N |}
    | S k =>
        addMillis k (inMonth t + ms - millisInMonth (ym t))%N
                  {| ym := ym t + 1; inMonth := 0%N |}
    end.

(** [30 * 24 * 60 * 60 * 1000] *)
Definition thirtyDays : N := (30 * 24 * 60 * 60 * 1000)%N.

(** [a < b] on dates. *)
Definition Instant_ltb (a b : Instant) : bool := negb (Instant_geb a b).

(** *** Writes to the subscription of a business *)

Definition withSubStatus (st : SubscriptionStatus) (s : Subscription) : Subscription :=
  {| sub_planId := sub_planId s; sub_status := st; sub_startDate := sub_startDate s;
     sub_endDate := sub_endDate s; sub_cancelledAt := sub_cancelledAt s |}.

Definition withCancellation (t : Instant) (s : Subscription) : Subscription :=
  {| sub_planId := sub_planId s; sub_status := SUB_CANCELLED;
     sub_startDate := sub_startDate s; sub_endDate := sub_endDate s;
     sub_cancelledAt := Some t |}.

Definition setSubscriptions (f : gmap string Subscription → gmap string Subscription)
    (d : Db) : Db :=
  {| businesses := businesses d; subscriptions := f (subscriptions d);
     customers := customers d; reviews := reviews d;
     aiGenerations := aiGenerations d; aiPromptTemplates := aiPromptTemplates d;
     aiUsageAnalytics := aiUsageAnalytics d;
     subscriptionUsage := subscriptionUsage d; qrCodes := qrCodes d;
     qrScans := qrScans d; nextId := nextId d |}.

(** [prisma.subscription.update({ where: { id }, data })], the row being the
    subscription of business [businessId]. *)
Definition updateSubscription (businessId : string) (f : Subscription → Subscription)
    (d : Db) : Outcome Subscription * Db :=
  match subscriptions d !! businessId with
  | Some s => (Ok (f s), setSubscriptions (λ m, <[businessId := f s]> m) d)
  | None => (Throw recordNotFound, d)
  end.

Global Instance SubscriptionStatus_eq_dec : EqDecision SubscriptionStatus.
Proof. solve_decision. Defined.

(** [createSubscription(businessId, planId, paymentIntentId)]. Of the columns
    it writes, the row of the model keeps the plan id, the status and the two
    dates; an update leaves [cancelledAt] as it is. *)
Definition createSubscription (businessId planId : string) : Io Subscription :=
  let plan := getPlan planId in
  business ← prismaRead (findBusiness businessId);
  match business with
  | None => throw "Business not found"
  | Some (_, existing) =>
      startDate ← getNow;
      let data (cancelledAt : option Instant) :=
        {| sub_planId := Js.toUpperCase (plan_id plan);
           sub_status := if PrimFloat.eqb (pp_price (getPlanPrice planId)) 0%float
                         then SUB_ACTIVE else SUB_PENDING;
           sub_startDate := startDate;
           sub_endDate := addMillis 2 thirtyDays startDate;
           sub_cancelledAt := cancelledAt |} in
      match existing with
      | Some s => prisma (updateSubscription businessId (λ _, data (sub_cancelledAt s)))
      | None =>
          prisma (λ d, (Ok (data None),
                        setSubscriptions (λ m, <[businessId := data None]> m) d))
      end
  end.

(** [cancelSubscription(businessId)] *)
Definition cancelSubscription (businessId : string) : Io Subscription :=
  business ← prismaRead (findBusiness businessId);
  match business with
  | Some (_, Some _) =>
      cancelledAt ← getNow;
      prisma (updateSubscription businessId (withCancellation cancelledAt))
  | _ => throw "No active subscription found"
  end.

(** [prisma.subscription.findMany({ where: { endDate: { lt: now }, status:
    { in: ['ACTIVE', 'CANCELLED'] } } })] *)
Definition isOverdue (t : Instant) (s : Subscription) : bool :=
  Instant_ltb (sub_endDate s) t &&
  (bool_decide (sub_status s = SUB_ACTIVE) || bool_decide (sub_status s = SUB_CANCELLED)).

Definition findOverdue (t : Instant) (d : Db) : list (string * Subscription) :=
  filter (λ kv, Is_true (isOverdue t kv.2)) (map_to_list (subscriptions d)).

(** [for (const subscription of expiredSubscriptions) await
    prisma.subscription.update(..)] *)
Fixpoint expireEach (l : list (string * Subscription)) : Io unit :=
  match l with
  | [] => mret ()
  | kv :: rest =>
      _ ← prisma (updateSubscription kv.1 (withSubStatus SUB_EXPIRED));
      expireEach rest
  end.

(** [checkAndUpdateExpiredSubscriptions()] *)
Definition checkAndUpdateExpiredSubscriptions : Io Z :=
  tryCatch
    (t ← getNow;
     expiredSubscriptions ← prismaRead (findOverdue t);
     _ ← expireEach expiredSubscriptions;
     mret (Z.of_nat (length expiredSubscriptions)))
    (λ _, mret 0).

(** ** More of the subscription middleware (middleware/subscriptionAuth.js) *)

(** Outcome of a feature gate: [next()] with [req.businessId], or the
    response that ends the request. *)
Inductive FeatureGate :=
| FeaturePass (businessId : string)
| FeatureStop (status : Z) (message : string) (currentPlan : option string).

(** Truthiness of [plan.features[feature]]. *)
Definition truthyLimit (lim : option Limit) : bool :=
  match lim with
  | Some (LNum n) => negb (n =? 0)
  | Some (LBool b) => b
  | None => false
  end.

(** [business?.subscription?.planId || 'FREE'] *)
Definition storedPlanId (business : option (Business * option Subscription)) : string :=
  match business with
  | Some (_, Some sub) => Js.orElse (Some (sub_planId sub)) "FREE"
  | _ => "FREE"
  end.

(** [requireFeature(feature)] *)
Definition requireFeature (feature : string) (req : Request) : Io FeatureGate :=
  tryCatch
    (businessId ← resolveBusinessId req;
     match businessId with
     | None => mret (FeatureStop 400 "Business not found" None)
     | Some businessId =>
         business ← prismaRead (findBusiness businessId);
         let plan := getPlan (storedPlanId business) in
         if negb (truthyLimit (plan_features plan !! feature)) then
           mret (FeatureStop 403
                   ("Feature '" +:+ feature +:+ "' is not available in your current plan")
                   (Some (plan_name plan)))
         else mret (FeaturePass businessId)
     end)
    (λ _, mret (FeatureStop 500 "Failed to verify feature availability" None)).

(** ** Subscription routes (routes of /api/subscription) *)

(** *** POST /subscription/upgrade *)

Record UpgradeRequest := {
  up_userEmail : string;
  up_planId : option string
}.

Definition upgradablePlans : list string := [ "FREE"; "PRO"; "ULTIMATE" ].

Definition upgradeHandler (req : UpgradeRequest) : Io (Response Subscription) :=
  tryCatch
    (match truthyField (up_planId req) with
     | None => mret (respond 400 "Validation failed" None)
     | Some planId =>
         if negb (bool_decide (planId ∈ upgradablePlans)) then
           mret (respond 400 "Validation failed" None)
         else
           business ← prismaRead (findBusinessByEmail (up_userEmail req));
           match business with
           | None => mret (respond 404 "Business not found" None)
           | Some (businessId, _) =>
               subscription ← createSubscription businessId planId;
               mret (respond 200 ("Successfully upgraded to " +:+ planId +:+ " plan")
                       (Some subscription))
           end
     end)
    (λ _, mret (respond 500 "Failed to upgrade subscription" None)).

(** *** POST /subscription/cancel *)

Definition cancelHandler (userEmail : string) : Io (Response Subscription) :=
  tryCatch
    (business ← prismaRead (findBusinessByEmail userEmail);
     match business with
     | None => mret (respond 404 "Business not found" None)
     | Some (businessId, _) =>
         subscription ← cancelSubscription businessId;
         mret (respond 200 "Subscription cancelled successfully" (Some subscription))
     end)
    (λ _, mret (respond 500 "Failed to cancel subscription" None)).

(** ** More of the AI service (services/aiService.js) *)

(** [estimateTokens(text)]: [Math.ceil(text.length / 4)] *)
Definition estimateTokens (text : string) : nat := (String.length text + 3) / 4.

Definition withGenStatus (st : GenerationStatus) (g : AIReviewGeneration)
    : AIReviewGeneration :=
  {| gen_reviewId := gen_reviewId g; gen_originalText := gen_originalText g;
     gen_enhancedText := gen_enhancedText g; gen_confidence := gen_confidence g;
     gen_sentiment := gen_sentiment g; gen_keywords := gen_keywords g;
     gen_improvements := gen_improvements g; gen_status := st;
     gen_rejectionNote := gen_rejectionNote g; gen_createdAt := gen_createdAt g |}.

(** [prisma.review.findUnique({ where: { id }, include: { aiGeneration: true,
    business: true } })] *)
Definition findReviewWithRelations (reviewId : string) (d : Db)
    : option (Review * option Business * option AIReviewGeneration) :=
  r ← reviewOf d reviewId;
  Some (r, businesses d !! rev_businessId r, generationOf d reviewId).

(** [regenerateReview(reviewId, customPrompt)]; the custom prompt is not
    read. *)
Definition regenerateReview `{Externals} (reviewId : string) : Io AIReviewGeneration :=
  tryCatch
    (review ← prismaRead (findReviewWithRelations reviewId);
     match review with
     | None => throw "Review not found"
     | Some (r, business, generation) =>
         _ ← match generation with
             | Some _ => _ ← prisma (updateGeneration reviewId (withGenStatus GEN_REGENERATED));
                         mret ()
             | None => mret ()
             end;
         match business with
         | None => throw "Cannot read properties of null (reading 'name')"
         | Some b =>
             enhanceReview reviewId (rev_feedback r)
               {| ctx_businessId := Some (rev_businessId r);
                  ctx_businessName := Some (biz_name b);
                  ctx_businessType := biz_type b |}
         end
     end)
    (λ _, throw "Failed to regenerate review").

(** The handler of POST /ai/regenerate-review/:reviewId, behind the
    middleware. *)
Definition regenerateReviewHandler `{Externals} (req : Request)
    (reqBusinessId : option string) : Io (Response AIReviewGeneration) :=
  tryCatch
    (match truthyField (req_reviewId req) with
     | None => mret (respond 400 "Validation failed" None)
     | Some reviewId =>
         review ← prismaRead (λ d, findOwnedReview reviewId (req_userEmail req) d);
         match review with
         | None => mret (respond 404 "Review not found or access denied" None)
         | Some _ =>
             aiGeneration ← regenerateReview reviewId;
             _ ← match truthyField reqBusinessId with
                 | Some businessId => recordUsage businessId "ai_enhancement" reviewId
                 | None => mret ()
                 end;
             mret (respond 200 "Review regenerated successfully" (Some aiGeneration))
         end
     end)
    (λ _, mret (respond 500 "Failed to regenerate review" None)).

(** [router.post('/regenerate-review/:reviewId', verifyFirebaseToken,
    checkSubscriptionLimit('ai_enhancement'), .., handler)] *)
Definition regenerateReviewRoute `{Externals} (req : Request)
    : Io (RouteResult AIReviewGeneration) :=
  gate ← checkSubscriptionLimit "ai_enhancement" req;
  match gate with
  | GateRespond status msg details => mret (Refused status msg details)
  | GateNext businessId _ =>
      r ← regenerateReviewHandler req (Some businessId); mret (Handled r)
  end.

(** ** More of the QR code service and its routes (services/qrCodeService.js,
    routes/qrCodes.js) *)

(** [Promise.all([a, b, c])] *)
Definition promiseAll3 {A B C} (a : Io A) (b : Io B) (c : Io C) : Io (A * B * C) := λ w,
  let (ra, w1) := a w in
  let (rb, w2) := b w1 in
  let (rc, w3) := c w2 in
  match ra, rb, rc with
  | Ok x, Ok y, Ok z => (Ok (x, y, z), w3)
  | Throw e, _, _ => (Throw e, w3)
  | _, Throw e, _ => (Throw e, w3)
  | _, _, Throw e => (Throw e, w3)
  end.

Record DateRange := {
  range_startDate : option Instant;
  range_endDate : option Instant
}.

(** [whereClause]: the scans of the code, within the range when both of its
    ends are given. *)
Definition scanMatches (qrCodeId : string) (range : DateRange) (s : QRScan) : bool :=
  String.eqb (scan_qrCodeId s) qrCodeId &&
  match range_startDate range, range_endDate range with
  | Some startDate, Some endDate =>
      Instant_geb (scan_scannedAt s) startDate && Instant_geb endDate (scan_scannedAt s)
  | _, _ => true
  end.

(** [orderBy: { scannedAt: 'desc' }] *)
Definition newestFirst (a b : QRScan) : Prop :=
  Is_true (Instant_geb (scan_scannedAt a) (scan_scannedAt b)).

Global Instance newestFirst_dec a b : Decision (newestFirst a b).
Proof. unfold newestFirst. apply _. Defined.

Record QRCodeAnalytics := {
  qa_qrCode : option (QRCode * option Business);
  qa_totalScans : Z;
  qa_recentScans : list QRScan
}.

(** [getQRCodeAnalytics(qrCodeId, dateRange)] *)
Definition getQRCodeAnalytics (qrCodeId : string) (range : DateRange)
    : Io QRCodeAnalytics :=
  tryCatch
    (found ← promiseAll3
       (prismaRead (λ d, c ← qrCodes d !! qrCodeId;
                         Some (c, businesses d !! qr_businessId c)))
       (prismaRead (λ d, Z.of_nat (length
          (filter (λ s, Is_true (scanMatches qrCodeId range s)) (qrScans d)))))
       (prismaRead (λ d, take 10 (merge_sort newestFirst
          (filter (λ s, Is_true (scanMatches qrCodeId range s)) (qrScans d)))));
     mret {| qa_qrCode := found.1.1; qa_totalScans := found.1.2;
             qa_recentScans := found.2 |})
    (λ _, throw "Failed to fetch QR code analytics").

(** GET /qr-codes/:id/analytics (GET /qr-codes/:id is the same with no
    range). *)
Definition qrAnalyticsHandler (userEmail qrCodeId : string) (range : DateRange)
    : Io (Response QRCodeAnalytics) :=
  tryCatch
    (business ← prismaRead (findBusinessByEmail userEmail);
     match business with
     | None => mret (respond 400 "No business associated with user" None)
     | Some (businessId, _) =>
         analytics ← getQRCodeAnalytics qrCodeId range;
         match qa_qrCode analytics with
         | Some (c, _) =>
             if negb (String.eqb (qr_businessId c) businessId) then
               mret (respond 403 "Access denied" None)
             else mret (respond 200 "" (Some analytics))
         | None => mret (respond 404 "QR code not found" None)
         end
     end)
    (λ _, mret (respond 500 "Failed to fetch analytics" None)).

(** POST /qr-codes/:id/track-scan *)
Definition trackScanHandler (qrCodeId : string) (scanData : ScanData)
    : Io (Response unit) :=
  tryCatch
    (_ ← trackScan qrCodeId scanData;
     mret (respond 200 "Scan tracked successfully" None))
    (λ _, mret (respond 500 "Failed to track scan" None)).

(** The file name of GET /qr-codes/:id/download:
    [title.replace(/[^a-z0-9]/gi, '-').toLowerCase()] *)
Definition isAlnum (c : ascii) : bool :=
  let n := nat_of_ascii c in
  (((48 <=? n) && (n <=? 57)) || ((65 <=? n) && (n <=? 90)) ||
   ((97 <=? n) && (n <=? 122)))%nat.

Definition fileNameOf (title : string) : string :=
  Js.toLowerCase (Js.mapChars (λ c, if isAlnum c then c else "-"%char) title).

(** ** Vocabulary of the further properties *)

(** The datastore is as it was. *)
Definition sameDb (d d' : Db) : Prop := d' = d.

(** A subscription after the sweep at time [t]: EXPIRED when it had run out,
    untouched otherwise. *)
Definition expire (t : Instant) (s : Subscription) : Subscription :=
  if isOverdue t s then withSubStatus SUB_EXPIRED s else s.

(** The scans of a code that a date range selects. *)
Definition scansInRange (qrCodeId : string) (range : DateRange) (d : Db) : list QRScan :=
  filter (λ s, Is_true (scanMatches qrCodeId range s)) (qrScans d).

(** A range with a missing end selects nothing: it is not applied. *)
Definition openRange (range : DateRange) : Prop :=
  range_startDate range = None ∨ range_endDate range = None.

(** A character of a download file name: a digit, a lower-case letter or a
    hyphen. *)
Definition fileNameChar (c : ascii) : bool :=
  let n := nat_of_ascii c in
  (((48 <=? n) && (n <=? 57)) || ((97 <=? n) && (n <=? 122)) || (n =? 45))%nat.

Fixpoint allChars (p : ascii → bool) (s : string) : bool :=
  match s with
  | EmptyString => true
  | String c t => p c && allChars p t
  end.

Module Scenario.

(** The owner's request with the business named in the body. *)
Definition requestFor (businessId email : string) : Request :=
  {| req_userEmail := email; req_bodyBusinessId := Some businessId;
     req_paramsBusinessId := None; req_reviewId := Some "review-0";
     req_businessContext := None; req_rejectionNote := None |}.

(** Two months after [Sample.today], past the end date of the sample
    subscriptions. *)
Definition later : Instant := {| ym := 672; inMonth := 0%N |}.

(** The owner of the sample business asks for plan [planId]. *)
Definition upgradeTo (planId : string) : UpgradeRequest :=
  {| up_userEmail := "owner@cafe.example"; up_planId := Some planId |}.

(** The sample business with a default prompt template and one of its own. *)
Definition defaultTemplate : AIPromptTemplate :=
  {| tpl_businessId := None; tpl_category := "REVIEW_ENHANCEMENT";
     tpl_isDefault := true; tpl_isActive := true;
     tpl_promptText := "Rewrite the review." |}.

Definition cafeTemplate : AIPromptTemplate :=
  {| tpl_businessId := Some "b1"; tpl_category := "REVIEW_ENHANCEMENT";
     tpl_isDefault := false; tpl_isActive := true;
     tpl_promptText := "Rewrite the review of the cafe." |}.

Definition templatesDb : Db :=
  {| businesses := businesses Sample.freshDb;
     subscriptions := subscriptions Sample.freshDb;
     customers := customers Sample.freshDb; reviews := reviews Sample.freshDb;
     aiGenerations := []; aiPromptTemplates := [defaultTemplate; cafeTemplate];
     aiUsageAnalytics := []; subscriptionUsage := ∅;
     qrCodes := qrCodes Sample.freshDb; qrScans := []; nextId := 1%N |}.

(** The context the enhance-review handler builds for the sample business. *)
Definition cafeContext : BusinessContext :=
  {| ctx_businessId := Some "b1"; ctx_businessName := Some "Corner Cafe";
     ctx_businessType := Some "Restaurant" |}.

(** A Premium subscriber whose review 0 has been enhanced and approved. *)
Definition approvedDb : Db :=
  {| businesses := businesses Sample.enhancedDb;
     subscriptions := subscriptions Sample.enhancedDb;
     customers := customers Sample.enhancedDb;
     reviews := [Sample.review 0 APPROVED];
     aiGenerations := [Sample.generation 0 GEN_APPROVED];
     aiPromptTemplates := []; aiUsageAnalytics := []; subscriptionUsage := ∅;
     qrCodes := ∅; qrScans := []; nextId := 1%N |}.

(** The sample business after two scans of its QR code. *)
Definition scanAt (t : Instant) : QRScan :=
  {| scan_qrCodeId := "q1"; scan_ipAddress := Some "203.0.113.7";
     scan_userAgent := None; scan_location := None; scan_scannedAt := t |}.

Definition scannedDb : Db :=
  setQrScans (λ _, [scanAt Sample.today; scanAt Sample.nextMonth]) Sample.freshDb.

Definition noRange : DateRange := {| range_startDate := None; range_endDate := None |}.

End Scenario.

(** * Properties *)

Ltac io_unfold :=
  unfold result, after, mbind, mret, Io_bind, Io_ret, tryCatch, throw, getNow,
         prismaRead, prisma, mkWorld in *.

Ltac io_step :=
  match goal with
  | |- context [match faults ?w with _ => _ end] =>
      let E := fresh "Efaults" in destruct (faults w) as [|[] ?] eqn:E
  | |- context [if decide ?P then _ else _] => destruct (decide P)
  | |- context [if String.eqb ?a ?b then _ else _] =>
      let E := fresh "Eeqb" in destruct (String.eqb a b) eqn:E
  end.

Lemma checkFeatureLimit_resolves planId feature businessId w :
  ∃ r, result (checkFeatureLimit planId feature businessId) w = Ok r.
Proof.
  unfold checkFeatureLimit. io_unfold.
  destruct (decide _) as [?|Hne]; [eauto|].
  destruct (plan_features (getPlan planId) !! feature) as [[k|b]|]; simpl;
    eauto; repeat (io_step; simpl); eauto.
Qed.

Lemma checkUsageLimit_resolves businessId feature w :
  ∃ r, result (checkUsageLimit businessId feature) w = Ok r.
Proof.
  unfold checkUsageLimit, result, mbind, Io_bind, tryCatch.
  unfold prismaRead, prisma.
  destruct (faults w) as [|[] rest]; simpl.
  - destruct (findBusiness businessId (db w)) as [[? [?|]]|]; simpl;
      apply checkFeatureLimit_resolves.
  - eauto.
  - destruct (findBusiness businessId (db w)) as [[? [?|]]|]; simpl;
      apply checkFeatureLimit_resolves.
Qed.

(** ** Entitlement check: failure modes *)

Lemma checkUsageLimit_lookup_error businessId feature w rest :
  faults w = true :: rest →
  checkUsageLimit businessId feature w = (Ok failClosed, popFault w).
Proof.
  intros E. unfold checkUsageLimit, popFault. io_unfold. rewrite E. reflexivity.
Qed.

Lemma checkUsageLimit_lookup_ok businessId feature w :
  head (faults w) ≠ Some true →
  checkUsageLimit businessId feature w =
  checkFeatureLimit
    match findBusiness businessId (db w) with
    | Some (_, Some sub) => sub_planId sub
    | _ => "FREE"
    end feature businessId (popFault w).
Proof.
  intros E. unfold checkUsageLimit, popFault. io_unfold.
  destruct (faults w) as [|[] rest]; simpl in *; try congruence;
    destruct (findBusiness businessId (db w)) as [[? [?|]]|]; reflexivity.
Qed.

Lemma findBusiness_unknown businessId d :
  businesses d !! businessId = None → findBusiness businessId d = None.
Proof. intros E. unfold findBusiness. rewrite E. reflexivity. Qed.

Lemma checkFeatureLimit_count_error planId feature businessId w n rest :
  plan_features (getPlan planId) !! feature = Some (LNum n) → n ≠ -1 →
  tracked feature → faults w = true :: rest →
  checkFeatureLimit planId feature businessId w =
  (Ok {| allowed := 0 <? n; limit := Some (ViewNum n); used := Some 0;
         remaining := Some (Js.Num (Z.max 0 (n - 0))); message := None |},
   popFault w).
Proof.
  intros Hlim Hn Ht E. unfold checkFeatureLimit, popFault. rewrite Hlim.
  destruct (decide _) as [Heq|_]; [congruence|].
  io_unfold. destruct Ht as [-> | ->]; simpl; rewrite E; reflexivity.
Qed.

(** C1, as stated, fails in two ways. A business that does not exist is
    checked against the Free plan, which grants [basicAnalytics]; and when
    the read of the month's usage throws, the count is taken to be 0, so a
    business that has used up its five AI enhancements is allowed again. *)
Lemma C1_check_fails_open :
  (businesses (db (mkWorld Sample.emptyDb [] [] Sample.today)) !! "ghost" = None ∧
   ∃ r, result (checkUsageLimit "ghost" "basicAnalytics")
               (mkWorld Sample.emptyDb [] [] Sample.today) = Ok r ∧
        allowed r = true) ∧
  (∃ r, result (checkUsageLimit "b1" "aiEnhancementsPerMonth")
               (mkWorld Sample.busyDb [false; false] [] Sample.today) = Ok r ∧
        allowed r = false ∧ used r = Some 5) ∧
  (∃ r, result (checkUsageLimit "b1" "aiEnhancementsPerMonth")
               (mkWorld Sample.busyDb [false; true] [] Sample.today) = Ok r ∧
        allowed r = true ∧ used r = Some 0).
Proof.
  split; [split; [reflexivity|]|split]; eexists; split;
    try (vm_compute; reflexivity); split; reflexivity.
Qed.

(** C1, amended. [checkUsageLimit] always resolves; when the lookup of the
    business and its subscription throws, it resolves to [allowed = false]
    with the message ['Unable to verify subscription']; a business that is
    not found is checked against the Free plan; and when the read of the
    month's usage throws, the usage is taken to be 0. *)
Theorem C1_checkUsageLimit_failure_modes (businessId feature : string) (w : World) :
  (∃ r, result (checkUsageLimit businessId feature) w = Ok r) ∧
  (∀ rest, faults w = true :: rest →
     result (checkUsageLimit businessId feature) w = Ok failClosed ∧
     allowed failClosed = false ∧ is_Some (message failClosed)) ∧
  (head (faults w) ≠ Some true → businesses (db w) !! businessId = None →
     checkUsageLimit businessId feature w =
     checkFeatureLimit "FREE" feature businessId (popFault w)) ∧
  (∀ planId n rest,
     plan_features (getPlan planId) !! feature = Some (LNum n) → n ≠ -1 →
     tracked feature → faults w = true :: rest →
     result (checkFeatureLimit planId feature businessId) w =
     Ok {| allowed := 0 <? n; limit := Some (ViewNum n); used := Some 0;
           remaining := Some (Js.Num (Z.max 0 (n - 0))); message := None |}).
Proof.
  split; [apply checkUsageLimit_resolves|]. split; [|split].
  - intros rest E. unfold result.
    rewrite (checkUsageLimit_lookup_error _ _ _ _ E). simpl. eauto.
  - intros E Hnone. rewrite checkUsageLimit_lookup_ok by exact E.
    rewrite findBusiness_unknown by exact Hnone. reflexivity.
  - intros planId n rest Hlim Hn Ht E. unfold result.
    rewrite (checkFeatureLimit_count_error _ _ _ _ _ _ Hlim Hn Ht E). reflexivity.
Qed.

Lemma C1_checkUsageLimit_failure_modes_witness :
  result (checkUsageLimit "b1" "aiEnhancementsPerMonth")
         (mkWorld Sample.busyDb [true] [] Sample.today) = Ok failClosed ∧
  checkUsageLimit "ghost" "basicAnalytics" (mkWorld Sample.emptyDb [false] [] Sample.today) =
  checkFeatureLimit "FREE" "basicAnalytics" "ghost"
    (popFault (mkWorld Sample.emptyDb [false] [] Sample.today)) ∧
  result (checkFeatureLimit "FREE" "aiEnhancementsPerMonth" "b1")
         (mkWorld Sample.busyDb [true] [] Sample.today) =
  Ok {| allowed := true; limit := Some (ViewNum 5); used := Some 0;
        remaining := Some (Js.Num 5); message := None |}.
Proof.
  split; [|split].
  - apply (proj1 (proj2 (C1_checkUsageLimit_failure_modes "b1" "aiEnhancementsPerMonth"
             (mkWorld Sample.busyDb [true] [] Sample.today))) []).
    reflexivity.
  - apply (proj1 (proj2 (proj2 (C1_checkUsageLimit_failure_modes "ghost" "basicAnalytics"
             (mkWorld Sample.emptyDb [false] [] Sample.today))))).
    + simpl. discriminate.
    + reflexivity.
  - apply (proj2 (proj2 (proj2 (C1_checkUsageLimit_failure_modes "b1"
             "aiEnhancementsPerMonth" (mkWorld Sample.busyDb [true] [] Sample.today))))
             "FREE" 5 []).
    + reflexivity.
    + lia.
    + left. reflexivity.
    + reflexivity.
Defined.

(** ** Entitlement check: the three kinds of limit *)

Lemma geb_monthStart_sameMonth t created :
  Instant_geb t created = true →
  Instant_geb created (monthStart t) = sameMonth t created.
Proof.
  unfold Instant_geb, sameMonth, monthStart. simpl. intros H.
  destruct (ym created =? ym t) eqn:E.
  - apply Z.eqb_eq in E. rewrite E, Z.ltb_irrefl, Z.eqb_refl. simpl.
    destruct (inMonth created); reflexivity.
  - apply Z.eqb_neq in E.
    apply orb_true_iff in H as [H|H].
    + apply Z.ltb_lt in H.
      replace (ym t <? ym created) with false by (symmetry; apply Z.ltb_ge; lia).
      replace (ym t =? ym created) with false by (symmetry; apply Z.eqb_neq; lia).
      reflexivity.
    + simpl in H. discriminate.
Qed.

Lemma length_filter_ext {A} (p q : A → bool) (l : list A) :
  Forall (λ x, p x = q x) l →
  length (filter (λ x, Is_true (p x)) l) = length (filter (λ x, Is_true (q x)) l).
Proof.
  induction 1 as [|x l Hx _ IH]; [reflexivity|].
  rewrite !filter_cons. rewrite Hx.
  destruct (decide (Is_true (q x))); simpl; congruence.
Qed.

Lemma countGenerations_inMonth businessId t d :
  noneAfter t d → countGenerations businessId (monthStart t) d = generationsInMonth businessId t d.
Proof.
  intros [Hg _]. unfold countGenerations, generationsInMonth. f_equal.
  apply length_filter_ext. eapply Forall_impl; [exact Hg|].
  intros g H. simpl. rewrite geb_monthStart_sameMonth by exact H. reflexivity.
Qed.

Lemma countReviews_inMonth businessId t d :
  noneAfter t d → countReviews businessId (monthStart t) d = reviewsInMonth businessId t d.
Proof.
  intros [_ Hr]. unfold countReviews, reviewsInMonth. f_equal.
  apply length_filter_ext. eapply Forall_impl; [exact Hr|].
  intros r H. simpl. rewrite geb_monthStart_sameMonth by exact H. reflexivity.
Qed.

Lemma checkFeatureLimit_unlimited planId feature businessId w :
  plan_features (getPlan planId) !! feature = Some (LNum (-1)) →
  checkFeatureLimit planId feature businessId w = (Ok unlimitedResult, w).
Proof.
  intros Hlim. unfold checkFeatureLimit. rewrite Hlim.
  destruct (decide _) as [_|Hne]; [reflexivity|congruence].
Qed.


Lemma checkFeatureLimit_capped planId feature businessId w n :
  plan_features (getPlan planId) !! feature = Some (LNum n) → n ≠ -1 →
  ∃ u, result (checkFeatureLimit planId feature businessId) w
       = Ok (cappedResult n u) ∧
       (tracked feature → head (faults w) ≠ Some true →
        noneAfter (now w) (db w) →
        u = usageInMonth feature businessId (now w) (db w)) ∧
       (¬ tracked feature → u = 0).
Proof.
  intros Hlim Hn. unfold checkFeatureLimit. rewrite Hlim.
  destruct (decide _) as [Heq|_]; [congruence|].
  unfold usageInMonth, tracked. io_unfold.
  destruct (String.eqb feature "aiEnhancementsPerMonth") eqn:Eai;
    [|destruct (String.eqb feature "reviewsPerMonth") eqn:Erev]; simpl.
  - apply String.eqb_eq in Eai.
    destruct (faults w) as [|[] rest]; simpl; eexists;
      (split; [reflexivity|]); (split; [|intros Hnot; tauto]);
      intros _ Hf Hpast; simpl in *; try congruence;
      apply countGenerations_inMonth; exact Hpast.
  - apply String.eqb_eq in Erev.
    destruct (faults w) as [|[] rest]; simpl; eexists;
      (split; [reflexivity|]); (split; [|intros Hnot; tauto]);
      intros _ Hf Hpast; simpl in *; try congruence;
      apply countReviews_inMonth; exact Hpast.
  - apply String.eqb_neq in Eai, Erev.
    eexists; split; [reflexivity|]. split; [|reflexivity].
    intros [?|?]; congruence.
Qed.



(** The Premium plan's unlimited AI enhancements are allowed whatever the
    datastore holds. *)
Corollary premium_unlimited_whatever_the_usage (businessId : string) (w : World) :
  checkFeatureLimit "PREMIUM" "aiEnhancementsPerMonth" businessId w
  = (Ok unlimitedResult, w).
Proof.
  apply checkFeatureLimit_unlimited. reflexivity.
Qed.

(** With the key of the feature map, the monthly cap works as the
    specification describes: at [n] uses of the month the check refuses with
    [used = n] and nothing remaining, and rows of earlier months do not
    count. *)
Lemma checkFeatureLimit_cap_reached planId feature businessId n w :
  plan_features (getPlan planId) !! feature = Some (LNum n) → n ≠ -1 →
  tracked feature → head (faults w) ≠ Some true → noneAfter (now w) (db w) →
  usageInMonth feature businessId (now w) (db w) = n →
  result (checkFeatureLimit planId feature businessId) w =
  Ok {| allowed := false; limit := Some (ViewNum n); used := Some n;
        remaining := Some (Js.Num 0); message := None |}.
Proof.
  intros Hlim Hn Ht Hf Hpast Hu.
  destruct (checkFeatureLimit_capped planId feature businessId w n Hlim Hn)
    as (u & -> & Hu' & _).
  rewrite (Hu' Ht Hf Hpast), Hu.
  unfold cappedResult. rewrite Z.ltb_irrefl, Z.sub_diag. reflexivity.
Qed.

Lemma usageInMonth_new_month feature businessId t d :
  Forall (λ g, ym (gen_createdAt g) ≠ ym t) (aiGenerations d) →
  Forall (λ r, ym (rev_createdAt r) ≠ ym t) (reviews d) →
  usageInMonth feature businessId t d = 0.
Proof.
  intros Hg Hr. unfold usageInMonth, generationsInMonth, reviewsInMonth.
  assert (Hnil : ∀ {A} (p : A → bool) (l : list A),
             Forall (λ x, p x = false) l → filter (λ x, Is_true (p x)) l = []).
  { intros A p l. induction 1 as [|x l Hx _ IH]; [reflexivity|].
    rewrite filter_cons, Hx. simpl. exact IH. }
  destruct (String.eqb feature "aiEnhancementsPerMonth");
    [|destruct (String.eqb feature "reviewsPerMonth")]; [| |reflexivity].
  - rewrite Hnil; [reflexivity|]. eapply Forall_impl; [exact Hg|].
    intros g H. simpl. unfold sameMonth.
    replace (ym (gen_createdAt g) =? ym t) with false
      by (symmetry; apply Z.eqb_neq; exact H).
    apply andb_false_r.
  - rewrite Hnil; [reflexivity|]. eapply Forall_impl; [exact Hr|].
    intros r H. simpl. unfold sameMonth.
    replace (ym (rev_createdAt r) =? ym t) with false
      by (symmetry; apply Z.eqb_neq; exact H).
    apply andb_false_r.
Qed.

(** ** Entitlement check: what it depends on *)

Lemma checkFeatureLimit_result_ext planId feature businessId d1 d2 fs g t :
  reviews d1 = reviews d2 → aiGenerations d1 = aiGenerations d2 →
  result (checkFeatureLimit planId feature businessId) (mkWorld d1 fs g t) =
  result (checkFeatureLimit planId feature businessId) (mkWorld d2 fs g t).
Proof.
  intros Hr Hg. unfold checkFeatureLimit.
  destruct (decide _) as [?|?]; [reflexivity|].
  destruct (plan_features (getPlan planId) !! feature) as [[k|b]|];
    try reflexivity; io_unfold; simpl;
    (destruct (String.eqb feature "aiEnhancementsPerMonth");
     [|destruct (String.eqb feature "reviewsPerMonth")]); simpl;
    try reflexivity; destruct fs as [|[] rest]; simpl; try reflexivity;
    unfold countGenerations, countReviews, reviewOf; rewrite ?Hr, ?Hg; reflexivity.
Qed.

Lemma findBusiness_plan_ext businessId d1 d2 :
  differOnlyInSubscriptionState d1 d2 →
  match findBusiness businessId d1 with
  | Some (_, Some sub) => sub_planId sub
  | _ => "FREE"
  end =
  match findBusiness businessId d2 with
  | Some (_, Some sub) => sub_planId sub
  | _ => "FREE"
  end.
Proof.
  intros (Hb & _ & _ & _ & _ & _ & _ & _ & _ & _ & Hs).
  unfold findBusiness. rewrite Hb.
  destruct (businesses d2 !! businessId); simpl; [|reflexivity].
  destruct (Hs businessId) as [s1 s2 Hp|]; [exact Hp|reflexivity].
Qed.

(** C10. The entitlement check reads the plan of a subscription and nothing
    else of it: two datastores that differ only in the status, start date,
    end date or cancellation date of subscriptions give the same answer to
    every check, under the same datastore faults and at the same time. *)
Theorem C10_entitlement_ignores_subscription_state
    (d1 d2 : Db) (fs : list bool) (g : list AiOutcome) (t : Instant)
    (businessId feature : string) :
  differOnlyInSubscriptionState d1 d2 →
  result (checkUsageLimit businessId feature) (mkWorld d1 fs g t) =
  result (checkUsageLimit businessId feature) (mkWorld d2 fs g t).
Proof.
  intros Hd. destruct fs as [|[] rest].
  - unfold result. rewrite !checkUsageLimit_lookup_ok by (simpl; discriminate).
    simpl. rewrite (findBusiness_plan_ext businessId d1 d2 Hd).
    apply checkFeatureLimit_result_ext; apply Hd.
  - unfold result.
    rewrite !(checkUsageLimit_lookup_error _ _ _ rest) by reflexivity. reflexivity.
  - unfold result. rewrite !checkUsageLimit_lookup_ok by (simpl; discriminate).
    simpl. rewrite (findBusiness_plan_ext businessId d1 d2 Hd).
    apply checkFeatureLimit_result_ext; apply Hd.
Qed.

Lemma differ_withSubscription s1 s2 d :
  samePlan s1 s2 →
  differOnlyInSubscriptionState (Sample.withSubscription s1 d)
                                (Sample.withSubscription s2 d).
Proof.
  intros Hp. repeat (split; [reflexivity|]). intros b. simpl.
  destruct (decide (b = "b1")) as [->|Hne].
  - rewrite !lookup_insert_eq. constructor. exact Hp.
  - rewrite !lookup_insert_ne by congruence.
    destruct (subscriptions d !! b); constructor. reflexivity.
Qed.

(** An expired Premium subscription is served like an active one. *)
Lemma C10_entitlement_ignores_subscription_state_witness :
  result (checkUsageLimit "b1" "aiEnhancementsPerMonth")
    (mkWorld (Sample.withSubscription (Sample.subscription "PREMIUM" SUB_EXPIRED)
                Sample.busyDb) [] [] Sample.nextMonth) =
  result (checkUsageLimit "b1" "aiEnhancementsPerMonth")
    (mkWorld (Sample.withSubscription (Sample.subscription "PREMIUM" SUB_ACTIVE)
                Sample.busyDb) [] [] Sample.nextMonth).
Proof.
  apply C10_entitlement_ignores_subscription_state.
  apply differ_withSubscription. reflexivity.
Defined.

Lemma expired_premium_is_unlimited :
  result (checkUsageLimit "b1" "aiEnhancementsPerMonth")
    (mkWorld (Sample.withSubscription (Sample.subscription "PREMIUM" SUB_EXPIRED)
                Sample.busyDb) [] [] Sample.nextMonth) = Ok unlimitedResult.
Proof. vm_compute. reflexivity. Qed.

(** ** The gate of the enhance-review route *)

Lemma getPlan_cases planId : getPlan planId = FREE ∨ getPlan planId = PREMIUM.
Proof.
  unfold getPlan. destruct (plans !! Js.toUpperCase planId) as [p|] eqn:E; simpl.
  - apply elem_of_list_to_map_2 in E.
    repeat (apply elem_of_cons in E as [E|E]; [injection E as _ ->; auto|]).
    inversion E.
  - left. reflexivity.
Qed.

Lemma ai_enhancement_is_no_feature planId :
  plan_features (getPlan planId) !! "ai_enhancement" = None.
Proof. destruct (getPlan_cases planId) as [-> | ->]; reflexivity. Qed.

Lemma checkFeatureLimit_ai_enhancement planId businessId w :
  checkFeatureLimit planId "ai_enhancement" businessId w = (Ok unknownFeatureResult, w).
Proof.
  unfold checkFeatureLimit. rewrite ai_enhancement_is_no_feature.
  destruct (decide _) as [Heq|_]; [discriminate|]. reflexivity.
Qed.

Lemma checkUsageLimit_ai_enhancement businessId w :
  ∃ r w', checkUsageLimit businessId "ai_enhancement" w = (Ok r, w') ∧ allowed r = false.
Proof.
  destruct (faults w) as [|[] rest] eqn:E.
  - rewrite checkUsageLimit_lookup_ok by (rewrite E; discriminate).
    rewrite checkFeatureLimit_ai_enhancement. eauto.
  - rewrite (checkUsageLimit_lookup_error _ _ _ _ E). eauto.
  - rewrite checkUsageLimit_lookup_ok by (rewrite E; discriminate).
    rewrite checkFeatureLimit_ai_enhancement. eauto.
Qed.

Lemma checkSubscriptionLimit_ai_enhancement_never_passes req w :
  ∃ status msg details,
    result (checkSubscriptionLimit "ai_enhancement" req) w
    = Ok (GateRespond status msg details) ∧ (status = 400 ∨ status = 403 ∨ status = 500).
Proof.
  unfold checkSubscriptionLimit, result, tryCatch, mbind, Io_bind.
  destruct (resolveBusinessId req w) as [[[b|]|e] w1]; simpl; eauto 8.
  destruct (checkUsageLimit_ai_enhancement b w1) as (r & w2 & -> & Hr).
  rewrite Hr. simpl.
  destruct (getSubscriptionAnalytics b w2) as [[a|e] w3]; simpl; eauto 8.
Qed.

Lemma enhanceReviewRoute_always_refused `{Externals} req w :
  ∃ status msg details,
    result (enhanceReviewRoute req) w = Ok (Refused status msg details).
Proof.
  destruct (checkSubscriptionLimit_ai_enhancement_never_passes req w)
    as (status & msg & details & Hg & _).
  unfold enhanceReviewRoute, result, mbind, Io_bind in *.
  destruct (checkSubscriptionLimit "ai_enhancement" req w) as [[gate|e] w1];
    simpl in Hg; [|discriminate].
  injection Hg as ->. simpl. eauto.
Qed.

(** C3, at the failing input. Asked with the key of the feature map, the
    check does what the specification describes: a business on the Free plan
    is allowed at no use, refused at five uses of the month with
    [used = 5], [limit = 5], [remaining = 0], and allowed again in the next
    month. But the enhance-review route asks the check about
    ['ai_enhancement'], a key of no plan: the business that has used none of
    its five enhancements is answered 403 with [used = 0] and an undefined
    limit, and so is a Premium subscriber; no request passes the gate. *)
Theorem C3_enhance_review_gate_refuses_unused_quota `{Externals} :
  result (checkUsageLimit "b1" "aiEnhancementsPerMonth")
         (mkWorld Sample.freshDb [] [] Sample.today)
  = Ok (cappedResult 5 0) ∧
  result (checkUsageLimit "b1" "aiEnhancementsPerMonth")
         (mkWorld Sample.busyDb [] [] Sample.today)
  = Ok {| allowed := false; limit := Some (ViewNum 5); used := Some 5;
          remaining := Some (Js.Num 0); message := None |} ∧
  result (checkUsageLimit "b1" "aiEnhancementsPerMonth")
         (mkWorld Sample.busyDb [] [] Sample.nextMonth)
  = Ok (cappedResult 5 0) ∧
  result (enhanceReviewRoute Sample.ownerRequest)
         (mkWorld Sample.freshDb [] [AiText "Great food."] Sample.today)
  = Ok (Refused 403 "Usage limit reached for ai_enhancement"
          (Some {| den_used := Some 0; den_limit := Some ViewUndefined;
                   den_currentPlan := "Free";
                   den_upgradeMessage :=
                     "Upgrade to Pro or Ultimate plan to continue using this feature." |})) ∧
  result (enhanceReviewRoute Sample.ownerRequest)
         (mkWorld (Sample.withSubscription (Sample.subscription "PREMIUM" SUB_ACTIVE)
                     Sample.freshDb) [] [AiText "Great food."] Sample.today)
  = Ok (Refused 403 "Usage limit reached for ai_enhancement"
          (Some {| den_used := Some 0; den_limit := Some ViewUndefined;
                   den_currentPlan := "Premium"; den_upgradeMessage := "" |})) ∧
  (∀ req w, ∃ status msg details,
     result (enhanceReviewRoute req) w = Ok (Refused status msg details)).
Proof.
  repeat (split; [vm_compute; reflexivity|]).
  intros req w. apply enhanceReviewRoute_always_refused.
Qed.

(** ** Confidence score *)






(** ** QR scan tracking *)


Lemma trackScan_failure_keeps_counter qrCodeId scanData w e :
  result (trackScan qrCodeId scanData) w = Throw e →
  qrCodes (db (after (trackScan qrCodeId scanData) w)) = qrCodes (db w).
Proof.
  unfold trackScan. io_unfold. unfold incrementScans.
  destruct (faults w) as [|[] [|[] rest]]; simpl;
    try reflexivity; destruct (qrCodes (db w) !! qrCodeId); simpl;
    intros H; try discriminate; reflexivity.
Qed.





(** ** Public review submission *)



(** ** Stability of handlers *)

Section Stable.
Context (R : Db → Db → Prop) `{!PreOrder R}.

Lemma stable_ret {A} (a : A) : stable R (mret a).
Proof. intros w. simpl. reflexivity. Qed.

Lemma stable_throw {A} e : stable R (@throw A e).
Proof. intros w. simpl. reflexivity. Qed.

Lemma stable_getNow : stable R getNow.
Proof. intros w. simpl. reflexivity. Qed.

Lemma stable_generateContent : stable R generateContent.
Proof. intros w. unfold generateContent. destruct (gemini w); simpl; reflexivity. Qed.

Lemma stable_bind {A B} (m : Io A) (f : A → Io B) :
  stable R m → (∀ a, stable R (f a)) → stable R (m ≫= f).
Proof.
  intros Hm Hf w. unfold mbind, Io_bind. specialize (Hm w).
  destruct (m w) as [[a|e] w1]; simpl in *; [|exact Hm].
  etransitivity; [exact Hm|apply Hf].
Qed.

Lemma stable_tryCatch {A} (body : Io A) (handler : string → Io A) :
  stable R body → (∀ e, stable R (handler e)) → stable R (tryCatch body handler).
Proof.
  intros Hm Hh w. unfold tryCatch. specialize (Hm w).
  destruct (body w) as [[a|e] w1]; simpl in *; [exact Hm|].
  etransitivity; [exact Hm|apply Hh].
Qed.

Lemma stable_prisma {A} (op : Db → Outcome A * Db) :
  (∀ d, R d (op d).2) → stable R (prisma op).
Proof.
  intros Hop w. unfold prisma. specialize (Hop (db w)).
  destruct (faults w) as [|[] rest]; simpl; try reflexivity;
    destruct (op (db w)) as [r d]; simpl in *; exact Hop.
Qed.

Lemma stable_prismaRead {A} (q : Db → A) : stable R (prismaRead q).
Proof. apply stable_prisma. intros d. simpl. reflexivity. Qed.

End Stable.

Global Instance sameLedger_preorder : PreOrder sameLedger.
Proof.
  split; [intros d; reflexivity|].
  intros d1 d2 d3 H12 H23. unfold sameLedger in *. congruence.
Qed.

Ltac stable_step :=
  first
    [ apply stable_ret; apply _ | apply stable_throw; apply _
    | apply stable_getNow; apply _ | apply stable_generateContent; apply _
    | apply stable_prismaRead; apply _
    | apply stable_bind; [apply _| |intros ?]
    | apply stable_tryCatch; [apply _| |intros ?]
    | apply stable_prisma; [apply _|intros ?] ].






(** ** The Usage Ledger and the enhance-review handler *)







(** ** The fallback of the enhance-text route *)

Lemma append_nonempty_l a b : a ≠ "" → a +:+ b ≠ "".
Proof. destruct a; [congruence|discriminate]. Qed.




Lemma getPromptTemplate_run category businessId w :
  ∃ t w', getPromptTemplate category businessId w = (Ok t, w') ∧
          gemini w' = gemini w ∧ db w' = db w.
Proof.
  unfold getPromptTemplate. io_unfold.
  destruct (truthyField businessId) as [b|]; simpl.
  - destruct (faults w) as [|[] rest]; simpl; eauto;
      destruct (findTemplate _ (db w)); simpl; eauto.
    destruct rest as [|[] rest]; simpl; eauto.
  - destruct (faults w) as [|[] rest]; simpl; eauto.
Qed.







(** ** Rejection of an AI generation *)

Global Instance sameOriginals_preorder : PreOrder sameOriginals.
Proof.
  split; [intros d; reflexivity|].
  intros d1 d2 d3 H12 H23. unfold sameOriginals in *. congruence.
Qed.

Lemma updateFirst_fmap {A B} (p : A → bool) (f : A → A) (g : A → B) (l : list A) :
  (∀ x, g (f x) = g x) →
  match updateFirst p f l with
  | Some (_, l') => g <$> l' = g <$> l
  | None => True
  end.
Proof.
  intros Hg. induction l as [|x l IH]; simpl; [exact I|].
  destruct (p x); simpl; [f_equal; apply Hg|].
  destruct (updateFirst p f l) as [[y l']|]; simpl in *; [|exact I].
  f_equal. exact IH.
Qed.

Lemma updateFirst_find {A} (p : A → bool) (f : A → A) (l : list A) x :
  List.find p l = Some x → (∀ y, p (f y) = p y) →
  ∃ l', updateFirst p f l = Some (f x, l') ∧ List.find p l' = Some (f x).
Proof.
  intros Hfind Hp. induction l as [|y l IH]; simpl in *; [discriminate|].
  destruct (p y) eqn:Ey.
  - injection Hfind as ->. eexists. split; [reflexivity|]. simpl.
    rewrite Hp, Ey. reflexivity.
  - destruct (IH Hfind) as (l' & -> & Hl'). eexists. split; [reflexivity|].
    simpl. rewrite Ey. exact Hl'.
Qed.

(** Whatever its outcome, a rejection changes neither the feedback nor the
    rating of any review. *)
Lemma rejectReview_keeps_originals reviewId note :
  stable sameOriginals (rejectReview reviewId note).
Proof.
  unfold rejectReview. apply stable_tryCatch; [apply _| |intros ?; apply stable_throw; apply _].
  apply stable_bind; [apply _| |intros ?].
  { apply stable_prisma; [apply _|]. intros d. unfold updateGeneration.
    destruct (updateFirst _ _ _) as [[? ?]|]; reflexivity. }
  apply stable_bind; [apply _| |intros ?; apply stable_ret; apply _].
  apply stable_prisma; [apply _|]. intros d. unfold updateReview.
  pose proof (updateFirst_fmap (λ r, String.eqb (rev_id r) reviewId) (withStatus PENDING)
                original (reviews d) (λ x, eq_refl)) as Hm.
  destruct (updateFirst _ _ _) as [[? ?]|]; [exact Hm|reflexivity].
Qed.

Lemma rejectReviewHandler_keeps_originals req :
  stable sameOriginals (rejectReviewHandler req).
Proof.
  unfold rejectReviewHandler.
  apply stable_tryCatch; [apply _| |intros ?; apply stable_ret; apply _].
  destruct (truthyField (req_reviewId req)); [|apply stable_ret; apply _].
  apply stable_bind; [apply _|apply stable_prismaRead; apply _|intros [[[r b] [g|]]|]];
    try (apply stable_ret; apply _).
  apply stable_bind; [apply _|apply rejectReview_keeps_originals|intros ?].
  apply stable_ret; apply _.
Qed.

(** A rejection that meets no datastore error marks the generation REJECTED
    and returns the review to PENDING. *)
Lemma rejectReview_calm reviewId note w g r :
  faults w = [] →
  generationOf (db w) reviewId = Some g → reviewOf (db w) reviewId = Some r →
  ∃ w', rejectReview reviewId note w = (Ok (withRejection note g), w') ∧
        generationOf (db w') reviewId = Some (withRejection note g) ∧
        reviewOf (db w') reviewId = Some (withStatus PENDING r).
Proof.
  intros Hf Hg Hr. unfold rejectReview. io_unfold. rewrite Hf. simpl.
  unfold updateGeneration.
  destruct (updateFirst_find _ (withRejection note) _ _ Hg (λ y, eq_refl)) as (gs & -> & Hgs).
  simpl. unfold updateReview. simpl.
  destruct (updateFirst_find _ (withStatus PENDING) _ _ Hr (λ y, eq_refl)) as (rs & -> & Hrs).
  simpl. eexists. split; [reflexivity|]. split; [exact Hgs|exact Hrs].
Qed.

(** C8, at the failing input. A Premium subscriber rejects the AI generation
    of a review: the route answers 200, the generation is REJECTED, the
    review is PENDING again, its feedback and rating are as before. The
    enhancement asked for next is refused with 403 by the gate of the route,
    which asks the entitlement check about ['ai_enhancement'], a key of no
    plan; no request passes that gate. *)
Theorem C8_enhance_after_reject_is_refused `{Externals} :
  (∃ g w', rejectReviewHandler Sample.ownerRequest
             (mkWorld Sample.enhancedDb [] [AiText "Great food."] Sample.today)
           = (Ok (respond 200 "Review rejected successfully" (Some g)), w') ∧
     gen_status g = GEN_REJECTED ∧
     generationOf (db w') "review-0" = Some g ∧
     (rev_status <$> reviewOf (db w') "review-0") = Some PENDING ∧
     sameOriginals Sample.enhancedDb (db w') ∧
     result (enhanceReviewRoute Sample.ownerRequest) w'
     = Ok (Refused 403 "Usage limit reached for ai_enhancement"
             (Some {| den_used := Some 0; den_limit := Some ViewUndefined;
                      den_currentPlan := "Premium"; den_upgradeMessage := "" |}))) ∧
  (∀ req w, ∃ status msg details,
     result (enhanceReviewRoute req) w = Ok (Refused status msg details)).
Proof.
  split; [|intros req w; apply enhanceReviewRoute_always_refused].
  eexists _, _. split; [vm_compute; reflexivity|].
  repeat split; vm_compute; reflexivity.
Qed.

(** * Further properties of the code *)

(** ** Plan catalogue *)

Lemma upperChar_lowerChar c : Js.upperChar (Js.lowerChar c) = Js.upperChar c.
Proof. destruct c as [[] [] [] [] [] [] [] []]; reflexivity. Qed.

Lemma upperChar_idem c : Js.upperChar (Js.upperChar c) = Js.upperChar c.
Proof. destruct c as [[] [] [] [] [] [] [] []]; reflexivity. Qed.

Lemma toUpperCase_toLowerCase s : Js.toUpperCase (Js.toLowerCase s) = Js.toUpperCase s.
Proof.
  induction s as [|c t IH]; [reflexivity|].
  unfold Js.toUpperCase, Js.toLowerCase in *. simpl.
  rewrite upperChar_lowerChar, IH. reflexivity.
Qed.

Lemma toUpperCase_idem s : Js.toUpperCase (Js.toUpperCase s) = Js.toUpperCase s.
Proof.
  induction s as [|c t IH]; [reflexivity|].
  unfold Js.toUpperCase in *. simpl. rewrite upperChar_idem, IH. reflexivity.
Qed.

Lemma plans_lookup key p :
  plans !! key = Some p → (key = "FREE" ∧ p = FREE) ∨ (key = "PREMIUM" ∧ p = PREMIUM).
Proof.
  intros E. apply elem_of_list_to_map_2 in E.
  repeat (apply elem_of_cons in E as [E|E]; [injection E as -> ->; auto|]).
  inversion E.
Qed.

(** X1. [getPlan] resolves an id by its upper-cased form only: it is the
    Premium plan when the id upper-cases to ['PREMIUM'] and the Free plan for
    every other id, so the case of an id never matters. *)
Theorem X1_getPlan_by_upper_cased_id (planId : string) :
  (Js.toUpperCase planId = "PREMIUM" → getPlan planId = PREMIUM) ∧
  (Js.toUpperCase planId ≠ "PREMIUM" → getPlan planId = FREE) ∧
  getPlan (Js.toUpperCase planId) = getPlan planId ∧
  getPlan (Js.toLowerCase planId) = getPlan planId.
Proof.
  unfold getPlan. rewrite toUpperCase_idem, toUpperCase_toLowerCase.
  repeat split.
  - intros ->. reflexivity.
  - intros Hne. destruct (plans !! Js.toUpperCase planId) as [p|] eqn:E; [|reflexivity].
    destruct (plans_lookup _ _ E) as [[_ ->]|[Hk _]]; [reflexivity|congruence].
Qed.

Lemma X1_getPlan_by_upper_cased_id_witness :
  getPlan "Premium" = PREMIUM ∧ getPlan "pro" = FREE.
Proof.
  split.
  - apply (proj1 (X1_getPlan_by_upper_cased_id "Premium")). reflexivity.
  - apply (proj1 (proj2 (X1_getPlan_by_upper_cased_id "pro"))). vm_compute. discriminate.
Defined.

(** ** The gates read, they never write *)

Global Instance sameDb_preorder : PreOrder sameDb.
Proof.
  split; [intros d; reflexivity|].
  intros d1 d2 d3 H12 H23. unfold sameDb in *. congruence.
Qed.

Lemma checkFeatureLimit_unchanged planId feature businessId :
  stable sameDb (checkFeatureLimit planId feature businessId).
Proof.
  unfold checkFeatureLimit. destruct (decide _) as [?|?]; [stable_step|].
  destruct (plan_features (getPlan planId) !! feature) as [[k|b]|];
    repeat stable_step;
    repeat (match goal with |- context [if ?c then _ else _] => destruct c end);
    repeat stable_step.
Qed.

Lemma checkUsageLimit_unchanged businessId feature :
  stable sameDb (checkUsageLimit businessId feature).
Proof.
  unfold checkUsageLimit. repeat stable_step.
  - destruct a as [[? [?|]]|]; stable_step.
  - destruct a as [planId|failed]; [apply checkFeatureLimit_unchanged|stable_step].
Qed.

Lemma promiseAll2_stable R `{!PreOrder R} {A B} (a : Io A) (b : Io B) :
  stable R a → stable R b → stable R (promiseAll2 a b).
Proof.
  intros Ha Hb w. unfold promiseAll2. specialize (Ha w).
  destruct (a w) as [ra w1]. specialize (Hb w1). destruct (b w1) as [rb w2].
  simpl in *. assert (R (db w) (db w2)) by (etransitivity; eassumption).
  destruct ra, rb; assumption.
Qed.

Lemma getSubscriptionAnalytics_unchanged businessId :
  stable sameDb (getSubscriptionAnalytics businessId).
Proof.
  unfold getSubscriptionAnalytics. repeat stable_step.
  destruct a as [[? sub]|]; repeat stable_step.
  apply promiseAll2_stable; [apply _|stable_step..].
Qed.

Lemma resolveBusinessId_unchanged req : stable sameDb (resolveBusinessId req).
Proof.
  unfold resolveBusinessId.
  destruct (firstTruthy _ _); [stable_step|].
  destruct (truthyField _); repeat stable_step.
Qed.

Lemma checkSubscriptionLimit_unchanged feature req :
  stable sameDb (checkSubscriptionLimit feature req).
Proof.
  unfold checkSubscriptionLimit. stable_step; [|stable_step].
  stable_step; [apply resolveBusinessId_unchanged|].
  destruct a as [b|]; [|stable_step].
  stable_step; [apply checkUsageLimit_unchanged|].
  destruct (negb _); [|stable_step].
  stable_step; [apply getSubscriptionAnalytics_unchanged|stable_step].
Qed.

Lemma requireFeature_unchanged feature req : stable sameDb (requireFeature feature req).
Proof.
  unfold requireFeature. stable_step; [|stable_step].
  stable_step; [apply resolveBusinessId_unchanged|].
  destruct a as [b|]; [|stable_step].
  stable_step; [stable_step|]. destruct (negb _); stable_step.
Qed.

(** X2. The entitlement check, the usage analytics and the two gates built
    on them only read: whatever their outcome, and whatever the datastore
    refuses, the datastore is the same after the call as before. *)
Theorem X2_entitlement_checks_are_read_only
    (feature businessId : string) (req : Request) (w : World) :
  db (after (checkUsageLimit businessId feature) w) = db w ∧
  db (after (getSubscriptionAnalytics businessId) w) = db w ∧
  db (after (checkSubscriptionLimit feature req) w) = db w ∧
  db (after (requireFeature feature req) w) = db w.
Proof.
  repeat split.
  - apply checkUsageLimit_unchanged.
  - apply getSubscriptionAnalytics_unchanged.
  - apply checkSubscriptionLimit_unchanged.
  - apply requireFeature_unchanged.
Qed.

(** ** What the usage gate lets through *)

Lemma resolveBusinessId_body req b w :
  truthyField (req_bodyBusinessId req) = Some b →
  resolveBusinessId req w = (Ok (Some b), w).
Proof.
  intros Hb. unfold resolveBusinessId, firstTruthy. rewrite Hb. reflexivity.
Qed.

Lemma checkSubscriptionLimit_answers feature req w :
  ∃ g, result (checkSubscriptionLimit feature req) w = Ok g.
Proof.
  unfold checkSubscriptionLimit, result, tryCatch.
  match goal with
  | |- context [match ?m w with _ => _ end] => destruct (m w) as [[g|e] w']
  end; simpl; eauto.
Qed.

Lemma checkSubscriptionLimit_pass feature req w b u :
  result (checkSubscriptionLimit feature req) w = Ok (GateNext b u) →
  allowed u = true ∧
  ∃ w1, resolveBusinessId req w = (Ok (Some b), w1) ∧
        result (checkUsageLimit b feature) w1 = Ok u.
Proof.
  unfold checkSubscriptionLimit, result, tryCatch, mbind, Io_bind.
  destruct (resolveBusinessId req w) as [[[b0|]|e] w1] eqn:Eres; simpl;
    try discriminate.
  destruct (checkUsageLimit b0 feature w1) as [[u0|e] w2] eqn:Echeck; simpl;
    [|discriminate].
  destruct (allowed u0) eqn:Eallowed; simpl.
  - intros [= <- <-]. split; [exact Eallowed|].
    exists w1. rewrite Echeck. split; reflexivity.
  - destruct (getSubscriptionAnalytics b0 w2) as [[a|e] w3]; simpl; discriminate.
Qed.

(** X3. The usage gate always answers, and it calls [next()] only for a
    business id it resolved from the request and only when the entitlement
    check for that business and feature returned [allowed = true]; the
    result of that check is what it stores on the request. *)
Theorem X3_usage_gate_passes_only_when_allowed
    (feature : string) (req : Request) (w : World) :
  (∃ g, result (checkSubscriptionLimit feature req) w = Ok g) ∧
  (∀ b u, result (checkSubscriptionLimit feature req) w = Ok (GateNext b u) →
     allowed u = true ∧
     ∃ w1, resolveBusinessId req w = (Ok (Some b), w1) ∧
           result (checkUsageLimit b feature) w1 = Ok u).
Proof.
  split.
  - apply checkSubscriptionLimit_answers.
  - intros b u Hpass. apply checkSubscriptionLimit_pass. exact Hpass.
Qed.

Lemma X3_usage_gate_passes_only_when_allowed_witness :
  allowed (cappedResult 5 0) = true ∧
  ∃ w1, resolveBusinessId (Scenario.requestFor "b1" "owner@cafe.example")
          (mkWorld Sample.freshDb [] [] Sample.today) = (Ok (Some "b1"), w1) ∧
        result (checkUsageLimit "b1" "aiEnhancementsPerMonth") w1
        = Ok (cappedResult 5 0).
Proof.
  apply (proj2 (X3_usage_gate_passes_only_when_allowed "aiEnhancementsPerMonth"
                  (Scenario.requestFor "b1" "owner@cafe.example")
                  (mkWorld Sample.freshDb [] [] Sample.today)) "b1" (cappedResult 5 0)).
  vm_compute. reflexivity.
Defined.

(** X4. The usage gate takes the business from [req.body.businessId] when
    there is one, without looking at the authenticated user: two requests
    that name the same business in the body get the same answer, and a
    request that passes carries that business id to the handler. *)
Theorem X4_usage_gate_trusts_the_business_of_the_body
    (feature : string) (req1 req2 : Request) (b : string) (w : World) :
  truthyField (req_bodyBusinessId req1) = Some b →
  truthyField (req_bodyBusinessId req2) = Some b →
  checkSubscriptionLimit feature req1 w = checkSubscriptionLimit feature req2 w ∧
  (∀ b' u, result (checkSubscriptionLimit feature req1) w = Ok (GateNext b' u) → b' = b).
Proof.
  intros H1 H2. split.
  - unfold checkSubscriptionLimit, tryCatch, mbind, Io_bind.
    rewrite (resolveBusinessId_body req1 b w H1), (resolveBusinessId_body req2 b w H2).
    reflexivity.
  - intros b' u Hpass.
    destruct (checkSubscriptionLimit_pass feature req1 w b' u Hpass)
      as (_ & w1 & Hres & _).
    rewrite (resolveBusinessId_body req1 b w H1) in Hres. congruence.
Qed.

Lemma X4_usage_gate_trusts_the_business_of_the_body_witness :
  checkSubscriptionLimit "aiEnhancementsPerMonth"
    (Scenario.requestFor "b1" "owner@cafe.example")
    (mkWorld Sample.busyDb [] [] Sample.today)
  = checkSubscriptionLimit "aiEnhancementsPerMonth"
      (Scenario.requestFor "b1" "someone@else.example")
      (mkWorld Sample.busyDb [] [] Sample.today).
Proof.
  apply (X4_usage_gate_trusts_the_business_of_the_body "aiEnhancementsPerMonth"
           (Scenario.requestFor "b1" "owner@cafe.example")
           (Scenario.requestFor "b1" "someone@else.example") "b1"
           (mkWorld Sample.busyDb [] [] Sample.today)); reflexivity.
Defined.

Lemma getSubscriptionAnalytics_unknown businessId w :
  businesses (db w) !! businessId = None →
  ∃ e w', getSubscriptionAnalytics businessId w = (Throw e, w').
Proof.
  intros Hnone. unfold getSubscriptionAnalytics. io_unfold.
  rewrite (findBusiness_unknown _ _ Hnone).
  destruct (faults w) as [|[] rest]; simpl; eauto.
Qed.

(** X5. For a business id that does not exist the usage gate checks the
    Free plan's limits: where they allow the feature the request passes, and
    where they refuse it the gate answers 500, not 403, because the usage
    analytics it needs for the refusal throws ['Business not found']. *)
Theorem X5_usage_gate_for_an_unknown_business
    (feature : string) (req : Request) (b : string) (w : World) (u : UsageCheck) :
  truthyField (req_bodyBusinessId req) = Some b →
  businesses (db w) !! b = None → faults w = [] →
  result (checkFeatureLimit "FREE" feature b) w = Ok u →
  result (checkSubscriptionLimit feature req) w
  = Ok (if allowed u then GateNext b u
        else GateRespond 500 "Failed to verify subscription limits" None).
Proof.
  intros Hb Hnone Hf Hu.
  unfold checkSubscriptionLimit, result, tryCatch, mbind, Io_bind.
  rewrite (resolveBusinessId_body req b w Hb).
  rewrite checkUsageLimit_lookup_ok by (rewrite Hf; discriminate).
  rewrite (findBusiness_unknown _ _ Hnone).
  assert (popFault w = w) as ->.
  { unfold popFault, mkWorld. rewrite Hf. destruct w; simpl in *; congruence. }
  unfold result in Hu.
  pose proof (checkFeatureLimit_unchanged "FREE" feature b w) as Hdb.
  destruct (checkFeatureLimit "FREE" feature b w) as [[u0|e] w1] eqn:E;
    simpl in Hu; [|discriminate].
  injection Hu as ->. simpl in Hdb. destruct (allowed u); simpl; [reflexivity|].
  destruct (getSubscriptionAnalytics_unknown b w1) as (e & w2 & ->).
  { unfold sameDb in Hdb. rewrite Hdb. exact Hnone. }
  reflexivity.
Qed.

Lemma X5_usage_gate_for_an_unknown_business_witness :
  result (checkSubscriptionLimit "emailSupport"
            (Scenario.requestFor "ghost" "owner@cafe.example"))
         (mkWorld Sample.freshDb [] [] Sample.today)
  = Ok (GateRespond 500 "Failed to verify subscription limits" None).
Proof.
  apply (X5_usage_gate_for_an_unknown_business "emailSupport"
           (Scenario.requestFor "ghost" "owner@cafe.example") "ghost"
           (mkWorld Sample.freshDb [] [] Sample.today) (flagResult false));
    reflexivity.
Defined.

(** ** The feature gate *)




(** ** The life cycle of a subscription *)

Global Instance differOnlyInSubscriptionState_preorder :
  PreOrder differOnlyInSubscriptionState.
Proof.
  split.
  - intros d. unfold differOnlyInSubscriptionState.
    repeat (split; [reflexivity|]). intros b.
    destruct (subscriptions d !! b); constructor. reflexivity.
  - intros d1 d2 d3 (?&?&?&?&?&?&?&?&?&?&Hs12) (?&?&?&?&?&?&?&?&?&?&Hs23).
    unfold differOnlyInSubscriptionState.
    repeat (split; [congruence|]). intros b.
    specialize (Hs12 b). specialize (Hs23 b).
    destruct Hs12; inversion Hs23; subst; constructor.
    unfold samePlan in *. congruence.
Qed.

Lemma checkUsageLimit_state_ext d1 d2 fs g t businessId feature :
  differOnlyInSubscriptionState d1 d2 →
  result (checkUsageLimit businessId feature) (mkWorld d1 fs g t) =
  result (checkUsageLimit businessId feature) (mkWorld d2 fs g t).
Proof.
  intros Hd. unfold result. destruct fs as [|[] rest].
  - rewrite !checkUsageLimit_lookup_ok by (simpl; discriminate).
    simpl. rewrite (findBusiness_plan_ext businessId d1 d2 Hd).
    apply checkFeatureLimit_result_ext; apply Hd.
  - rewrite !(checkUsageLimit_lookup_error _ _ _ rest) by reflexivity. reflexivity.
  - rewrite !checkUsageLimit_lookup_ok by (simpl; discriminate).
    simpl. rewrite (findBusiness_plan_ext businessId d1 d2 Hd).
    apply checkFeatureLimit_result_ext; apply Hd.
Qed.

Lemma updateSubscription_keeps_plan businessId f d :
  (∀ s, sub_planId (f s) = sub_planId s) →
  differOnlyInSubscriptionState d (updateSubscription businessId f d).2.
Proof.
  intros Hf. unfold updateSubscription.
  destruct (subscriptions d !! businessId) as [s|] eqn:E; simpl; [|reflexivity].
  unfold differOnlyInSubscriptionState. repeat (split; [reflexivity|]).
  intros b. simpl. destruct (decide (b = businessId)) as [->|Hne].
  - rewrite lookup_insert_eq, E. constructor. unfold samePlan. symmetry. apply Hf.
  - rewrite lookup_insert_ne by congruence.
    destruct (subscriptions d !! b); constructor. reflexivity.
Qed.

Lemma cancelSubscription_state businessId :
  stable differOnlyInSubscriptionState (cancelSubscription businessId).
Proof.
  unfold cancelSubscription. apply stable_bind; [apply _| |intros [[b [s|]]|]].
  - apply stable_prismaRead; apply _.
  - apply stable_bind; [apply _|apply stable_getNow; apply _|intros t].
    apply stable_prisma; [apply _|intros d].
    apply updateSubscription_keeps_plan. reflexivity.
  - apply stable_throw; apply _.
  - apply stable_throw; apply _.
Qed.

Lemma expireEach_state l : stable differOnlyInSubscriptionState (expireEach l).
Proof.
  induction l as [|kv rest IH]; simpl.
  - apply stable_ret; apply _.
  - apply stable_bind; [apply _| |intros _; exact IH].
    apply stable_prisma; [apply _|intros d].
    apply updateSubscription_keeps_plan. reflexivity.
Qed.

Lemma checkAndUpdateExpiredSubscriptions_state :
  stable differOnlyInSubscriptionState checkAndUpdateExpiredSubscriptions.
Proof.
  unfold checkAndUpdateExpiredSubscriptions.
  apply stable_tryCatch; [apply _| |intros e; apply stable_ret; apply _].
  apply stable_bind; [apply _|apply stable_getNow; apply _|intros t].
  apply stable_bind; [apply _|apply stable_prismaRead; apply _|intros l].
  apply stable_bind; [apply _|apply expireEach_state|intros _].
  apply stable_ret; apply _.
Qed.

Lemma cancelSubscription_run businessId b s w :
  businesses (db w) !! businessId = Some b →
  subscriptions (db w) !! businessId = Some s →
  faults w = [] →
  cancelSubscription businessId w =
    (Ok (withCancellation (now w) s),
     mkWorld (setSubscriptions
                (λ m, <[businessId := withCancellation (now w) s]> m) (db w))
             [] (gemini w) (now w)).
Proof.
  intros Hb Hs Hf. unfold cancelSubscription. io_unfold.
  rewrite Hf. simpl. unfold findBusiness. rewrite Hb. simpl. rewrite Hs. simpl.
  unfold updateSubscription. rewrite Hs. reflexivity.
Qed.

Lemma cancelSubscription_without_subscription businessId w :
  subscriptions (db w) !! businessId = None →
  faults w = [] →
  cancelSubscription businessId w =
    (Throw "No active subscription found", mkWorld (db w) [] (gemini w) (now w)).
Proof.
  intros Hs Hf. unfold cancelSubscription. io_unfold.
  rewrite Hf. simpl. unfold findBusiness. rewrite Hs.
  destruct (businesses (db w) !! businessId); reflexivity.
Qed.

(** X7. Cancelling marks the subscription CANCELLED at the current time and
    keeps its plan and its end date; without a subscription it throws
    ['No active subscription found'] and writes nothing. Whatever happens
    during the call, every entitlement check answers afterwards what it
    answered before: a cancelled plan keeps its limits. *)
Theorem X7_cancelSubscription_keeps_the_entitlement
    (businessId : string) (w : World) :
  (faults w = [] →
   (∀ b s, businesses (db w) !! businessId = Some b →
      subscriptions (db w) !! businessId = Some s →
      result (cancelSubscription businessId) w = Ok (withCancellation (now w) s) ∧
      subscriptions (db (after (cancelSubscription businessId) w)) !! businessId
        = Some (withCancellation (now w) s) ∧
      sub_planId (withCancellation (now w) s) = sub_planId s ∧
      sub_endDate (withCancellation (now w) s) = sub_endDate s) ∧
   (subscriptions (db w) !! businessId = None →
      result (cancelSubscription businessId) w = Throw "No active subscription found" ∧
      db (after (cancelSubscription businessId) w) = db w)) ∧
  (∀ other feature fs g t,
     result (checkUsageLimit other feature)
            (mkWorld (db (after (cancelSubscription businessId) w)) fs g t) =
     result (checkUsageLimit other feature) (mkWorld (db w) fs g t)).
Proof.
  split; [intros Hf; split; [intros b s Hb Hs; repeat split|intros Hs; split]|].
  - unfold result. rewrite (cancelSubscription_run _ b s) by assumption. reflexivity.
  - unfold after. rewrite (cancelSubscription_run _ b s) by assumption. simpl.
    apply lookup_insert_eq.
  - unfold result.
    rewrite cancelSubscription_without_subscription by assumption. reflexivity.
  - unfold after.
    rewrite cancelSubscription_without_subscription by assumption. reflexivity.
  - intros other feature fs g t. symmetry. apply checkUsageLimit_state_ext.
    apply cancelSubscription_state.
Qed.

Lemma X7_cancelSubscription_keeps_the_entitlement_witness :
  result (cancelSubscription "b1") (mkWorld Sample.enhancedDb [] [] Sample.today)
    = Ok (withCancellation Sample.today (Sample.subscription "PREMIUM" SUB_ACTIVE)) ∧
  result (cancelSubscription "b1") (mkWorld Sample.freshDb [] [] Sample.today)
    = Throw "No active subscription found".
Proof.
  split.
  - apply (proj1 (proj1 (X7_cancelSubscription_keeps_the_entitlement "b1"
                    (mkWorld Sample.enhancedDb [] [] Sample.today)) eq_refl)
                 Sample.cafe (Sample.subscription "PREMIUM" SUB_ACTIVE));
      reflexivity.
  - apply (proj2 (proj1 (X7_cancelSubscription_keeps_the_entitlement "b1"
                    (mkWorld Sample.freshDb [] [] Sample.today)) eq_refl)).
    reflexivity.
Defined.

(** *** The sweep over subscriptions that have run out *)

Lemma expireEach_calm l : ∀ w,
  faults w = [] →
  NoDup l.*1 →
  (∀ k s, (k, s) ∈ l → subscriptions (db w) !! k = Some s) →
  ∃ w', expireEach l w = (Ok (), w') ∧ faults w' = [] ∧ now w' = now w ∧
    ∀ k, subscriptions (db w') !! k =
         if decide (k ∈ l.*1)
         then withSubStatus SUB_EXPIRED <$> subscriptions (db w) !! k
         else subscriptions (db w) !! k.
Proof.
  induction l as [|[k0 s0] rest IH]; intros w Hf Hnd Hl.
  - exists w. simpl. repeat split; assumption.
  - simpl in Hnd. apply NoDup_cons in Hnd as [Hk0 Hnd].
    pose proof (Hl k0 s0 ltac:(left)) as Hs0.
    simpl. unfold mbind, Io_bind, prisma. rewrite Hf. unfold updateSubscription.
    simpl. rewrite Hs0. simpl.
    match goal with |- context [expireEach rest ?w1] => set (w1' := w1) end.
    destruct (IH w1' eq_refl Hnd) as (w' & Erun & Hf' & Hnow & Hsubs).
    { intros k s Hin. unfold w1'. simpl. rewrite lookup_insert_ne; [apply Hl; right; exact Hin|].
      intros <-. apply Hk0. apply list_elem_of_fmap. exists (k0, s). split; [reflexivity|exact Hin]. }
    exists w'. rewrite Erun. repeat split; try assumption.
    intros k. rewrite Hsubs. unfold w1'. simpl.
    destruct (decide (k = k0)) as [->|Hne].
    + rewrite decide_False by exact Hk0.
      rewrite decide_True by left. rewrite lookup_insert_eq, Hs0. reflexivity.
    + rewrite lookup_insert_ne by congruence.
      destruct (decide (k ∈ rest.*1)) as [Hin|Hnin].
      * rewrite decide_True by (right; exact Hin). reflexivity.
      * rewrite decide_False; [reflexivity|].
        intros Hin. apply elem_of_cons in Hin as [?|?]; contradiction.
Qed.

Lemma isOverdue_expire t s : isOverdue t (expire t s) = false.
Proof.
  unfold expire. destruct (isOverdue t s) eqn:E; [|exact E].
  unfold isOverdue. simpl. apply andb_false_r.
Qed.

Lemma findOverdue_spec t d k s :
  (k, s) ∈ findOverdue t d ↔ subscriptions d !! k = Some s ∧ isOverdue t s = true.
Proof.
  unfold findOverdue. rewrite list_elem_of_filter, elem_of_map_to_list. simpl.
  rewrite Is_true_true. tauto.
Qed.

Lemma checkAndUpdateExpiredSubscriptions_calm w :
  faults w = [] →
  ∃ w', checkAndUpdateExpiredSubscriptions w =
          (Ok (Z.of_nat (length (findOverdue (now w) (db w)))), w') ∧
        faults w' = [] ∧ now w' = now w ∧
        subscriptions (db w') = expire (now w) <$> subscriptions (db w).
Proof.
  intros Hf. unfold checkAndUpdateExpiredSubscriptions. io_unfold. rewrite Hf. simpl.
  match goal with |- context [expireEach ?l ?w1] => set (w1' := w1) end.
  destruct (expireEach_calm (findOverdue (now w) (db w)) w1' eq_refl)
    as (w' & Erun & Hf' & Hnow & Hsubs).
  { unfold findOverdue.
    apply (sublist_NoDup _ (map_to_list (subscriptions (db w))).*1);
      [apply NoDup_fst_map_to_list|apply fmap_sublist, sublist_filter]. }
  { intros k s Hin. apply findOverdue_spec in Hin. apply Hin. }
  rewrite Erun. exists w'. repeat split; try assumption.
  apply map_eq. intros k. rewrite Hsubs, lookup_fmap. unfold w1'. simpl.
  destruct (subscriptions (db w) !! k) as [s|] eqn:Es; simpl.
  - unfold expire. destruct (isOverdue (now w) s) eqn:Eo.
    + rewrite decide_True; [reflexivity|].
      apply list_elem_of_fmap. exists (k, s). split; [reflexivity|].
      apply findOverdue_spec. split; assumption.
    + rewrite decide_False; [reflexivity|].
      intros Hin. apply list_elem_of_fmap in Hin as ([k' s'] & -> & Hin).
      apply findOverdue_spec in Hin as [Hl Ho]. simpl in *. congruence.
  - destruct (decide _); reflexivity.
Qed.

Lemma findOverdue_after_expire t d d' :
  subscriptions d' = expire t <$> subscriptions d → findOverdue t d' = [].
Proof.
  intros Hs. apply elem_of_nil_inv. intros [k s] Hin.
  apply findOverdue_spec in Hin as [Hl Ho]. rewrite Hs, lookup_fmap in Hl.
  destruct (subscriptions d !! k) as [s0|]; simpl in Hl; [|discriminate].
  injection Hl as <-. rewrite isOverdue_expire in Ho. discriminate.
Qed.

(** X8. The sweep over run-out subscriptions counts the ACTIVE and CANCELLED
    subscriptions whose end date has passed, marks exactly those EXPIRED
    and leaves every other subscription as it is; a second sweep at the
    same time finds nothing. Whatever happens during the sweep, every
    entitlement check answers afterwards what it answered before: an
    expired plan keeps its limits. *)
Theorem X8_expired_subscriptions_keep_their_entitlement (w : World) :
  (faults w = [] →
   result checkAndUpdateExpiredSubscriptions w
     = Ok (Z.of_nat (length (findOverdue (now w) (db w)))) ∧
   subscriptions (db (after checkAndUpdateExpiredSubscriptions w))
     = expire (now w) <$> subscriptions (db w) ∧
   result checkAndUpdateExpiredSubscriptions
          (after checkAndUpdateExpiredSubscriptions w) = Ok 0) ∧
  (∀ businessId feature fs g t,
     result (checkUsageLimit businessId feature)
            (mkWorld (db (after checkAndUpdateExpiredSubscriptions w)) fs g t) =
     result (checkUsageLimit businessId feature) (mkWorld (db w) fs g t)).
Proof.
  split.
  - intros Hf.
    destruct (checkAndUpdateExpiredSubscriptions_calm w Hf)
      as (w' & Erun & Hf' & Hnow & Hsubs).
    unfold result, after. rewrite Erun. simpl. repeat split; [exact Hsubs|].
    destruct (checkAndUpdateExpiredSubscriptions_calm w' Hf') as (w2 & Erun2 & _).
    rewrite Erun2. simpl. rewrite Hnow.
    rewrite (findOverdue_after_expire (now w) (db w) (db w') Hsubs). reflexivity.
  - intros businessId feature fs g t. symmetry. apply checkUsageLimit_state_ext.
    apply checkAndUpdateExpiredSubscriptions_state.
Qed.

Lemma X8_expired_subscriptions_keep_their_entitlement_witness :
  result checkAndUpdateExpiredSubscriptions
         (mkWorld Sample.enhancedDb [] [] Scenario.later) = Ok 1 ∧
  result checkAndUpdateExpiredSubscriptions
         (after checkAndUpdateExpiredSubscriptions
                (mkWorld Sample.enhancedDb [] [] Scenario.later)) = Ok 0.
Proof.
  destruct (proj1 (X8_expired_subscriptions_keep_their_entitlement
                     (mkWorld Sample.enhancedDb [] [] Scenario.later)) eq_refl)
    as (Hcount & _ & Hagain).
  split; [exact Hcount|exact Hagain].
Defined.

(** ** Creating a subscription *)

Lemma getPlanPrice_cases planId :
  (getPlan planId = FREE ∧ getPlanPrice planId = FREE_price) ∨
  (getPlan planId = PREMIUM ∧ getPlanPrice planId = PREMIUM_price).
Proof.
  unfold getPlan, getPlanPrice.
  destruct (decide (Js.toUpperCase planId = "FREE")) as [->|Hfree]; [left; split; reflexivity|].
  destruct (decide (Js.toUpperCase planId = "PREMIUM")) as [->|Hpremium];
    [right; split; reflexivity|].
  left. unfold plans, planPrices. simpl.
  rewrite !lookup_insert_ne, !lookup_empty by congruence. split; reflexivity.
Qed.

(** *** Inversion of successful runs *)

Lemma bind_ok {A B} (m : Io A) (f : A → Io B) w b w' :
  (m ≫= f) w = (Ok b, w') → ∃ a w1, m w = (Ok a, w1) ∧ f a w1 = (Ok b, w').
Proof.
  unfold mbind, Io_bind. destruct (m w) as [[a|e] w1]; [eauto|discriminate].
Qed.

Lemma prisma_ok {A} (op : Db → Outcome A * Db) w a w' :
  prisma op w = (Ok a, w') →
  op (db w) = (Ok a, db w') ∧ now w' = now w ∧ gemini w' = gemini w.
Proof.
  unfold prisma. destruct (faults w) as [|[] rest]; try discriminate;
    destruct (op (db w)) as [r d]; intros [= -> <-]; auto.
Qed.

Lemma prismaRead_ok {A} (q : Db → A) w a w' :
  prismaRead q w = (Ok a, w') → a = q (db w) ∧ db w' = db w ∧ now w' = now w.
Proof.
  intros E. apply prisma_ok in E as ([= <- <-] & Hnow & _). auto.
Qed.

(** The row [createSubscription] writes. *)
Lemma createSubscription_ok businessId planId w s w' :
  createSubscription businessId planId w = (Ok s, w') →
  sub_planId s = Js.toUpperCase (plan_id (getPlan planId)) ∧
  sub_status s = (if PrimFloat.eqb (pp_price (getPlanPrice planId)) 0%float
                  then SUB_ACTIVE else SUB_PENDING) ∧
  sub_startDate s = now w ∧
  subscriptions (db w') !! businessId = Some s ∧
  businesses (db w') = businesses (db w) ∧
  reviews (db w') = reviews (db w) ∧ aiGenerations (db w') = aiGenerations (db w).
Proof.
  unfold createSubscription. intros E.
  apply bind_ok in E as (business & w1 & Efind & E).
  apply prismaRead_ok in Efind as (-> & Hdb1 & Hnow1).
  destruct (findBusiness businessId (db w)) as [[b existing]|]; [|discriminate].
  apply bind_ok in E as (startDate & w2 & [= <- <-] & E).
  destruct existing as [s0|]; apply prisma_ok in E as (E & _ & _).
  - unfold updateSubscription in E.
    destruct (subscriptions (db w1) !! businessId); [|discriminate].
    injection E as <- <-. simpl. rewrite lookup_insert_eq, Hdb1, Hnow1. repeat split.
  - injection E as <- <-. simpl. rewrite lookup_insert_eq, Hdb1, Hnow1. repeat split.
Qed.

Lemma createSubscription_calm businessId planId b w :
  faults w = [] → businesses (db w) !! businessId = Some b →
  ∃ s w', createSubscription businessId planId w = (Ok s, w').
Proof.
  intros Hf Hb. unfold createSubscription. io_unfold. rewrite Hf. simpl.
  unfold findBusiness. rewrite Hb. simpl.
  destruct (subscriptions (db w) !! businessId) as [s0|] eqn:Es; simpl.
  - unfold updateSubscription. rewrite Es. eauto.
  - eauto.
Qed.

Lemma createSubscription_unknown businessId planId w :
  faults w = [] → businesses (db w) !! businessId = None →
  createSubscription businessId planId w =
    (Throw "Business not found", mkWorld (db w) [] (gemini w) (now w)).
Proof.
  intros Hf Hb. unfold createSubscription. io_unfold. rewrite Hf. simpl.
  unfold findBusiness. rewrite Hb. reflexivity.
Qed.

Lemma checkFeatureLimit_by_plan planId1 planId2 feature businessId :
  getPlan planId1 = getPlan planId2 →
  checkFeatureLimit planId1 feature businessId =
  checkFeatureLimit planId2 feature businessId.
Proof. intros E. unfold checkFeatureLimit. rewrite E. reflexivity. Qed.

(** X9. For a known business and with the datastore up, [createSubscription]
    stores and returns a subscription whose plan id is the canonical
    ['FREE'] or ['PREMIUM'], resolving to the plan that was asked for; it is
    ACTIVE for the Free plan and PENDING for the Premium plan. Even while
    PENDING, the next entitlement check answers by the limits of the plan
    asked for. For an unknown business it throws ['Business not found'] and
    writes nothing. *)
Theorem X9_createSubscription_stores_the_canonical_plan
    (businessId planId : string) (w : World) :
  faults w = [] →
  (∀ b, businesses (db w) !! businessId = Some b →
     ∃ s, result (createSubscription businessId planId) w = Ok s ∧
       subscriptions (db (after (createSubscription businessId planId) w)) !! businessId
         = Some s ∧
       (sub_planId s = "FREE" ∨ sub_planId s = "PREMIUM") ∧
       getPlan (sub_planId s) = getPlan planId ∧
       (getPlan planId = FREE → sub_status s = SUB_ACTIVE) ∧
       (getPlan planId = PREMIUM → sub_status s = SUB_PENDING) ∧
       ∀ feature g t,
         result (checkUsageLimit businessId feature)
                (mkWorld (db (after (createSubscription businessId planId) w)) [] g t) =
         result (checkFeatureLimit planId feature businessId) (mkWorld (db w) [] g t)) ∧
  (businesses (db w) !! businessId = None →
     result (createSubscription businessId planId) w = Throw "Business not found" ∧
     db (after (createSubscription businessId planId) w) = db w).
Proof.
  intros Hf. split.
  - intros b Hb.
    destruct (createSubscription_calm businessId planId b w Hf Hb) as (s & w' & Erun).
    destruct (createSubscription_ok _ _ _ _ _ Erun) as (Hid & Hst & _ & Hstored & Hbiz & Hr & Hg).
    unfold result, after. rewrite Erun. simpl. exists s.
    assert (Hplan : getPlan (sub_planId s) = getPlan planId).
    { rewrite Hid. destruct (getPlan_cases planId) as [E|E]; rewrite E; reflexivity. }
    repeat split; try assumption.
    + rewrite Hid. destruct (getPlan_cases planId) as [E|E]; rewrite E; auto.
    + intros E. rewrite Hst.
      destruct (getPlanPrice_cases planId) as [[_ Ep]|[E' _]];
        [rewrite Ep; reflexivity|rewrite E in E'; discriminate].
    + intros E. rewrite Hst.
      destruct (getPlanPrice_cases planId) as [[E' _]|[_ Ep]];
        [rewrite E in E'; discriminate|rewrite Ep; reflexivity].
    + intros feature g t.
      rewrite checkUsageLimit_lookup_ok by (simpl; discriminate). simpl.
      unfold findBusiness. rewrite Hbiz, Hb. simpl. rewrite Hstored.
      rewrite (checkFeatureLimit_by_plan _ planId) by exact Hplan.
      apply (checkFeatureLimit_result_ext planId feature businessId (db w') (db w) [] g t);
        assumption.
  - intros Hb. unfold result, after.
    rewrite createSubscription_unknown by assumption. split; reflexivity.
Qed.

Lemma X9_createSubscription_stores_the_canonical_plan_witness :
  ∃ s, result (createSubscription "b1" "premium")
              (mkWorld Sample.busyDb [] [] Sample.today) = Ok s ∧
       sub_status s = SUB_PENDING ∧
       result (checkUsageLimit "b1" "aiEnhancementsPerMonth")
              (mkWorld (db (after (createSubscription "b1" "premium")
                                  (mkWorld Sample.busyDb [] [] Sample.today)))
                       [] [] Sample.today) = Ok unlimitedResult.
Proof.
  destruct (proj1 (X9_createSubscription_stores_the_canonical_plan "b1" "premium"
                     (mkWorld Sample.busyDb [] [] Sample.today) eq_refl)
                  Sample.cafe eq_refl)
    as (s & Hrun & _ & _ & _ & _ & Hpending & Hcheck).
  exists s. split; [exact Hrun|]. split; [apply Hpending; reflexivity|].
  rewrite Hcheck. reflexivity.
Defined.

(** *** POST /subscription/upgrade *)

Lemma upgradablePlans_are_free planId :
  planId ∈ upgradablePlans →
  getPlan planId = FREE ∧ getPlanPrice planId = FREE_price.
Proof.
  unfold upgradablePlans. intros Hin.
  repeat (apply elem_of_cons in Hin as [->|Hin]; [split; reflexivity|]).
  inversion Hin.
Qed.

(** X10. The upgrade route always answers, and whenever it answers 200 the
    subscription it has stored is on the Free plan and ACTIVE: of the ids
    its validation lets through, none resolves to the Premium plan, and
    ['PREMIUM'] itself is refused with 400. *)
Theorem X10_upgrade_route_only_stores_the_free_plan (req : UpgradeRequest) (w : World) :
  (∃ resp, result (upgradeHandler req) w = Ok resp ∧
     (res_status resp = 200 →
        ∃ b s, res_data resp = Some s ∧ sub_planId s = "FREE" ∧
          sub_status s = SUB_ACTIVE ∧
          subscriptions (db (after (upgradeHandler req) w)) !! b = Some s)) ∧
  (up_planId req = Some "PREMIUM" →
     result (upgradeHandler req) w = Ok (respond 400 "Validation failed" None)).
Proof.
  split; [|intros E; unfold upgradeHandler, result, tryCatch; rewrite E; reflexivity].
  unfold result, after. destruct (upgradeHandler req w) as [o wf] eqn:Erun. simpl.
  revert Erun. unfold upgradeHandler, tryCatch.
  destruct (truthyField (up_planId req)) as [planId|]; simpl;
    [|intros [= <- <-]; eexists; split; [reflexivity|discriminate]].
  destruct (bool_decide (planId ∈ upgradablePlans)) eqn:Ein; simpl;
    [|intros [= <- <-]; eexists; split; [reflexivity|discriminate]].
  apply bool_decide_eq_true in Ein.
  destruct (upgradablePlans_are_free planId Ein) as [Eplan Eprice].
  unfold mbind, Io_bind, prismaRead, prisma.
  destruct (faults w) as [|[] rest]; simpl;
    try (intros [= <- <-]; eexists; split; [reflexivity|discriminate]);
    (destruct (findBusinessByEmail (up_userEmail req) (db w)) as [[b biz]|]; simpl;
     [|intros [= <- <-]; eexists; split; [reflexivity|discriminate]];
     match goal with
     | |- context [createSubscription b planId ?w1] =>
         destruct (createSubscription b planId w1) as [[s|e] w'] eqn:Erun
     end; simpl;
     [|intros [= <- <-]; eexists; split; [reflexivity|discriminate]];
     destruct (createSubscription_ok _ _ _ _ _ Erun) as (Hid & Hst & _ & Hstored & _);
     intros [= <- <-]; eexists; split; [reflexivity|]; intros _; exists b, s;
     rewrite Hid, Hst, Eplan, Eprice; repeat split; exact Hstored).
Qed.

Lemma X10_upgrade_route_only_stores_the_free_plan_witness :
  (∃ resp s, result (upgradeHandler (Scenario.upgradeTo "PRO"))
                    (mkWorld Sample.freshDb [] [] Sample.today) = Ok resp ∧
     res_message resp = "Successfully upgraded to PRO plan" ∧
     res_data resp = Some s ∧ sub_planId s = "FREE") ∧
  result (upgradeHandler (Scenario.upgradeTo "PREMIUM"))
         (mkWorld Sample.freshDb [] [] Sample.today)
    = Ok (respond 400 "Validation failed" None).
Proof.
  split.
  - destruct (proj1 (X10_upgrade_route_only_stores_the_free_plan
                       (Scenario.upgradeTo "PRO")
                       (mkWorld Sample.freshDb [] [] Sample.today)))
      as (resp & Hrun & H200).
    exists resp. pose proof Hrun as Hresp. vm_compute in Hresp.
    injection Hresp as <-.
    destruct (H200 eq_refl) as (b & s & Hdata & Hplan & _).
    exists s. split; [exact Hrun|]. split; [reflexivity|].
    split; [exact Hdata|exact Hplan].
  - apply (proj2 (X10_upgrade_route_only_stores_the_free_plan
                    (Scenario.upgradeTo "PREMIUM")
                    (mkWorld Sample.freshDb [] [] Sample.today))).
    reflexivity.
Defined.

(** ** The AI service *)

Lemma analyzeReview_run `{Externals} text w :
  ∃ w', analyzeReview text w =
          (Ok match nextAiOutcome w with
              | AiText t => default neutralAnalysis (parseAnalysis t)
              | _ => neutralAnalysis
              end, w') ∧ db w' = db w ∧ faults w' = faults w ∧
        gemini w' = tail (gemini w) ∧ now w' = now w.
Proof.
  unfold analyzeReview, tryCatch, mbind, Io_bind, generateContent, nextAiOutcome.
  destruct (gemini w) as [|o rest] eqn:Eg; simpl.
  - eexists. rewrite Eg. repeat split; reflexivity.
  - destruct o as [msg| |t]; simpl; try (eexists; repeat split; reflexivity).
    destruct (parseAnalysis t); simpl; eexists; repeat split; reflexivity.
Qed.

(** X11. The analysis of a review never throws and never writes: it answers
    the analysis parsed from the model's text, and the neutral analysis (no
    keywords, no improvements) whenever the model fails or its answer cannot
    be parsed. It makes one call of the model. *)
Theorem X11_analyzeReview_falls_back_to_neutral `{Externals} (text : string) (w : World) :
  (∃ a, result (analyzeReview text) w = Ok a) ∧
  db (after (analyzeReview text) w) = db w ∧
  gemini (after (analyzeReview text) w) = tail (gemini w) ∧
  (∀ t a, nextAiOutcome w = AiText t → parseAnalysis t = Some a →
     result (analyzeReview text) w = Ok a) ∧
  ((∀ t, nextAiOutcome w = AiText t → parseAnalysis t = None) →
     result (analyzeReview text) w = Ok neutralAnalysis).
Proof.
  destruct (analyzeReview_run text w) as (w' & Erun & Hdb & _ & Hg & _).
  unfold result, after. rewrite Erun. simpl. repeat split; try assumption.
  - eauto.
  - intros t a -> ->. reflexivity.
  - intros Hnone. destruct (nextAiOutcome w) as [msg| |t]; try reflexivity.
    rewrite (Hnone t eq_refl). reflexivity.
Qed.

Lemma X11_analyzeReview_falls_back_to_neutral_witness :
  result (@analyzeReview Sample.externals "Great food.")
         (mkWorld Sample.freshDb [] [AiText "{}"] Sample.today) = Ok neutralAnalysis.
Proof.
  apply (proj2 (proj2 (proj2 (proj2
           (@X11_analyzeReview_falls_back_to_neutral Sample.externals "Great food."
              (mkWorld Sample.freshDb [] [AiText "{}"] Sample.today)))))).
  intros t _. reflexivity.
Defined.

(** *** Prompt templates *)

Lemma find_some_holds {A} (p : A → bool) (l : list A) x :
  List.find p l = Some x → p x = true ∧ x ∈ l.
Proof.
  induction l as [|y l IH]; simpl; [discriminate|].
  destruct (p y) eqn:E.
  - intros [= ->]. split; [exact E|left].
  - intros Hf. destruct (IH Hf). split; [assumption|right; assumption].
Qed.

Lemma default_template_found category l t :
  List.find (λ t, bool_decide (tpl_businessId t = None) &&
                  String.eqb (tpl_category t) category &&
                  tpl_isDefault t && tpl_isActive t) l = Some t →
  t ∈ l ∧ tpl_isActive t = true ∧ tpl_category t = category ∧
  tpl_businessId t = None ∧ tpl_isDefault t = true.
Proof.
  intros Ef. apply find_some_holds in Ef as [Hp Hin].
  apply andb_prop in Hp as [Hp Hact]. apply andb_prop in Hp as [Hp Hdef].
  apply andb_prop in Hp as [Hb Hc].
  apply bool_decide_eq_true in Hb. apply String.eqb_eq in Hc. auto.
Qed.

Lemma business_template_found category b l t :
  List.find (λ t, bool_decide (tpl_businessId t = Some b) &&
                  String.eqb (tpl_category t) category && tpl_isActive t) l = Some t →
  t ∈ l ∧ tpl_isActive t = true ∧ tpl_category t = category ∧
  tpl_businessId t = Some b.
Proof.
  intros Ef. apply find_some_holds in Ef as [Hp Hin].
  apply andb_prop in Hp as [Hp Hact]. apply andb_prop in Hp as [Hb Hc].
  apply bool_decide_eq_true in Hb. apply String.eqb_eq in Hc. auto.
Qed.

(** X12. The lookup of a prompt template never throws and never writes.
    What it returns is an active template of the category asked for, owned
    by the business asked for or else a default template of no business;
    when the business has an active template of the category and the
    datastore is up, its own template is preferred to the default. *)
Theorem X12_getPromptTemplate_returns_an_active_template
    (category : string) (businessId : option string) (w : World) :
  (∃ t, result (getPromptTemplate category businessId) w = Ok t) ∧
  db (after (getPromptTemplate category businessId) w) = db w ∧
  (∀ t, result (getPromptTemplate category businessId) w = Ok (Some t) →
     t ∈ aiPromptTemplates (db w) ∧ tpl_isActive t = true ∧
     tpl_category t = category ∧
     ((∃ b, truthyField businessId = Some b ∧ tpl_businessId t = Some b) ∨
      (tpl_businessId t = None ∧ tpl_isDefault t = true))) ∧
  (∀ b own, faults w = [] → truthyField businessId = Some b →
     own ∈ aiPromptTemplates (db w) → tpl_businessId own = Some b →
     tpl_category own = category → tpl_isActive own = true →
     ∃ t, result (getPromptTemplate category businessId) w = Ok (Some t) ∧
          tpl_businessId t = Some b).
Proof.
  split; [|split; [|split]].
  - destruct (getPromptTemplate_run category businessId w) as (t & w' & E & _).
    unfold result. rewrite E. eauto.
  - destruct (getPromptTemplate_run category businessId w) as (t & w' & E & _ & Hdb).
    unfold after. rewrite E. exact Hdb.
  - intros t. unfold getPromptTemplate, findTemplate. io_unfold.
    assert (Hdefault : ∀ P : Prop,
      Ok (List.find (λ t, bool_decide (tpl_businessId t = None) &&
                          String.eqb (tpl_category t) category &&
                          tpl_isDefault t && tpl_isActive t)
                    (aiPromptTemplates (db w))) = Ok (Some t) →
      t ∈ aiPromptTemplates (db w) ∧ tpl_isActive t = true ∧
      tpl_category t = category ∧ (P ∨ tpl_businessId t = None ∧ tpl_isDefault t = true)).
    { intros P [= E]. apply default_template_found in E. intuition. }
    destruct (truthyField businessId) as [b|]; simpl.
    + destruct (faults w) as [|[] rest]; simpl; try discriminate;
        (destruct (List.find _ (aiPromptTemplates (db w))) as [t0|] eqn:Ef in |- *; simpl;
         [intros [= ->]; apply business_template_found in Ef; intuition eauto|]).
      * apply Hdefault.
      * destruct rest as [|[] rest']; simpl; try discriminate; apply Hdefault.
    + destruct (faults w) as [|[] rest]; simpl; try discriminate; apply Hdefault.
  - intros b own Hf Hb Hin Hown Hcat Hact.
    unfold getPromptTemplate, findTemplate. io_unfold. rewrite Hb, Hf. simpl.
    destruct (List.find _ (aiPromptTemplates (db w))) as [t0|] eqn:Ef; simpl.
    + exists t0. split; [reflexivity|].
      apply find_some_holds in Ef as [Hp _].
      apply andb_prop in Hp as [Hp _]. apply andb_prop in Hp as [Hp _].
      apply bool_decide_eq_true in Hp. exact Hp.
    + exfalso. apply list_elem_of_In in Hin.
      apply (find_none _ _ Ef) in Hin. simpl in Hin.
      rewrite Hown, Hcat, Hact, String.eqb_refl in Hin.
      rewrite bool_decide_eq_true_2 in Hin by reflexivity. discriminate.
Qed.

Lemma X12_getPromptTemplate_returns_an_active_template_witness :
  ∃ t, result (getPromptTemplate "REVIEW_ENHANCEMENT" (Some "b1"))
              (mkWorld Scenario.templatesDb [] [] Sample.today) = Ok (Some t) ∧
       tpl_businessId t = Some "b1".
Proof.
  apply (proj2 (proj2 (proj2 (X12_getPromptTemplate_returns_an_active_template
           "REVIEW_ENHANCEMENT" (Some "b1")
           (mkWorld Scenario.templatesDb [] [] Sample.today))))
         "b1" Scenario.cafeTemplate); try reflexivity.
  right. left.
Defined.

(** *** Enhancing a review *)

(** X13. A review text that fails validation is refused before anything
    else happens: the service throws the validation errors behind
    ['Failed to enhance review: Invalid review content: '], makes no call of
    the model and touches neither reviews nor generations; with the
    datastore up, it records one failed operation in the AI usage
    analytics. *)
Theorem X13_enhanceReview_refuses_invalid_text `{Externals}
    (reviewId originalText : string) (ctx : BusinessContext) (w : World) :
  isValid (validateReviewText originalText) = false →
  result (enhanceReview reviewId originalText ctx) w
    = Throw ("Failed to enhance review: Invalid review content: " +:+
             Js.join ", " (errors (validateReviewText originalText))) ∧
  gemini (after (enhanceReview reviewId originalText ctx) w) = gemini w ∧
  reviews (db (after (enhanceReview reviewId originalText ctx) w)) = reviews (db w) ∧
  aiGenerations (db (after (enhanceReview reviewId originalText ctx) w))
    = aiGenerations (db w) ∧
  (faults w = [] →
   aiUsageAnalytics (db (after (enhanceReview reviewId originalText ctx) w))
     = (aiUsageAnalytics (db w) ++
        [{| aua_businessId := ctx_businessId ctx;
            aua_operation := "REVIEW_ENHANCEMENT"; aua_success := false;
            aua_errorMessage :=
              Some ("Invalid review content: " +:+
                    Js.join ", " (errors (validateReviewText originalText))) |}])%list).
Proof.
  intros Hvalid. unfold enhanceReview, aiRecordUsage. io_unfold. rewrite Hvalid. simpl.
  destruct (faults w) as [|[] rest]; simpl; repeat split; try reflexivity;
    discriminate.
Qed.

Lemma X13_enhanceReview_refuses_invalid_text_witness :
  result (@enhanceReview Sample.externals "review-0" "good" Scenario.cafeContext)
         (mkWorld Sample.freshDb [] [AiText "Good."] Sample.today)
    = Throw "Failed to enhance review: Invalid review content: Review is too short".
Proof.
  apply (@X13_enhanceReview_refuses_invalid_text Sample.externals "review-0" "good"
           Scenario.cafeContext (mkWorld Sample.freshDb [] [AiText "Good."] Sample.today)).
  reflexivity.
Defined.

(** *** A successful enhancement *)

Lemma getPromptTemplate_calm category businessId w :
  faults w = [] →
  ∃ t, getPromptTemplate category businessId w =
         (Ok t, mkWorld (db w) [] (gemini w) (now w)).
Proof.
  intros Hf. unfold getPromptTemplate. io_unfold.
  destruct (truthyField businessId) as [b|]; simpl; rewrite Hf; simpl; [|eauto].
  destruct (findTemplate _ (db w)); simpl; eauto.
Qed.






(** *** Regenerating a review *)

(** X15. The regenerate-review route stands behind the same gate as the
    enhance-review route, which asks the entitlement check about
    ['ai_enhancement'], a key of no plan: every request is refused with
    400, 403 or 500 and the datastore is left as it was. *)
Theorem X15_regenerate_route_is_always_refused `{Externals} (req : Request) (w : World) :
  (∃ status msg details,
     result (regenerateReviewRoute req) w = Ok (Refused status msg details) ∧
     (status = 400 ∨ status = 403 ∨ status = 500)) ∧
  db (after (regenerateReviewRoute req) w) = db w.
Proof.
  destruct (checkSubscriptionLimit_ai_enhancement_never_passes req w)
    as (status & msg & details & Hg & Hstatus).
  pose proof (checkSubscriptionLimit_unchanged "ai_enhancement" req w) as Hdb.
  unfold regenerateReviewRoute, result, after, mbind, Io_bind in *.
  destruct (checkSubscriptionLimit "ai_enhancement" req w) as [[gate|e] w1];
    simpl in Hg, Hdb; [|discriminate].
  injection Hg as ->. simpl. split; [eauto 6|exact Hdb].
Qed.

Lemma enhanceReview_model_failure `{Externals} reviewId originalText ctx w msg :
  faults w = [] →
  isValid (validateReviewText originalText) = true →
  nextAiOutcome w = AiThrows msg →
  ∃ w', enhanceReview reviewId originalText ctx w
          = (Throw ("Failed to enhance review: " +:+ msg), w') ∧
        reviews (db w') = reviews (db w) ∧
        aiGenerations (db w') = aiGenerations (db w).
Proof.
  intros Hf Hvalid Hnext.
  unfold enhanceReview, tryCatch. rewrite Hvalid. simpl. unfold mbind, Io_bind.
  destruct (getPromptTemplate_calm "REVIEW_ENHANCEMENT" (ctx_businessId ctx) w Hf)
    as (tpl & ->).
  unfold generateContent, nextAiOutcome in *. simpl.
  destruct (gemini w) as [|o rest]; [injection Hnext as <-|subst o]; simpl;
    unfold aiRecordUsage, tryCatch, prisma; simpl; eauto.
Qed.

Lemma regenerateReview_model_failure `{Externals} reviewId w r b g msg :
  faults w = [] →
  reviewOf (db w) reviewId = Some r →
  businesses (db w) !! rev_businessId r = Some b →
  generationOf (db w) reviewId = Some g →
  isValid (validateReviewText (rev_feedback r)) = true →
  nextAiOutcome w = AiThrows msg →
  ∃ w', regenerateReview reviewId w = (Throw "Failed to regenerate review", w') ∧
    generationOf (db w') reviewId = Some (withGenStatus GEN_REGENERATED g) ∧
    length (aiGenerations (db w')) = length (aiGenerations (db w)) ∧
    reviews (db w') = reviews (db w).
Proof.
  intros Hf Hr Hb Hg Hvalid Hnext.
  unfold regenerateReview, findReviewWithRelations, tryCatch.
  unfold mbind at 1. unfold Io_bind at 1. unfold prismaRead, prisma. rewrite Hf.
  simpl. rewrite Hr. simpl. rewrite Hb, Hg.
  unfold mbind, Io_bind, prisma. simpl. unfold updateGeneration.
  unfold generationOf in Hg.
  destruct (updateFirst_find _ (withGenStatus GEN_REGENERATED) _ _ Hg (λ y, eq_refl))
    as (gs & Hup & Hgs).
  pose proof (updateFirst_fmap (λ g, String.eqb (gen_reviewId g) reviewId)
                (withGenStatus GEN_REGENERATED) (λ _, ()) (aiGenerations (db w))
                (λ x, eq_refl)) as Hlen.
  rewrite Hup in Hlen. apply (f_equal length) in Hlen. rewrite !length_fmap in Hlen.
  simpl. rewrite Hup. simpl.
  match goal with
  | |- context [enhanceReview reviewId ?text ?ctx ?w1] =>
      destruct (enhanceReview_model_failure reviewId text ctx w1 msg eq_refl Hvalid Hnext)
        as (w' & Erun & Hrevs & Hgens)
  end.
  rewrite Erun. simpl. simpl in Hrevs, Hgens. unfold generationOf.
  exists w'. rewrite Hgens, Hrevs. auto.
Qed.

(** X16. Regeneration marks the previous generation REGENERATED before it
    asks for a new one and does not take the mark back: when the model then
    fails, the service throws ['Failed to regenerate review'], the old
    generation stays REGENERATED, no new generation exists and the review is
    as it was. Every failure is reported under that one message, and an
    unknown review is refused without any write. *)
Theorem X16_failed_regeneration_keeps_the_mark `{Externals}
    (reviewId : string) (w : World) :
  (∀ e, result (regenerateReview reviewId) w = Throw e →
        e = "Failed to regenerate review") ∧
  (reviewOf (db w) reviewId = None →
     result (regenerateReview reviewId) w = Throw "Failed to regenerate review" ∧
     db (after (regenerateReview reviewId) w) = db w) ∧
  (∀ r b g msg,
     faults w = [] →
     reviewOf (db w) reviewId = Some r →
     businesses (db w) !! rev_businessId r = Some b →
     generationOf (db w) reviewId = Some g →
     isValid (validateReviewText (rev_feedback r)) = true →
     nextAiOutcome w = AiThrows msg →
     result (regenerateReview reviewId) w = Throw "Failed to regenerate review" ∧
     generationOf (db (after (regenerateReview reviewId) w)) reviewId
       = Some (withGenStatus GEN_REGENERATED g) ∧
     length (aiGenerations (db (after (regenerateReview reviewId) w)))
       = length (aiGenerations (db w)) ∧
     reviews (db (after (regenerateReview reviewId) w)) = reviews (db w)).
Proof.
  split; [|split].
  - intros e. unfold regenerateReview, result, tryCatch, throw.
    match goal with
    | |- context [match ?m w with _ => _ end] => destruct (m w) as [[a|e0] w']
    end; simpl; [discriminate|]. intros [= <-]. reflexivity.
  - intros Hr. unfold regenerateReview, findReviewWithRelations. io_unfold.
    rewrite Hr. simpl. destruct (faults w) as [|[] rest]; simpl; split; reflexivity.
  - intros r b g msg Hf Hr Hb Hg Hvalid Hnext.
    destruct (regenerateReview_model_failure reviewId w r b g msg Hf Hr Hb Hg Hvalid Hnext)
      as (w' & Erun & Hmark & Hlen & Hrevs).
    unfold result, after. rewrite Erun. simpl. auto.
Qed.

Lemma X16_failed_regeneration_keeps_the_mark_witness :
  result (@regenerateReview Sample.externals "review-0")
         (mkWorld Sample.enhancedDb [] [AiThrows "quota exceeded"] Sample.today)
    = Throw "Failed to regenerate review" ∧
  generationOf
    (db (after (@regenerateReview Sample.externals "review-0")
               (mkWorld Sample.enhancedDb [] [AiThrows "quota exceeded"] Sample.today)))
    "review-0"
    = Some (withGenStatus GEN_REGENERATED (Sample.generation 0 GEN_PENDING)).
Proof.
  destruct (proj2 (proj2 (@X16_failed_regeneration_keeps_the_mark Sample.externals
                            "review-0"
                            (mkWorld Sample.enhancedDb [] [AiThrows "quota exceeded"]
                                     Sample.today)))
                  (Sample.review 0 AI_GENERATED) Sample.cafe
                  (Sample.generation 0 GEN_PENDING) "quota exceeded")
    as (Hrun & Hmark & _); try (vm_compute; reflexivity).
  split; [exact Hrun|exact Hmark].
Defined.

(** ** The public text enhancement *)

(** X17. The public enhance-text route is not metered: it never reads or
    writes the datastore, whatever it answers. It calls the model at most
    once, and not at all when no API key is configured or when it refuses
    the request with 400. *)
Theorem X17_enhance_text_never_uses_the_datastore `{Externals}
    (env : Env) (req : EnhanceTextRequest) (w : World) :
  db (after (enhanceTextHandler env req) w) = db w ∧
  faults (after (enhanceTextHandler env req) w) = faults w ∧
  (gemini (after (enhanceTextHandler env req) w) = gemini w ∨
   gemini (after (enhanceTextHandler env req) w) = tail (gemini w)) ∧
  (env_geminiApiKey env = false →
   gemini (after (enhanceTextHandler env req) w) = gemini w) ∧
  (∀ resp, result (enhanceTextHandler env req) w = Ok resp → res_status resp = 400 →
   gemini (after (enhanceTextHandler env req) w) = gemini w).
Proof.
  unfold enhanceTextHandler. io_unfold. unfold generateContent.
  destruct (et_originalText req) as [text|]; simpl; [|intuition].
  destruct (negb _ || _ || _); simpl; [intuition|].
  destruct (_ && _); simpl; [intuition|].
  destruct (env_geminiApiKey env); simpl;
    [|repeat split; auto; intros resp [= <-]; discriminate].
  destruct (gemini w) as [|o rest] eqn:Eg; simpl;
    [repeat split; auto; solve [discriminate | intros resp [= <-]; discriminate]|].
  destruct o as [msg| |t]; simpl;
    try (repeat split; auto; solve [discriminate | intros resp [= <-]; discriminate]).
  destruct (Js.isBlank t); simpl;
    try (repeat split; auto; solve [discriminate | intros resp [= <-]; discriminate]).
  destruct (enhanceWithFormatting _ t); simpl;
    repeat split; auto; solve [discriminate | intros resp [= <-]; discriminate].
Qed.

Lemma X17_enhance_text_never_uses_the_datastore_witness :
  gemini (after (@enhanceTextHandler Sample.externals
                   {| env_geminiApiKey := false; env_random1 := 1; env_random2 := 2;
                      env_dateNow := 3 |} Sample.shortPraise)
                (mkWorld Sample.freshDb [true] [AiText "Good."] Sample.today))
    = [AiText "Good."].
Proof.
  apply (proj1 (proj2 (proj2 (proj2
           (@X17_enhance_text_never_uses_the_datastore Sample.externals
              {| env_geminiApiKey := false; env_random1 := 1; env_random2 := 2;
                 env_dateNow := 3 |} Sample.shortPraise
              (mkWorld Sample.freshDb [true] [AiText "Good."] Sample.today)))))).
  reflexivity.
Defined.

(** ** The rejection route *)

(** X18. The rejection route has no guard on the state of what it rejects:
    with the datastore up, the owner of a review that has a generation is
    answered 200 whatever the status of the generation and of the review;
    the generation becomes REJECTED with the note of the request and the
    review becomes PENDING. *)
Theorem X18_rejection_has_no_state_guard
    (req : Request) (reviewId : string) (w : World)
    (r : Review) (b : Business) (g : AIReviewGeneration) :
  faults w = [] →
  truthyField (req_reviewId req) = Some reviewId →
  findOwnedReview reviewId (req_userEmail req) (db w) = Some (r, b, Some g) →
  reviewOf (db w) reviewId = Some r →
  result (rejectReviewHandler req) w
    = Ok (respond 200 "Review rejected successfully"
            (Some (withRejection (req_rejectionNote req) g))) ∧
  generationOf (db (after (rejectReviewHandler req) w)) reviewId
    = Some (withRejection (req_rejectionNote req) g) ∧
  reviewOf (db (after (rejectReviewHandler req) w)) reviewId
    = Some (withStatus PENDING r).
Proof.
  intros Hf Hid Hfind Hr.
  assert (Hg : generationOf (db w) reviewId = Some g).
  { unfold findOwnedReview in Hfind. unfold generationOf.
    destruct (List.find _ (reviews (db w))) as [r0|]; simpl in Hfind; [|discriminate].
    destruct (businesses (db w) !! rev_businessId r0); simpl in Hfind; [|discriminate].
    congruence. }
  destruct (rejectReview_calm reviewId (req_rejectionNote req)
              (mkWorld (db w) [] (gemini w) (now w)) g r eq_refl Hg Hr)
    as (w' & Erun & Hg' & Hr').
  unfold rejectReviewHandler, result, after, tryCatch. rewrite Hid.
  unfold mbind at 1 3 5. unfold Io_bind at 1 3 5. unfold prismaRead, prisma. rewrite Hf.
  simpl. rewrite Hfind. unfold mbind, Io_bind. unfold mkWorld in Erun.
  rewrite Erun. simpl. auto.
Qed.

Lemma X18_rejection_has_no_state_guard_witness :
  result (rejectReviewHandler Sample.ownerRequest)
         (mkWorld Scenario.approvedDb [] [] Sample.today)
    = Ok (respond 200 "Review rejected successfully"
            (Some (withRejection (Some "too formal")
                     (Sample.generation 0 GEN_APPROVED)))) ∧
  reviewOf (db (after (rejectReviewHandler Sample.ownerRequest)
                      (mkWorld Scenario.approvedDb [] [] Sample.today))) "review-0"
    = Some (withStatus PENDING (Sample.review 0 APPROVED)).
Proof.
  destruct (X18_rejection_has_no_state_guard Sample.ownerRequest "review-0"
              (mkWorld Scenario.approvedDb [] [] Sample.today)
              (Sample.review 0 APPROVED) Sample.cafe (Sample.generation 0 GEN_APPROVED))
    as (Hrun & _ & Hreview); try (vm_compute; reflexivity).
  split; [exact Hrun|exact Hreview].
Defined.

(** ** Analytics of a QR code *)

Lemma Instant_geb_spec a b :
  Instant_geb a b = true ↔ ym b < ym a ∨ (ym b = ym a ∧ (inMonth b ≤ inMonth a)%N).
Proof.
  unfold Instant_geb.
  rewrite orb_true_iff, andb_true_iff, Z.ltb_lt, Z.eqb_eq, N.leb_le. reflexivity.
Qed.

Global Instance newestFirst_transitive : Transitive newestFirst.
Proof.
  intros a b c. unfold newestFirst. rewrite !Is_true_true, !Instant_geb_spec. lia.
Qed.

Global Instance newestFirst_total : Total newestFirst.
Proof.
  intros a b. unfold newestFirst. rewrite !Is_true_true, !Instant_geb_spec. lia.
Qed.

Lemma getQRCodeAnalytics_ok qrCodeId range w a w' :
  getQRCodeAnalytics qrCodeId range w = (Ok a, w') →
  a = {| qa_qrCode := c ← qrCodes (db w) !! qrCodeId;
                      Some (c, businesses (db w) !! qr_businessId c);
         qa_totalScans := Z.of_nat (length (scansInRange qrCodeId range (db w)));
         qa_recentScans :=
           take 10 (merge_sort newestFirst (scansInRange qrCodeId range (db w))) |} ∧
  db w' = db w.
Proof.
  unfold getQRCodeAnalytics, tryCatch, mbind, Io_bind, mret, Io_ret, promiseAll3,
    prismaRead, prisma, throw, scansInRange.
  destruct (faults w) as [|[] [|[] [|[] rest]]]; simpl; try discriminate;
    intros [= <- <-]; auto.
Qed.

Lemma getQRCodeAnalytics_unchanged qrCodeId range :
  stable sameDb (getQRCodeAnalytics qrCodeId range).
Proof.
  intros w.
  unfold getQRCodeAnalytics, tryCatch, mbind, Io_bind, mret, Io_ret, promiseAll3,
    prismaRead, prisma, throw.
  destruct (faults w) as [|[] [|[] [|[] rest]]]; reflexivity.
Qed.

(** X19. The analytics of a QR code never write. Failures are reported as
    ['Failed to fetch QR code analytics']. An answer holds the number of
    scans the range selects and at most ten of them, newest first: no scan
    that was left out is newer than one that is listed. A range with a
    missing end is not applied: the total is then the number of all scan
    rows of the code. *)
Theorem X19_getQRCodeAnalytics_lists_the_newest_scans
    (qrCodeId : string) (range : DateRange) (w : World) :
  db (after (getQRCodeAnalytics qrCodeId range) w) = db w ∧
  (∀ e, result (getQRCodeAnalytics qrCodeId range) w = Throw e →
        e = "Failed to fetch QR code analytics") ∧
  (∀ a, result (getQRCodeAnalytics qrCodeId range) w = Ok a →
     qa_totalScans a = Z.of_nat (length (scansInRange qrCodeId range (db w))) ∧
     length (qa_recentScans a)
       = Nat.min 10 (length (scansInRange qrCodeId range (db w))) ∧
     (∀ s, s ∈ qa_recentScans a → s ∈ scansInRange qrCodeId range (db w)) ∧
     StronglySorted newestFirst (qa_recentScans a) ∧
     (∀ s s', s ∈ qa_recentScans a → s' ∈ scansInRange qrCodeId range (db w) →
        s' ∉ qa_recentScans a → newestFirst s s') ∧
     (openRange range →
        qa_totalScans a = Z.of_nat (scansOf qrCodeId (db w)))).
Proof.
  split; [apply (getQRCodeAnalytics_unchanged qrCodeId range w)|]. split.
  - intros e. unfold getQRCodeAnalytics, result, tryCatch, throw.
    match goal with
    | |- context [match ?m w with _ => _ end] => destruct (m w) as [[a|e0] w']
    end; simpl; [discriminate|]. intros [= <-]. reflexivity.
  - intros a. unfold result.
    destruct (getQRCodeAnalytics qrCodeId range w) as [o w'] eqn:Erun. simpl.
    intros ->. apply getQRCodeAnalytics_ok in Erun as [-> _]. simpl.
    set (l := scansInRange qrCodeId range (db w)).
    pose proof (merge_sort_Permutation newestFirst l) as Hperm.
    pose proof (StronglySorted_merge_sort newestFirst l) as Hsorted.
    rewrite <- (take_drop 10 (merge_sort newestFirst l)) in Hsorted.
    split; [reflexivity|]. split; [|split; [|split; [|split]]].
    + rewrite length_take, (Permutation_length Hperm). reflexivity.
    + intros s Hs. rewrite <- Hperm, <- (take_drop 10 (merge_sort newestFirst l)).
      apply elem_of_app. left. exact Hs.
    + eapply StronglySorted_app_1_l. exact Hsorted.
    + intros s s' Hs Hs' Hout.
      eapply StronglySorted_app_1_elem_of; [exact Hsorted|exact Hs|].
      rewrite <- Hperm, <- (take_drop 10 (merge_sort newestFirst l)) in Hs'.
      apply elem_of_app in Hs' as [Hin|Hin]; [contradiction|exact Hin].
    + intros Hopen. f_equal. unfold l, scansInRange, scansOf. f_equal.
      apply list_filter_iff. intros s. unfold scanMatches.
      rewrite Is_true_true, andb_true_iff, String.eqb_eq.
      destruct Hopen as [-> | ->]; [|destruct (range_startDate range)]; tauto.
Qed.

Lemma X19_getQRCodeAnalytics_lists_the_newest_scans_witness :
  ∃ a, result (getQRCodeAnalytics "q1" Scenario.noRange)
              (mkWorld Scenario.scannedDb [] [] Sample.nextMonth) = Ok a ∧
       qa_totalScans a = 2 ∧
       qa_recentScans a = [Scenario.scanAt Sample.nextMonth; Scenario.scanAt Sample.today].
Proof.
  eexists. split; [vm_compute; reflexivity|].
  split; [|reflexivity].
  apply (proj1 (proj2 (proj2 (X19_getQRCodeAnalytics_lists_the_newest_scans
           "q1" Scenario.noRange (mkWorld Scenario.scannedDb [] [] Sample.nextMonth)))
           _ eq_refl)).
Defined.

(** *** GET /qr-codes/:id/analytics *)

(** X20. The analytics route always answers, and answers 200 only with the
    analytics of a QR code of the business of the signed-in user: a code of
    another business is never disclosed, whatever the datastore does. *)
Theorem X20_analytics_route_discloses_own_codes_only
    (userEmail qrCodeId : string) (range : DateRange) (w : World) :
  ∃ resp, result (qrAnalyticsHandler userEmail qrCodeId range) w = Ok resp ∧
    (res_status resp = 200 →
     ∃ businessId b c a,
       findBusinessByEmail userEmail (db w) = Some (businessId, b) ∧
       qrCodes (db w) !! qrCodeId = Some c ∧ qr_businessId c = businessId ∧
       res_data resp = Some a ∧
       qa_totalScans a = Z.of_nat (length (scansInRange qrCodeId range (db w)))).
Proof.
  unfold qrAnalyticsHandler, result, tryCatch.
  unfold mbind at 1. unfold Io_bind at 1.
  destruct (prismaRead (findBusinessByEmail userEmail) w) as [[business|e] w1] eqn:Efind;
    simpl; [|eexists; split; [reflexivity|discriminate]].
  apply prismaRead_ok in Efind as (-> & Hdb1 & _).
  destruct (findBusinessByEmail userEmail (db w)) as [[businessId b]|]; simpl;
    [|eexists; split; [reflexivity|discriminate]].
  unfold mbind, Io_bind.
  destruct (getQRCodeAnalytics qrCodeId range w1) as [[a|e] w2] eqn:Erun; simpl;
    [|eexists; split; [reflexivity|discriminate]].
  apply getQRCodeAnalytics_ok in Erun as [-> _]. simpl. rewrite Hdb1.
  destruct (qrCodes (db w) !! qrCodeId) as [c|]; simpl;
    [|eexists; split; [reflexivity|discriminate]].
  destruct (String.eqb (qr_businessId c) businessId) eqn:Eown; simpl;
    [|eexists; split; [reflexivity|discriminate]].
  apply String.eqb_eq in Eown.
  eexists. split; [reflexivity|]. intros _. exists businessId, b, c. eauto 7.
Qed.

Lemma X20_analytics_route_discloses_own_codes_only_witness :
  ∃ resp a, result (qrAnalyticsHandler "owner@cafe.example" "q1" Scenario.noRange)
                   (mkWorld Scenario.scannedDb [] [] Sample.nextMonth) = Ok resp ∧
            res_status resp = 200 ∧ res_data resp = Some a ∧ qa_totalScans a = 2.
Proof.
  destruct (X20_analytics_route_discloses_own_codes_only
              "owner@cafe.example" "q1" Scenario.noRange
              (mkWorld Scenario.scannedDb [] [] Sample.nextMonth))
    as (resp & Hrun & H200).
  exists resp. pose proof Hrun as Hresp. vm_compute in Hresp. injection Hresp as <-.
  destruct (H200 eq_refl) as (businessId & b & c & a & _ & _ & _ & Hdata & Htotal).
  exists a. split; [exact Hrun|]. split; [reflexivity|].
  split; [exact Hdata|exact Htotal].
Defined.

(** ** Small functions *)

Lemma fileName_char c :
  fileNameChar (Js.lowerChar (if isAlnum c then c else "-"%char)) = true.
Proof. destruct c as [[] [] [] [] [] [] [] []]; reflexivity. Qed.

Lemma fileName_char_idem c :
  Js.lowerChar (if isAlnum (Js.lowerChar (if isAlnum c then c else "-"%char))
                then Js.lowerChar (if isAlnum c then c else "-"%char)
                else "-"%char)
  = Js.lowerChar (if isAlnum c then c else "-"%char).
Proof. destruct c as [[] [] [] [] [] [] [] []]; reflexivity. Qed.

(** X21. The file name a QR code is downloaded under has as many characters
    as the title it is made from, every one of them a digit, a lower-case
    letter or a hyphen; making a file name of a file name changes
    nothing. *)
Theorem X21_fileNameOf_is_a_safe_name (title : string) :
  String.length (fileNameOf title) = String.length title ∧
  allChars fileNameChar (fileNameOf title) = true ∧
  fileNameOf (fileNameOf title) = fileNameOf title.
Proof.
  unfold fileNameOf, Js.toLowerCase.
  induction title as [|c t (IHlen & IHchars & IHidem)]; [repeat split|].
  cbn [Js.mapChars String.length allChars]. repeat split.
  - f_equal. exact IHlen.
  - rewrite fileName_char. exact IHchars.
  - rewrite fileName_char_idem. f_equal. exact IHidem.
Qed.

(** X22. The token estimate is the number of characters divided by four,
    rounded up: four times the estimate covers the text and overshoots it
    by less than four characters. *)
Theorem X22_estimateTokens_rounds_up (text : string) :
  (String.length text ≤ 4 * estimateTokens text)%nat ∧
  (4 * estimateTokens text < String.length text + 4)%nat.
Proof.
  unfold estimateTokens.
  pose proof (Nat.div_mod_eq (String.length text + 3) 4) as Hdiv.
  pose proof (Nat.mod_upper_bound (String.length text + 3) 4 ltac:(lia)) as Hmod.
  lia.
Qed.

(** *** Prices *)

(** X23. Every plan of the catalogue is found again under its own id, and
    [getPlan] answers nothing but plans of the catalogue. The price of an id
    that upper-cases to ['FREE'] is 0 with billing cycle ['free']; an id of
    no plan is priced as the Free plan too, but billed monthly or yearly
    with no price in rupees; the Premium plan costs 4149 rupees a month and
    ten times as much a year. *)
Theorem X23_catalogue_and_prices (planId billingCycle : string) :
  (∀ p, p ∈ getAllPlans → getPlan (plan_id p) = p) ∧
  getPlan planId ∈ getAllPlans ∧
  (Js.toUpperCase planId = "FREE" →
     getPlanPricing planId billingCycle
       = {| pricing_price := 0%float; pricing_priceINR := Some 0;
            pricing_billingCycle := "free" |}) ∧
  (Js.toUpperCase planId ≠ "FREE" → Js.toUpperCase planId ≠ "PREMIUM" →
     pricing_priceINR (getPlanPricing planId billingCycle) = None ∧
     pricing_price (getPlanPricing planId billingCycle) = 0%float ∧
     pricing_billingCycle (getPlanPricing planId billingCycle)
       = if String.eqb billingCycle "yearly" then "yearly" else "monthly") ∧
  (Js.toUpperCase planId = "PREMIUM" →
     pricing_priceINR (getPlanPricing planId billingCycle)
       = Some (if String.eqb billingCycle "yearly" then 10 * 4149 else 4149)).
Proof.
  split; [|split; [|split; [|split]]].
  - intros p Hp. unfold getAllPlans in Hp.
    repeat (apply elem_of_cons in Hp as [->|Hp]; [reflexivity|]). inversion Hp.
  - unfold getAllPlans. destruct (getPlan_cases planId) as [-> | ->];
      [left|right; left].
  - intros E. unfold getPlanPricing. rewrite E. reflexivity.
  - intros Hfree Hpremium. unfold getPlanPricing.
    rewrite (proj2 (String.eqb_neq _ _) Hfree).
    assert (getPlanPrice planId = FREE_price) as ->.
    { unfold getPlanPrice, planPrices. simpl.
      rewrite !lookup_insert_ne, lookup_empty by congruence. reflexivity. }
    destruct (String.eqb billingCycle "yearly"); simpl; repeat split.
  - intros E. unfold getPlanPricing, getPlanPrice. rewrite E.
    destruct (String.eqb billingCycle "yearly"); reflexivity.
Qed.

Lemma X23_catalogue_and_prices_witness :
  getPlan (plan_id PREMIUM) = PREMIUM ∧
  pricing_priceINR (getPlanPricing "pro" "yearly") = None ∧
  pricing_priceINR (getPlanPricing "premium" "yearly") = Some 41490.
Proof.
  split; [|split].
  - apply (proj1 (X23_catalogue_and_prices "premium" "yearly")). right. left.
  - apply (proj1 (proj2 (proj2 (proj2 (X23_catalogue_and_prices "pro" "yearly")))));
      discriminate.
  - apply (proj2 (proj2 (proj2 (proj2 (X23_catalogue_and_prices "premium" "yearly"))))).
    reflexivity.
Defined.

(** ** The cancel route and the usage analytics *)

Lemma findBusinessByEmail_known email d businessId b :
  findBusinessByEmail email d = Some (businessId, b) →
  businesses d !! businessId = Some b.
Proof.
  unfold findBusinessByEmail. intros Hfind.
  apply find_some_holds in Hfind as [_ Hin].
  apply elem_of_map_to_list in Hin. exact Hin.
Qed.

(** X24. With the datastore up, the cancel route answers 404 to a user
    without a business and 200 with the cancelled subscription to a user
    whose business has one; a user whose business has no subscription is
    answered 500 ['Failed to cancel subscription'], and nothing is
    written. *)
Theorem X24_cancel_route (userEmail : string) (w : World) :
  faults w = [] →
  (findBusinessByEmail userEmail (db w) = None →
     result (cancelHandler userEmail) w = Ok (respond 404 "Business not found" None)) ∧
  (∀ businessId b, findBusinessByEmail userEmail (db w) = Some (businessId, b) →
     subscriptions (db w) !! businessId = None →
     result (cancelHandler userEmail) w
       = Ok (respond 500 "Failed to cancel subscription" None) ∧
     db (after (cancelHandler userEmail) w) = db w) ∧
  (∀ businessId b s, findBusinessByEmail userEmail (db w) = Some (businessId, b) →
     subscriptions (db w) !! businessId = Some s →
     result (cancelHandler userEmail) w
       = Ok (respond 200 "Subscription cancelled successfully"
               (Some (withCancellation (now w) s))) ∧
     subscriptions (db (after (cancelHandler userEmail) w)) !! businessId
       = Some (withCancellation (now w) s)).
Proof.
  intros Hf. split; [|split].
  - intros Hnone. unfold cancelHandler. io_unfold. rewrite Hf. simpl.
    rewrite Hnone. reflexivity.
  - intros businessId b Hfind Hnone.
    pose proof (cancelSubscription_without_subscription businessId
                  (mkWorld (db w) [] (gemini w) (now w)) Hnone eq_refl) as Erun.
    unfold cancelHandler, result, after, tryCatch, mbind, Io_bind, prismaRead, prisma.
    rewrite Hf. simpl. rewrite Hfind. unfold mkWorld in Erun. rewrite Erun.
    split; reflexivity.
  - intros businessId b s Hfind Hs.
    pose proof (cancelSubscription_run businessId b s
                  (mkWorld (db w) [] (gemini w) (now w))
                  (findBusinessByEmail_known _ _ _ _ Hfind) Hs eq_refl) as Erun.
    unfold cancelHandler, result, after, tryCatch, mbind, Io_bind, prismaRead, prisma.
    rewrite Hf. simpl. rewrite Hfind. unfold mkWorld in Erun. rewrite Erun. simpl.
    split; [reflexivity|apply lookup_insert_eq].
Qed.

Lemma X24_cancel_route_witness :
  result (cancelHandler "owner@cafe.example")
         (mkWorld Sample.freshDb [] [] Sample.today)
    = Ok (respond 500 "Failed to cancel subscription" None) ∧
  result (cancelHandler "owner@cafe.example")
         (mkWorld Sample.enhancedDb [] [] Sample.today)
    = Ok (respond 200 "Subscription cancelled successfully"
            (Some (withCancellation Sample.today
                     (Sample.subscription "PREMIUM" SUB_ACTIVE)))).
Proof.
  split.
  - apply (proj1 (proj2 (X24_cancel_route "owner@cafe.example"
                    (mkWorld Sample.freshDb [] [] Sample.today) eq_refl))
                 "b1" Sample.cafe); vm_compute; reflexivity.
  - apply (proj2 (proj2 (X24_cancel_route "owner@cafe.example"
                    (mkWorld Sample.enhancedDb [] [] Sample.today) eq_refl))
                 "b1" Sample.cafe (Sample.subscription "PREMIUM" SUB_ACTIVE));
      vm_compute; reflexivity.
Defined.

(** X25. With the datastore up, the usage analytics of a business report its
    subscription, the plan it resolves to and the two counts of the current
    month, and they agree with the entitlement check: on the Free plan the
    check of AI enhancements and of reviews answers with the caps 5 and 10
    and, as [used], the counts the analytics report; on the Premium plan
    both checks answer unlimited. *)
Theorem X25_usage_analytics_agree_with_the_check
    (businessId : string) (b : Business) (w : World) :
  faults w = [] →
  businesses (db w) !! businessId = Some b →
  ∃ a, result (getSubscriptionAnalytics businessId) w = Ok a ∧
    an_subscription a = subscriptions (db w) !! businessId ∧
    an_aiEnhancementsUsed a = countGenerations businessId (monthStart (now w)) (db w) ∧
    an_reviewsUsed a = countReviews businessId (monthStart (now w)) (db w) ∧
    (an_currentPlan a = FREE ∨ an_currentPlan a = PREMIUM) ∧
    (an_currentPlan a = FREE →
       result (checkUsageLimit businessId "aiEnhancementsPerMonth") w
         = Ok (cappedResult 5 (an_aiEnhancementsUsed a)) ∧
       result (checkUsageLimit businessId "reviewsPerMonth") w
         = Ok (cappedResult 10 (an_reviewsUsed a))) ∧
    (an_currentPlan a = PREMIUM →
       result (checkUsageLimit businessId "aiEnhancementsPerMonth") w
         = Ok unlimitedResult ∧
       result (checkUsageLimit businessId "reviewsPerMonth") w = Ok unlimitedResult).
Proof.
  intros Hf Hb.
  assert (Hhead : head (faults w) ≠ Some true) by (rewrite Hf; discriminate).
  unfold result. rewrite !(checkUsageLimit_lookup_ok _ _ _ Hhead).
  unfold getSubscriptionAnalytics, checkFeatureLimit, findBusiness, popFault.
  io_unfold. unfold promiseAll2, prisma. rewrite Hf, Hb. simpl.
  destruct (subscriptions (db w) !! businessId) as [s|]; simpl.
  - eexists. split; [reflexivity|]. simpl. do 3 (split; [reflexivity|]).
    split; [apply getPlan_cases|].
    split; intros E; rewrite E; split; reflexivity.
  - eexists. split; [reflexivity|]. simpl. do 3 (split; [reflexivity|]).
    split; [left; reflexivity|].
    split; [intros _; split; reflexivity|discriminate].
Qed.

Lemma X25_usage_analytics_agree_with_the_check_witness :
  ∃ a, result (getSubscriptionAnalytics "b1")
              (mkWorld Sample.busyDb [] [] Sample.today) = Ok a ∧
       an_aiEnhancementsUsed a = 5 ∧
       result (checkUsageLimit "b1" "aiEnhancementsPerMonth")
              (mkWorld Sample.busyDb [] [] Sample.today)
         = Ok (cappedResult 5 (an_aiEnhancementsUsed a)).
Proof.
  destruct (X25_usage_analytics_agree_with_the_check "b1" Sample.cafe
              (mkWorld Sample.busyDb [] [] Sample.today) eq_refl eq_refl)
    as (a & Hrun & _ & Hused & _ & _ & Hfree & _).
  exists a. split; [exact Hrun|]. split.
  - rewrite Hused. vm_compute. reflexivity.
  - apply Hfree. pose proof Hrun as Ha. vm_compute in Ha. injection Ha as <-. reflexivity.
Defined.

(** ** The track-scan route *)

Lemma scansInRange_open qrCodeId range d :
  openRange range → length (scansInRange qrCodeId range d) = scansOf qrCodeId d.
Proof.
  intros Hopen. unfold scansInRange, scansOf. f_equal.
  apply list_filter_iff. intros s. unfold scanMatches.
  rewrite Is_true_true, andb_true_iff, String.eqb_eq.
  destruct Hopen as [-> | ->]; [|destruct (range_startDate range)]; tauto.
Qed.

Lemma trackScan_ok qrCodeId scanData w w' :
  trackScan qrCodeId scanData w = (Ok (), w') →
  ∃ c, qrCodes (db w) !! qrCodeId = Some c ∧
       scansOf qrCodeId (db w') = S (scansOf qrCodeId (db w)) ∧
       scansCountOf qrCodeId (db w') = Some (qr_scansCount c + 1).
Proof.
  unfold trackScan, tryCatch.
  match goal with
  | |- context [match ?m w with _ => _ end] => destruct (m w) as [[[]|e] w1] eqn:Erun
  end; simpl; [|discriminate].
  intros [= <-].
  apply bind_ok in Erun as (t & w0 & [= <- <-] & Erun).
  apply bind_ok in Erun as ([] & w2 & Ecreate & Erun).
  apply bind_ok in Erun as ([] & w3 & Eincr & [= <-]).
  apply prisma_ok in Ecreate as ([= Hdb2] & _).
  apply prisma_ok in Eincr as (Eincr & _).
  unfold incrementScans in Eincr. rewrite <- Hdb2 in Eincr. simpl in Eincr.
  destruct (qrCodes (db w) !! qrCodeId) as [c|]; [|discriminate].
  injection Eincr as Hdb3. exists c. split; [reflexivity|].
  rewrite <- Hdb3. unfold scansOf, scansCountOf. simpl.
  rewrite lookup_insert_eq, filter_app, length_app, filter_cons. simpl.
  rewrite decide_True by reflexivity. simpl. split; [lia|reflexivity].
Qed.

(** X26. The public track-scan route always answers, with 200 or 500. When
    it answers 200 the code exists, one scan row has been added and the
    counter of the code has gone up by one, and the analytics of the code,
    asked without a date range, count one scan more than before. When it
    answers 500 the counter has not moved. *)
Theorem X26_track_scan_route (qrCodeId : string) (scanData : ScanData) (w : World) :
  ∃ resp, result (trackScanHandler qrCodeId scanData) w = Ok resp ∧
    (res_status resp = 200 ∨ res_status resp = 500) ∧
    (res_status resp = 200 →
       ∃ c, qrCodes (db w) !! qrCodeId = Some c ∧
         scansCountOf qrCodeId (db (after (trackScanHandler qrCodeId scanData) w))
           = Some (qr_scansCount c + 1) ∧
         scansOf qrCodeId (db (after (trackScanHandler qrCodeId scanData) w))
           = S (scansOf qrCodeId (db w)) ∧
         ∀ range a a' w1 w2,
           openRange range → db w1 = db w →
           db w2 = db (after (trackScanHandler qrCodeId scanData) w) →
           result (getQRCodeAnalytics qrCodeId range) w1 = Ok a →
           result (getQRCodeAnalytics qrCodeId range) w2 = Ok a' →
           qa_totalScans a' = qa_totalScans a + 1) ∧
    (res_status resp = 500 →
       qrCodes (db (after (trackScanHandler qrCodeId scanData) w)) = qrCodes (db w)).
Proof.
  pose proof (trackScan_failure_keeps_counter qrCodeId scanData w) as Hfail.
  unfold trackScanHandler, result, after, tryCatch, mbind, Io_bind in *.
  destruct (trackScan qrCodeId scanData w) as [[[]|e] w'] eqn:Erun; simpl in *.
  - eexists. split; [reflexivity|]. split; [left; reflexivity|].
    split; [|discriminate]. intros _.
    destruct (trackScan_ok _ _ _ _ Erun) as (c & Hc & Hrows & Hcount).
    exists c. repeat split; try assumption.
    intros range a a' w1 w2 Hopen Hdb1 Hdb2.
    destruct (getQRCodeAnalytics qrCodeId range w1) as [o1 w1'] eqn:E1.
    destruct (getQRCodeAnalytics qrCodeId range w2) as [o2 w2'] eqn:E2. simpl.
    intros -> ->.
    apply getQRCodeAnalytics_ok in E1 as [-> _].
    apply getQRCodeAnalytics_ok in E2 as [-> _]. simpl.
    rewrite !scansInRange_open by assumption. rewrite Hdb1, Hdb2, Hrows. lia.
  - eexists. split; [reflexivity|]. split; [right; reflexivity|].
    split; [discriminate|]. intros _. apply (Hfail e). reflexivity.
Qed.

Lemma X26_track_scan_route_witness :
  ∃ resp, result (trackScanHandler "q1"
                    {| sd_ipAddress := None; sd_userAgent := None; sd_location := None |})
                 (mkWorld Sample.freshDb [] [] Sample.today) = Ok resp ∧
    res_status resp = 200 ∧
    scansCountOf "q1"
      (db (after (trackScanHandler "q1"
                    {| sd_ipAddress := None; sd_userAgent := None; sd_location := None |})
                 (mkWorld Sample.freshDb [] [] Sample.today))) = Some 1.
Proof.
  destruct (X26_track_scan_route "q1"
              {| sd_ipAddress := None; sd_userAgent := None; sd_location := None |}
              (mkWorld Sample.freshDb [] [] Sample.today))
    as (resp & Hrun & _ & H200 & _).
  exists resp. pose proof Hrun as Hresp. vm_compute in Hresp. injection Hresp as <-.
  destruct (H200 eq_refl) as (c & Hc & Hcount & _).
  split; [exact Hrun|]. split; [reflexivity|].
  rewrite Hcount. vm_compute in Hc. injection Hc as <-. reflexivity.
Defined.

